(** * Proforma invoice app: a shallow embedding of the business rules

    The development follows two source files:
    - [general_functions/general_functions.py] (inter-company linkage), and
    - [doctype/proforma/proforma.py] (stock reservation, document mapping,
      status updates).

    Conventions of the embedding.
    - Quantities ([Float] columns) are exact rationals [Q]; rounding of
      machine floats is outside the model.
    - A nullable column is an [option]; [flt] turns a missing number into 0
      as the framework helper does.
    - Python dictionaries keyed by strings are [gmap string _].
    - A raised exception is the [Err] branch of [result]; database writes are
      either threaded through an explicit store or returned as a list of
      write operations, in program order.
    - Host-framework services (the ORM, the document mapper, settings
      look-ups) appear as explicit tables or as fields of an environment
      record that the embedded functions receive as an argument. *)

From Stdlib Require Import QArith Qminmax Qabs.
From stdpp Require Import gmap strings list.
From stdpp Require Import pretty.

Local Open Scope string_scope.
Local Open Scope list_scope.

(** ** Python-side helpers *)

Module Py.

Inductive error : Type :=
| ValidationError (msg : string)
| PermissionError (msg : string)
| DoesNotExistError (doctype name : string)
| KeyError (key : string)
| TypeError (what : string)
| ZeroDivisionError.

Inductive result (A : Type) : Type :=
| Ok (a : A)
| Err (e : error).
Arguments Ok {A} a.
Arguments Err {A} e.

Definition bind {A B : Type} (r : result A) (k : A -> result B) : result B :=
  match r with
  | Ok a => k a
  | Err e => Err e
  end.

Definition is_ok {A : Type} (r : result A) : bool :=
  match r with Ok _ => true | Err _ => false end.

(** Truthiness of a string that may be [None]. *)
Definition truthy_str (o : option string) : bool :=
  match o with
  | Some s => negb (String.eqb s "")
  | None => false
  end.

(** Truthiness of a number that may be [None]. *)
Definition truthy_Z (o : option Z) : bool :=
  match o with
  | Some z => negb (Z.eqb z 0)
  | None => false
  end.

Definition truthy_Q (q : Q) : bool := negb (Qeq_bool q 0).

(** [frappe.utils.flt] without a precision: [None] becomes 0. *)
Definition flt (o : option Q) : Q :=
  match o with
  | Some q => q
  | None => 0%Q
  end.

(** [d.get(k, default)] on a dictionary. *)
Definition dict_get {V : Type} (d : gmap string V) (k : string) (dflt : V) : V :=
  match d !! k with
  | Some v => v
  | None => dflt
  end.

Definition Qltb (x y : Q) : bool := negb (Qle_bool y x).
Definition Qleb (x y : Q) : bool := Qle_bool x y.

(** Python's [min] on two numbers returns the first one on a tie. *)
Definition pymin (x y : Q) : Q := if Qltb y x then y else x.

Definition Qabs_ (x : Q) : Q := if Qltb x 0 then Qopp x else x.

Definition str_in (s : string) (l : list string) : bool :=
  existsb (String.eqb s) l.

Definition opt_str_eqb (o : option string) (s : string) : bool :=
  match o with
  | Some t => String.eqb t s
  | None => false
  end.

End Py.

Import Py.

(** ** general_functions.py *)

Module GeneralFunctions.

(** [frappe.db.set_value(doctype, name, field, value)]. *)
Record DbWrite : Type := mkWrite {
  w_doctype : string;
  w_name : string;
  w_field : string;
  w_value : string
}.

(** What [set_value] stores on a row besides the field: the calls in
    general_functions.py leave [update_modified] at its default, so the row's [modified]
    and [modified_by] are rewritten with the time of the call and the
    session user. *)
Definition stamp (now user : string) (fs : gmap string string) : gmap string string :=
  <["modified_by" := user]> (<["modified" := now]> fs).

(** The generic document table: (doctype, name) to field values.  An update
    of a row that does not exist changes nothing. *)
Definition apply_write (now user : string)
    (st : gmap (string * string) (gmap string string))
    (w : DbWrite) : gmap (string * string) (gmap string string) :=
  alter (fun fs => stamp now user (<[w_field w := w_value w]> fs))
    (w_doctype w, w_name w) st.

(** The writes of one call in order; [clock i] is the time of the write
    number [i] counted from [i0]. *)
Fixpoint apply_writes_from (clock : nat -> string) (user : string) (i0 : nat)
    (ws : list DbWrite) (st : gmap (string * string) (gmap string string)) :
    gmap (string * string) (gmap string string) :=
  match ws with
  | [] => st
  | w :: rest =>
      apply_writes_from clock user (S i0) rest (apply_write (clock i0) user st w)
  end.

Definition apply_writes (clock : nat -> string) (user : string) (ws : list DbWrite)
    (st : gmap (string * string) (gmap string string)) :
    gmap (string * string) (gmap string string) :=
  apply_writes_from clock user 0 ws st.

Definition unlink_inter_company_doc (doctype name : string)
    (inter_company_reference : option string) : list DbWrite :=
  let '(ref_doc, ref_field) :=
    if str_in doctype ["Sales Invoice"; "Purchase Invoice"] then
      (if String.eqb doctype "Sales Invoice" then "Purchase Invoice" else "Sales Invoice",
       "inter_company_invoice_reference")
    else
      (if String.eqb doctype "Sales Order" then "Purchase Order" else "Sales Order",
       "inter_company_order_reference") in
  if truthy_str inter_company_reference then
    [mkWrite doctype name ref_field "";
     mkWrite ref_doc (default "" inter_company_reference) ref_field ""]
  else [].

Definition update_linked_doc (doctype name : string)
    (inter_company_reference : option string) : list DbWrite :=
  let ref_field :=
    if str_in doctype ["Sales Invoice"; "Purchase Invoice"] then
      "inter_company_invoice_reference"
    else "inter_company_order_reference" in
  if truthy_str inter_company_reference then
    [mkWrite doctype (default "" inter_company_reference) ref_field name]
  else [].

(** Rows read by [validate_inter_company_party]. *)
Record Party : Type := mkParty {
  p_doctype : string;              (* "Customer" or "Supplier" *)
  p_name : string;
  p_represents_company : option string;
  p_is_internal_customer : Z;
  p_is_internal_supplier : Z
}.

Record TxDoc : Type := mkTxDoc {
  d_doctype : string;
  d_name : string;
  d_company : option string;
  d_supplier : option string;
  d_customer : option string
}.

Record Allowed : Type := mkAllowed {
  a_parenttype : string;
  a_parent : string;
  a_company : string
}.

Record Db : Type := mkDb {
  parties : list Party;
  docs : list TxDoc;
  allowed_to_transact_with : list Allowed
}.

Definition get_doc (db : Db) (doctype name : string) : result TxDoc :=
  match List.find (fun d => String.eqb (d_doctype d) doctype && String.eqb (d_name d) name)
          (docs db) with
  | Some d => Ok d
  | None => Err (DoesNotExistError doctype name)
  end.

Definition opt_eqb (a b : option string) : bool :=
  match a, b with
  | Some x, Some y => String.eqb x y
  | None, None => true
  | _, _ => false
  end.

(** [frappe.db.get_value(partytype, {"represents_company": c}, "name")]. *)
Definition party_representing (db : Db) (partytype : string) (c : option string) :
    option string :=
  p_name <$> List.find (fun p => String.eqb (p_doctype p) partytype
                                 && opt_eqb (p_represents_company p) c) (parties db).

(** [frappe.get_cached_value(partytype, name, "represents_company")]. *)
Definition represents_company_of (db : Db) (partytype : string) (name : option string) :
    option string :=
  match List.find (fun p => String.eqb (p_doctype p) partytype
                            && opt_eqb (Some (p_name p)) name) (parties db) with
  | Some p => p_represents_company p
  | None => None
  end.

Definition internal_flag (internal : string) (p : Party) : Z :=
  if String.eqb internal "is_internal_customer" then p_is_internal_customer p
  else p_is_internal_supplier p.

(** [frappe.db.get_value(partytype, {"name": party, internal: 1}, "name")]. *)
Definition internal_party (db : Db) (partytype party internal : string) : option string :=
  p_name <$> List.find (fun p => String.eqb (p_doctype p) partytype
                                 && String.eqb (p_name p) party
                                 && Z.eqb (internal_flag internal p) 1) (parties db).

Definition allowed_companies (db : Db) (partytype party : string) : list string :=
  a_company <$> List.filter (fun a => String.eqb (a_parenttype a) partytype
                                 && String.eqb (a_parent a) party)
                       (allowed_to_transact_with db).

(** The first [if]/[else] of [validate_inter_company_party]:
    (partytype, ref_partytype, internal, ref_doc). *)
Definition party_roles (doctype : string) : string * string * string * string :=
  if str_in doctype ["Sales Invoice"; "Sales Order"; "Porforma"] then
    ("Customer", "Supplier", "is_internal_customer",
     if String.eqb doctype "Sales Invoice" then "Purchase Invoice" else "Purchase Order")
  else
    ("Supplier", "Customer", "is_internal_supplier",
     if String.eqb doctype "Purchase Invoice" then "Sales Invoice" else "Proforma").

(** [doc.supplier if doctype in [...] else doc.customer]. *)
Definition ref_party_of (doctype : string) (doc : TxDoc) : option string :=
  if str_in doctype ["Sales Invoice"; "Sales Order"; "Proforma"] then d_supplier doc
  else d_customer doc.

Definition validate_inter_company_party (db : Db) (doctype : string)
    (party : option string) (company : string)
    (inter_company_reference : option string) : result unit :=
  if negb (truthy_str party) then Ok tt else
  let party := default "" party in
  let '(partytype, ref_partytype, internal, ref_doc) := party_roles doctype in
  if truthy_str inter_company_reference then
    bind (get_doc db ref_doc (default "" inter_company_reference)) (fun doc =>
    let ref_party := ref_party_of doctype doc in
    if negb (opt_str_eqb (party_representing db partytype (d_company doc)) party) then
      Err (ValidationError ("Invalid " ++ partytype ++ " for Inter Company Transaction."))
    else if negb (opt_str_eqb (represents_company_of db ref_partytype ref_party) company) then
      Err (ValidationError "Invalid Company for Inter Company Transaction.")
    else Ok tt)
  else if opt_str_eqb (internal_party db partytype party internal) party then
    let companies := allowed_companies db partytype party in
    if negb (str_in company companies) then
      Err (ValidationError (partytype ++ " not allowed to transact with " ++ company
                            ++ ". Please change the Company."))
    else Ok tt
  else Ok tt.

End GeneralFunctions.

(** ** doctype/proforma/proforma.py: stock reservation *)

Module StockReservation.

(** A Proforma Item as the reservation code reads it.  [conversion_factor]
    is [None] when the object has no such key, [qty_to_reserve] is [None]
    when the attribute was never set ([hasattr] is false). *)
Record SoItem : Type := mkSoItem {
  name : string;
  idx : Z;
  item_code : string;
  warehouse : string;
  stock_qty : Q;
  delivered_qty : option Q;
  conversion_factor : option Q;
  reserve_stock : option Z;
  picked_qty : option Q;
  qty_to_reserve : option Q;
  uom : string;
  stock_uom : string;
  from_voucher_no : option string;
  from_voucher_detail_no : option string;
  serial_and_batch_bundle : option string
}.

Record SbbEntry : Type := mkSbbEntry {
  sbb_serial_no : option string;
  sbb_batch_no : option string;
  sbb_qty : Q;
  sbb_warehouse : string
}.

Record SbEntry : Type := mkSbEntry {
  sb_serial_no : option string;
  sb_batch_no : option string;
  sb_qty : Q;
  sb_warehouse : string
}.

(** A Stock Reservation Entry row. *)
Record Sre : Type := mkSre {
  sre_name : string;
  sre_docstatus : Z;
  sre_status : string;
  sre_item_code : string;
  sre_warehouse : string;
  sre_has_serial_no : bool;
  sre_has_batch_no : bool;
  sre_voucher_type : string;
  sre_voucher_no : string;
  sre_voucher_detail_no : string;
  sre_available_qty : Q;
  sre_voucher_qty : Q;
  sre_reserved_qty : Q;
  sre_delivered_qty : Q;
  sre_company : option string;
  sre_stock_uom : string;
  sre_project : option string;
  sre_from_voucher_type : option string;
  sre_from_voucher_no : option string;
  sre_from_voucher_detail_no : option string;
  sre_reservation_based_on : string;
  sre_sb_entries : list SbEntry
}.

Record ProformaDoc : Type := mkProformaDoc {
  pf_doctype : string;
  pf_name : string;
  pf_company : option string;
  pf_project : option string;
  pf_action : option string;
  pf_set_warehouse : option string;
  pf_items : list SoItem
}.

(** One element of [items_details]. *)
Record ItemDetail : Type := mkItemDetail {
  id_proforma_item : string;
  id_warehouse : string;
  id_qty_to_reserve : option Q;
  id_conversion_factor : option Q;
  id_from_voucher_no : option string;
  id_from_voucher_detail_no : option string;
  id_serial_and_batch_bundle : option string
}.

(** What the function reads from, and hands to, the host framework. *)
Record Host : Type := mkHost {
  enable_stock_reservation : option Z;
  allow_partial_reservation : option Z;
  warehouse_is_group : string -> option Z;
  item_flags : string -> bool * bool * bool;
  get_stock_balance : string -> string -> Q;
  get_batch_qty : string -> string -> string -> option string -> Q;
  get_sre_reserved_qty_details_for_voucher : list Sre -> string -> string -> gmap string Q;
  get_proforma_item : string -> option SoItem;
  get_serial_and_batch_bundle : string -> option (list SbbEntry);
  save_and_submit : Sre -> list Sre -> list Sre
}.

Definition get_unreserved_qty (item : SoItem) (reserved_qty_details : gmap string Q) : Q :=
  let existing_reserved_qty := dict_get reserved_qty_details (name item) 0%Q in
  (stock_qty item
   - flt (delivered_qty item) * match conversion_factor item with Some c => c | None => 1 end
   - existing_reserved_qty)%Q.

Definition validate_stock_reservation_settings (enable : option Z) (voucher_doctype : string) :
    result unit :=
  if negb (truthy_Z enable) then
    Err (ValidationError "Please enable Stock Reservation in the Stock Settings.")
  else
    let allowed_voucher_types := ["Proforma"] in
    if negb (str_in voucher_doctype allowed_voucher_types) then
      Err (ValidationError "Stock Reservation can only be created against Proforma.")
    else Ok tt.

Definition Qsum (l : list Q) : Q := fold_right Qplus 0%Q l.

(** The rows the reserved-quantity query of [get_available_qty_to_reserve]
    selects. *)
Definition sre_counts (item_code warehouse : string) (ignore_sre : option string)
    (e : Sre) : bool :=
  Z.eqb (sre_docstatus e) 1
  && String.eqb (sre_item_code e) item_code
  && String.eqb (sre_warehouse e) warehouse
  && Qle_bool (sre_delivered_qty e) (sre_reserved_qty e)
  && negb (str_in (sre_status e) ["Delivered"; "Cancelled"])
  && (if truthy_str ignore_sre
      then negb (String.eqb (sre_name e) (default "" ignore_sre))
      else true).

Definition get_available_qty_to_reserve (h : Host) (sres : list Sre)
    (item_code warehouse : string) (batch_no ignore_sre : option string) : Q :=
  if truthy_str batch_no then
    get_batch_qty h item_code warehouse (default "" batch_no) ignore_sre
  else
    let available_qty := get_stock_balance h item_code warehouse in
    if truthy_Q available_qty then
      let reserved_qty :=
        Qsum ((fun e => sre_reserved_qty e - sre_delivered_qty e)%Q
              <$> List.filter (sre_counts item_code warehouse ignore_sre) sres) in
      if truthy_Q reserved_qty then (available_qty - reserved_qty)%Q
      else available_qty
    else available_qty.

(** Non-blocking user messages ([frappe.msgprint]) of the reservation run. *)
Inductive message : Type :=
| GroupWarehouseOnSubmit (wh : string)
| NonStockItem (row : Z) (code : string)
| GroupWarehouse (row : Z) (wh : string)
| AlreadyReserved (row : Z) (code : string)
| NotAvailable (row : Z) (code wh : string)
| QtyToReserveNotPositive (row : Z) (code : string)
| OnlyAvailable (row : Z) (q : Q) (unit : string) (code : string)
| EnablePartialReservation
| EntriesCreated.

Inductive event : Type :=
| Msg (m : message)
| DbSetReserveStock (row_name : string) (v : Z)
| Created (e : Sre).

Inductive step_outcome : Type :=
| Continue (evs : list event)
| Reserve (evs : list event) (e : Sre).

Definition falsy_str (o : option string) : bool := negb (truthy_str o).

Definition pyor (a b : Q) : Q := if truthy_Q a then a else b.

(** The [while] loop over the bundle's entries. *)
Fixpoint pick_sb_entries (has_serial_no : bool) (entries : list SbbEntry)
    (picked_qty qty_to_be_reserved : Q) : list SbEntry :=
  match entries with
  | [] => []
  | entry :: rest =>
      if Qltb picked_qty qty_to_be_reserved then
        let qty := if has_serial_no then 1%Q
                   else pymin (Qabs_ (sbb_qty entry)) (qty_to_be_reserved - picked_qty)%Q in
        mkSbEntry (sbb_serial_no entry) (sbb_batch_no entry) qty (sbb_warehouse entry)
        :: pick_sb_entries has_serial_no rest (picked_qty + qty)%Q qty_to_be_reserved
      else []
  end.

(** [frappe.new_doc("Stock Reservation Entry")] followed by the field
    assignments of the loop body. *)
Definition new_sre (proforma : ProformaDoc) (item : SoItem)
    (has_serial_no has_batch_no : bool) (available_qty_to_reserve qty_to_be_reserved : Q)
    (from_voucher_type : option string) (based_on : string) (sb : list SbEntry) : Sre :=
  {| sre_name := "";
     sre_docstatus := 0;
     sre_status := "Draft";
     sre_item_code := item_code item;
     sre_warehouse := warehouse item;
     sre_has_serial_no := has_serial_no;
     sre_has_batch_no := has_batch_no;
     sre_voucher_type := pf_doctype proforma;
     sre_voucher_no := pf_name proforma;
     sre_voucher_detail_no := name item;
     sre_available_qty := available_qty_to_reserve;
     sre_voucher_qty := stock_qty item;
     sre_reserved_qty := qty_to_be_reserved;
     sre_delivered_qty := 0;
     sre_company := pf_company proforma;
     sre_stock_uom := stock_uom item;
     sre_project := pf_project proforma;
     sre_from_voucher_type :=
       if truthy_str from_voucher_type then from_voucher_type else None;
     sre_from_voucher_no :=
       if truthy_str from_voucher_type then from_voucher_no item else None;
     sre_from_voucher_detail_no :=
       if truthy_str from_voucher_type then from_voucher_detail_no item else None;
     sre_reservation_based_on := based_on;
     sre_sb_entries := sb |}.

(** The quantity stage of the loop body: from the two quantities to either
    a [continue] or the quantity to reserve, with the messages printed on
    the way. *)
Definition decide_qty (h : Host) (from_voucher_type : option string) (item : SoItem)
    (unreserved_qty available_qty_to_reserve : Q) : result (list event * option Q) :=
  let qty_to_be_reserved := pymin unreserved_qty available_qty_to_reserve in
  match
    match qty_to_reserve item with
    | Some q => if Qleb q 0 then None else Some (pymin qty_to_be_reserved q)
    | None => Some qty_to_be_reserved
    end
  with
  | None => Ok ([Msg (QtyToReserveNotPositive (idx item) (item_code item))], None)
  | Some qty_to_be_reserved =>
      if Qltb qty_to_be_reserved unreserved_qty then
        bind
          (if falsy_str from_voucher_type
              && (negb (truthy_Q (flt (qty_to_reserve item)))
                  || Qltb qty_to_be_reserved (flt (qty_to_reserve item)))
           then
             match conversion_factor item with
             | None => Err (TypeError "conversion_factor")
             | Some c =>
                 if truthy_Q c then
                   Ok [Msg (OnlyAvailable (idx item) (qty_to_be_reserved / c)%Q
                              (uom item) (item_code item))]
                 else Err ZeroDivisionError
             end
           else Ok [])
          (fun evs =>
             if negb (truthy_Z (allow_partial_reservation h)) then
               Ok (evs ++ (if Qeq_bool qty_to_be_reserved (flt (qty_to_reserve item))
                           then [Msg EnablePartialReservation] else []),
                   None)
             else Ok (evs, Some qty_to_be_reserved))
      else Ok ([], Some qty_to_be_reserved)
  end.

(** One iteration of the [for] loop. *)
Definition reserve_item (h : Host) (proforma : ProformaDoc)
    (from_voucher_type : option string) (reserved_qty_details : gmap string Q)
    (sres : list Sre) (item : SoItem) : result step_outcome :=
  if negb (truthy_Z (reserve_stock item)) then Ok (Continue []) else
  if negb (opt_str_eqb from_voucher_type "Pick List") && Qltb 0 (flt (picked_qty item)) then
    Err (ValidationError "Item has been picked, please reserve stock from the Pick List.")
  else
  let '(is_stock_item, has_serial_no, has_batch_no) := item_flags h (item_code item) in
  if negb is_stock_item then
    Ok (Continue ((if falsy_str from_voucher_type
                   then [Msg (NonStockItem (idx item) (item_code item))] else [])
                  ++ [DbSetReserveStock (name item) 0]))
  else if truthy_Z (warehouse_is_group h (warehouse item)) then
    Ok (Continue [Msg (GroupWarehouse (idx item) (warehouse item))])
  else
  let unreserved_qty := get_unreserved_qty item reserved_qty_details in
  if Qleb unreserved_qty 0 then
    Ok (Continue (if falsy_str from_voucher_type
                  then [Msg (AlreadyReserved (idx item) (item_code item))] else []))
  else
  let available_qty_to_reserve :=
    get_available_qty_to_reserve h sres (item_code item) (warehouse item) None None in
  if Qleb available_qty_to_reserve 0 then
    Ok (Continue [Msg (NotAvailable (idx item) (item_code item) (warehouse item))])
  else
  bind (decide_qty h from_voucher_type item unreserved_qty available_qty_to_reserve)
    (fun '(evs, decision) =>
  match decision with
  | None => Ok (Continue evs)
  | Some qty_to_be_reserved =>
      let build := new_sre proforma item has_serial_no has_batch_no
                     available_qty_to_reserve qty_to_be_reserved from_voucher_type in
      if truthy_str (serial_and_batch_bundle item) then
        match get_serial_and_batch_bundle h (default "" (serial_and_batch_bundle item)) with
        | None => Err (DoesNotExistError "Serial and Batch Bundle"
                         (default "" (serial_and_batch_bundle item)))
        | Some entries =>
            Ok (Reserve evs (build "Serial and Batch"
                               (pick_sb_entries has_serial_no entries 0 qty_to_be_reserved)))
        end
      else Ok (Reserve evs (build "Qty" []))
  end).

(** The [for] loop: events in program order, the entry table after the
    run, and [sre_count]. *)
Fixpoint reserve_loop (h : Host) (proforma : ProformaDoc)
    (from_voucher_type : option string) (reserved_qty_details : gmap string Q)
    (items : list SoItem) (sres : list Sre) : result (list event * list Sre * Z) :=
  match items with
  | [] => Ok ([], sres, 0%Z)
  | item :: rest =>
      bind (reserve_item h proforma from_voucher_type reserved_qty_details sres item)
        (fun o =>
           match o with
           | Continue evs =>
               bind (reserve_loop h proforma from_voucher_type reserved_qty_details rest sres)
                 (fun '(evs', sres', n) => Ok (evs ++ evs', sres', n))
           | Reserve evs e =>
               bind (reserve_loop h proforma from_voucher_type reserved_qty_details rest
                       (save_and_submit h e sres))
                 (fun '(evs', sres', n) => Ok (evs ++ Created e :: evs', sres', (n + 1)%Z))
           end)
  end.

(** The rows built from [items_details]. *)
Fixpoint prepare_items (h : Host) (from_voucher_type : option string)
    (items_details : list ItemDetail) : result (list SoItem) :=
  match items_details with
  | [] => Ok []
  | item :: rest =>
      match get_proforma_item h (id_proforma_item item) with
      | None => Err (DoesNotExistError "Proforma Item" (id_proforma_item item))
      | Some so_item =>
          let q :=
            if match from_voucher_type with
               | Some t => str_in t ["Pick List"; "Purchase Receipt"]
               | None => false
               end
            then flt (id_qty_to_reserve item)
            else (flt (id_qty_to_reserve item)
                  * pyor (flt (id_conversion_factor item))
                      (pyor (flt (conversion_factor so_item)) 1))%Q in
          let so_item' :=
            {| name := name so_item; idx := idx so_item; item_code := item_code so_item;
               warehouse := id_warehouse item;
               stock_qty := stock_qty so_item; delivered_qty := delivered_qty so_item;
               conversion_factor := conversion_factor so_item;
               reserve_stock := reserve_stock so_item; picked_qty := picked_qty so_item;
               qty_to_reserve := Some q;
               uom := uom so_item; stock_uom := stock_uom so_item;
               from_voucher_no := id_from_voucher_no item;
               from_voucher_detail_no := id_from_voucher_detail_no item;
               serial_and_batch_bundle := id_serial_and_batch_bundle item |} in
          bind (prepare_items h from_voucher_type rest) (fun items => Ok (so_item' :: items))
      end
  end.

Definition items_details_truthy (items_details : option (list ItemDetail)) : bool :=
  match items_details with
  | Some (_ :: _) => true
  | _ => false
  end.

Definition create_stock_reservation_entries_for_so_items (h : Host) (sres : list Sre)
    (proforma : ProformaDoc) (items_details : option (list ItemDetail))
    (from_voucher_type : option string) (notify : bool) : result (list event * list Sre) :=
  if falsy_str from_voucher_type
     && (opt_str_eqb (pf_action proforma) "submit"
         && truthy_str (pf_set_warehouse proforma)
         && truthy_Z (warehouse_is_group h (default "" (pf_set_warehouse proforma))))
  then Ok ([Msg (GroupWarehouseOnSubmit (default "" (pf_set_warehouse proforma)))], sres)
  else
  bind (validate_stock_reservation_settings (enable_stock_reservation h) (pf_doctype proforma))
    (fun _ =>
  bind (if items_details_truthy items_details
        then prepare_items h from_voucher_type (default [] items_details)
        else Ok [])
    (fun items =>
  let reserved_qty_details :=
    get_sre_reserved_qty_details_for_voucher h sres "Proforma" (pf_name proforma) in
  bind (reserve_loop h proforma from_voucher_type reserved_qty_details
          (if items_details_truthy items_details then items else pf_items proforma) sres)
    (fun '(evs, sres', sre_count) =>
  Ok (evs ++ (if negb (Z.eqb sre_count 0) && notify then [Msg EntriesCreated] else []),
      sres')))).

(** The entries a run created, oldest first, and the entry table after
    they were saved and submitted one by one. *)
Definition created_of (evs : list event) : list Sre :=
  omap (fun ev => match ev with Created e => Some e | _ => None end) evs.

Definition table_after (h : Host) (created : list Sre) (sres : list Sre) : list Sre :=
  fold_left (fun st e => save_and_submit h e st) created sres.

(** What the loop body assigns to an entry built for [item] while the
    entry table is [st]. *)
Definition entry_built_for (h : Host) (reserved_qty_details : gmap string Q)
    (st : list Sre) (item : SoItem) (e : Sre) : Prop :=
  let unreserved_qty := get_unreserved_qty item reserved_qty_details in
  let available_qty_to_reserve :=
    get_available_qty_to_reserve h st (item_code item) (warehouse item) None None in
  sre_voucher_detail_no e = name item
  /\ sre_item_code e = item_code item
  /\ sre_warehouse e = warehouse item
  /\ sre_voucher_qty e = stock_qty item
  /\ sre_available_qty e = available_qty_to_reserve
  /\ sre_reserved_qty e
     = match qty_to_reserve item with
       | Some r => pymin (pymin unreserved_qty available_qty_to_reserve) r
       | None => pymin unreserved_qty available_qty_to_reserve
       end.

(** The rows the [for] loop iterates over. *)
Definition rows_of_run (h : Host) (proforma : ProformaDoc)
    (items_details : option (list ItemDetail)) (from_voucher_type : option string) :
    result (list SoItem) :=
  if items_details_truthy items_details
  then prepare_items h from_voucher_type (default [] items_details)
  else Ok (pf_items proforma).

(** The reserved-quantity query, row by row, in the words of the query. *)
Definition counted (item_code warehouse : string) (ignore_sre : option string) (e : Sre) :
    Prop :=
  sre_docstatus e = 1%Z
  /\ sre_item_code e = item_code
  /\ sre_warehouse e = warehouse
  /\ (sre_delivered_qty e <= sre_reserved_qty e)%Q
  /\ sre_status e <> "Delivered" /\ sre_status e <> "Cancelled"
  /\ (forall n, ignore_sre = Some n -> n <> "" -> sre_name e <> n).

End StockReservation.

(** ** doctype/proforma/proforma.py: Quotation to Proforma *)

Module MakeProforma.

Record QuotationItem : Type := mkQuotationItem {
  name : string;
  parent : string;
  item_code : string;
  qty : Q;
  conversion_factor : option Q;
  is_alternative : bool;
  has_alternative_item : bool;
  against_blanket_order : option Z;
  blanket_order : option string;
  blanket_order_rate : option Q
}.

Record ProformaItem : Type := mkProformaItem {
  t_item_code : string;
  t_prevdoc_docname : string;
  t_quotation_item : string;
  t_qty : Q;
  t_stock_qty : Q;
  t_conversion_factor : option Q;
  t_against_blanket_order : option Z;
  t_blanket_order : option string;
  t_blanket_order_rate : option Q
}.

(** The document mapper's copy of a child row: equally named fields are
    carried over and the [field_map] renames [parent] and [name]. *)
Definition map_child_doc (obj : QuotationItem) : ProformaItem :=
  {| t_item_code := item_code obj;
     t_prevdoc_docname := parent obj;
     t_quotation_item := name obj;
     t_qty := qty obj;
     t_stock_qty := 0;
     t_conversion_factor := conversion_factor obj;
     t_against_blanket_order := None;
     t_blanket_order := None;
     t_blanket_order_rate := None |}.

Definition update_item (ordered_items : gmap string Q) (obj : QuotationItem)
    (target : ProformaItem) : ProformaItem :=
  let balance_qty := (qty obj - dict_get ordered_items (item_code obj) 0)%Q in
  let target_qty := if Qltb 0 balance_qty then balance_qty else 0%Q in
  let target_stock_qty := (flt (Some target_qty) * flt (conversion_factor obj))%Q in
  let blanket := truthy_Z (against_blanket_order obj) in
  {| t_item_code := t_item_code target;
     t_prevdoc_docname := t_prevdoc_docname target;
     t_quotation_item := t_quotation_item target;
     t_qty := target_qty;
     t_stock_qty := target_stock_qty;
     t_conversion_factor := t_conversion_factor target;
     t_against_blanket_order :=
       if blanket then against_blanket_order obj else t_against_blanket_order target;
     t_blanket_order :=
       if blanket then blanket_order obj else t_blanket_order target;
     t_blanket_order_rate :=
       if blanket then blanket_order_rate obj else t_blanket_order_rate target |}.

Definition can_map_row (selected_rows : list string) (item : QuotationItem) : bool :=
  let has_qty := Qltb 0 (qty item) in
  match selected_rows with
  | [] => negb (is_alternative item)
  | _ :: _ =>
      if is_alternative item || has_alternative_item item then
        str_in (name item) selected_rows && has_qty
      else has_qty
  end.

(** The mapper's pass over the Quotation Item table. *)
Definition map_quotation_items (ordered_items : gmap string Q)
    (selected_rows : list string) (rows : list QuotationItem) : list ProformaItem :=
  (fun obj => update_item ordered_items obj (map_child_doc obj))
    <$> List.filter (can_map_row selected_rows) rows.

End MakeProforma.

(** ** doctype/proforma/proforma.py: Proforma to Delivery Note *)

Module MakeDeliveryNote.

(** A stored Proforma Item row; [delivery_date] is already the text
    [cstr] yields (empty when the date is unset). *)
Record SoRow : Type := mkSoRow {
  name : string;
  item_code : string;
  qty : Q;
  delivered_qty : Q;
  rate : option Q;
  base_rate : option Q;
  conversion_factor : option Q;
  delivery_date : string;
  delivered_by_supplier : Z;
  stock_reserved_qty : Q
}.

Record Proforma : Type := mkProforma {
  so_name : string;
  so_docstatus : Z;
  so_company : string;
  so_project : option string;
  so_items : list SoRow
}.

Record DnItem : Type := mkDnItem {
  dn_idx : Z;
  so_detail : string;
  against_proforma : string;
  dn_item_code : string;
  dn_rate : option Q;
  dn_conversion_factor : option Q;
  dn_qty : Q;
  dn_amount : Q;
  dn_base_amount : Q;
  dn_cost_center : option string;
  dn_serial_and_batch_bundle : option string
}.

(** One row of [get_sre_details_for_voucher]. *)
Record SreDetail : Type := mkSreDetail {
  voucher_detail_no : string;
  reserved_qty : option Q;
  reservation_based_on : string;
  has_serial_no : bool;
  has_batch_no : bool
}.

Record Kwargs : Type := mkKwargs {
  for_reserved_stock : bool;
  skip_item_mapping : bool
}.

(** Host-side inputs of one call. *)
Record Host : Type := mkHost {
  flags_delivery_dates : option (list string);
  get_sre_reserved_qty_details_for_voucher : string -> string -> gmap string Q;
  get_sre_details_for_voucher : string -> string -> list SreDetail;
  get_ssb_bundle_for_voucher : SreDetail -> option string;
  (* [None]: no item defaults, the cost centre is left as mapped *)
  cost_center_for : string -> string -> option string -> option (option string)
}.

Definition delivery_dates_truthy (o : option (list string)) : bool :=
  match o with
  | Some (_ :: _) => true
  | _ => false
  end.

(** [condition]: the closure deletes the row's key from [sre_details] when
    it finds it, so the dictionary is threaded through. *)
Definition condition (h : Host) (sre_details : gmap string Q) (doc : SoRow) :
    bool * gmap string Q :=
  match sre_details !! name doc with
  | Some _ => (false, delete (name doc) sre_details)
  | None =>
      if delivery_dates_truthy (flags_delivery_dates h)
         && negb (str_in (delivery_date doc) (default [] (flags_delivery_dates h)))
      then (false, sre_details)
      else (Qltb (Qabs_ (delivered_qty doc)) (Qabs_ (qty doc))
            && negb (Z.eqb (delivered_by_supplier doc) 1),
            sre_details)
  end.

Definition map_child_doc (so : Proforma) (source : SoRow) : DnItem :=
  {| dn_idx := 0;
     so_detail := name source;
     against_proforma := so_name so;
     dn_item_code := item_code source;
     dn_rate := rate source;
     dn_conversion_factor := conversion_factor source;
     dn_qty := qty source;
     dn_amount := 0;
     dn_base_amount := 0;
     dn_cost_center := None;
     dn_serial_and_batch_bundle := None |}.

Definition update_item (h : Host) (source : SoRow) (target : DnItem)
    (source_parent : Proforma) : DnItem :=
  let remaining := (flt (Some (qty source)) - flt (Some (delivered_qty source)))%Q in
  {| dn_idx := dn_idx target;
     so_detail := so_detail target;
     against_proforma := against_proforma target;
     dn_item_code := dn_item_code target;
     dn_rate := dn_rate target;
     dn_conversion_factor := dn_conversion_factor target;
     dn_qty := remaining;
     dn_amount := (remaining * flt (rate source))%Q;
     dn_base_amount := (remaining * flt (base_rate source))%Q;
     dn_cost_center :=
       match cost_center_for h (dn_item_code target) (so_company source_parent)
               (so_project source_parent) with
       | Some c => c
       | None => dn_cost_center target
       end;
     dn_serial_and_batch_bundle := dn_serial_and_batch_bundle target |}.

(** The mapper's pass over the Proforma Item table. *)
Fixpoint mapper_pass (h : Host) (so : Proforma) (sre_details : gmap string Q)
    (rows : list SoRow) : list DnItem * gmap string Q :=
  match rows with
  | [] => ([], sre_details)
  | source :: rest =>
      let '(keep, sre_details') := condition h sre_details source in
      let '(mapped, final) := mapper_pass h so sre_details' rest in
      (if keep then update_item h source (map_child_doc so source) so :: mapped else mapped,
       final)
  end.

Definition set_qty (t : DnItem) (q : Q) : DnItem :=
  {| dn_idx := dn_idx t; so_detail := so_detail t; against_proforma := against_proforma t;
     dn_item_code := dn_item_code t; dn_rate := dn_rate t;
     dn_conversion_factor := dn_conversion_factor t;
     dn_qty := q; dn_amount := dn_amount t; dn_base_amount := dn_base_amount t;
     dn_cost_center := dn_cost_center t;
     dn_serial_and_batch_bundle := dn_serial_and_batch_bundle t |}.

Definition set_bundle (t : DnItem) (b : option string) : DnItem :=
  {| dn_idx := dn_idx t; so_detail := so_detail t; against_proforma := against_proforma t;
     dn_item_code := dn_item_code t; dn_rate := dn_rate t;
     dn_conversion_factor := dn_conversion_factor t;
     dn_qty := dn_qty t; dn_amount := dn_amount t; dn_base_amount := dn_base_amount t;
     dn_cost_center := dn_cost_center t;
     dn_serial_and_batch_bundle := b |}.

Definition set_idx (i : Z) (t : DnItem) : DnItem :=
  {| dn_idx := i; so_detail := so_detail t; against_proforma := against_proforma t;
     dn_item_code := dn_item_code t; dn_rate := dn_rate t;
     dn_conversion_factor := dn_conversion_factor t;
     dn_qty := dn_qty t; dn_amount := dn_amount t; dn_base_amount := dn_base_amount t;
     dn_cost_center := dn_cost_center t;
     dn_serial_and_batch_bundle := dn_serial_and_batch_bundle t |}.

(** [{d.name: d for d in so.items if d.stock_reserved_qty}]: a later row
    replaces an earlier one of the same name. *)
Definition so_items_by_name (so : Proforma) : gmap string SoRow :=
  fold_left (fun m d => if truthy_Q (stock_reserved_qty d) then <[name d := d]> m else m)
    (so_items so) ∅.

(** The body of the loop over the voucher's Stock Reservation Entries once
    the row passed [condition]: the row is mapped on its own, then its
    quantity and bundle are overwritten from the entry.  The mapped row
    always carries a [conversion_factor] key (possibly empty), so the
    default of [dn_item.get("conversion_factor", 1)] is never taken. *)
Definition reserved_item (h : Host) (so : Proforma) (sre : SreDetail) (row : SoRow) :
    DnItem :=
  let dn_item := update_item h row (map_child_doc so row) so in
  let dn_item := set_qty dn_item
                   (flt (reserved_qty sre) * flt (dn_conversion_factor dn_item))%Q in
  if String.eqb (reservation_based_on sre) "Serial and Batch"
     && (has_serial_no sre || has_batch_no sre)
  then set_bundle dn_item (get_ssb_bundle_for_voucher h sre)
  else dn_item.

(** The loop over the voucher's Stock Reservation Entries. *)
Fixpoint reserved_pass (h : Host) (so : Proforma) (by_name : gmap string SoRow)
    (sre_details : gmap string Q) (sre_list : list SreDetail) : result (list DnItem) :=
  match sre_list with
  | [] => Ok []
  | sre :: rest =>
      match by_name !! voucher_detail_no sre with
      | None => Err (KeyError (voucher_detail_no sre))
      | Some row =>
          let '(keep, sre_details') := condition h sre_details row in
          bind (reserved_pass h so by_name sre_details' rest) (fun more =>
          if keep then Ok (reserved_item h so sre row :: more) else Ok more)
      end
  end.

Fixpoint renumber (i : Z) (items : list DnItem) : list DnItem :=
  match items with
  | [] => []
  | t :: rest => set_idx (i + 1) t :: renumber (i + 1) rest
  end.

(** The item rows of the Delivery Note [make_delivery_note] returns, for a
    fresh target document.  Appending a row to the target numbers it, hence
    [renumber] after the mapper's pass as well. *)
Definition make_delivery_note (h : Host) (so : Proforma) (kwargs : Kwargs) :
    result (list DnItem) :=
  let sre_details :=
    if for_reserved_stock kwargs
    then get_sre_reserved_qty_details_for_voucher h "Proforma" (so_name so)
    else ∅ in
  if negb (Z.eqb (so_docstatus so) 1) then
    Err (ValidationError "Cannot map because following condition fails: docstatus=1")
  else
  let '(mapped, sre_details) :=
    if negb (skip_item_mapping kwargs) then mapper_pass h so sre_details (so_items so)
    else ([], sre_details) in
  let mapped := renumber 0 mapped in
  if negb (skip_item_mapping kwargs) && for_reserved_stock kwargs then
    match get_sre_details_for_voucher h "Proforma" (so_name so) with
    | [] => Ok mapped
    | sre_list =>
        bind (reserved_pass h so (so_items_by_name so) sre_details sre_list)
          (fun reserved => Ok (renumber 0 (mapped ++ reserved)))
    end
  else Ok mapped.

(** The tests [condition] applies once the row is known not to be in
    [sre_details]. *)
Definition remaining_tests (h : Host) (doc : SoRow) : bool :=
  if delivery_dates_truthy (flags_delivery_dates h)
     && negb (str_in (delivery_date doc) (default [] (flags_delivery_dates h)))
  then false
  else Qltb (Qabs_ (delivered_qty doc)) (Qabs_ (qty doc))
       && negb (Z.eqb (delivered_by_supplier doc) 1).

(** Whether [condition] keeps a row, given the dictionary it sees. *)
Definition keep_row (h : Host) (sre_details : gmap string Q) (doc : SoRow) : bool :=
  match sre_details !! name doc with
  | Some _ => false
  | None => remaining_tests h doc
  end.

(** The same tests as propositions. *)
Definition passes_tests (h : Host) (doc : SoRow) : Prop :=
  (delivery_dates_truthy (flags_delivery_dates h) = true ->
     In (delivery_date doc) (default [] (flags_delivery_dates h)))
  /\ (Qabs (delivered_qty doc) < Qabs (qty doc))%Q
  /\ delivered_by_supplier doc <> 1%Z.

(** Whether the Proforma Item an entry names passes the tests. *)
Definition entry_passes (h : Host) (so : Proforma) (sre : SreDetail) : bool :=
  existsb (fun row => String.eqb (name row) (voucher_detail_no sre)
                      && remaining_tests h row)
    (so_items so).

(** The entries the loop over the voucher's Stock Reservation Entries
    visits. *)
Definition visited_entries (h : Host) (so : Proforma) (kwargs : Kwargs) : list SreDetail :=
  if for_reserved_stock kwargs
  then get_sre_details_for_voucher h "Proforma" (so_name so)
  else [].

(** The reserved-stock details fetched at the start of the call. *)
Definition fetched_details (h : Host) (so : Proforma) (kwargs : Kwargs) : gmap string Q :=
  if for_reserved_stock kwargs
  then get_sre_reserved_qty_details_for_voucher h "Proforma" (so_name so)
  else ∅.

Definition mapped_into (items : list DnItem) (row : SoRow) : Prop :=
  exists t, In t items /\ so_detail t = name row.

(** The rule as a single statement about the returned rows: a row is
    mapped exactly when it is not in the reserved-stock details and passes
    the tests, and every returned row carries the undelivered quantity. *)
Definition single_pass_rule (h : Host) (so : Proforma) (kwargs : Kwargs) : Prop :=
  forall items,
    make_delivery_note h so kwargs = Ok items ->
    (forall row, In row (so_items so) ->
       (mapped_into items row
        <-> fetched_details h so kwargs !! name row = None /\ passes_tests h row))
    /\ (forall t, In t items ->
          exists row, In row (so_items so) /\ so_detail t = name row
                      /\ (dn_qty t == qty row - delivered_qty row)%Q).

End MakeDeliveryNote.

(** ** doctype/proforma/proforma.py: closing and re-opening *)

Module CloseOrUnclose.

Record ProformaDoc : Type := mkProformaDoc {
  name : string;
  docstatus : Z;
  status : string;
  per_delivered : Q;
  per_billed : Q
}.

(** Host services used by [update_status]; [set_status] yields the status
    the controller stores for the requested one. *)
Record Host : Type := mkHost {
  has_permission_write : bool;
  json_loads : string -> result (list string);
  modified_since_load : ProformaDoc -> bool;
  set_status : ProformaDoc -> string -> string;
  check_credit_limit : ProformaDoc -> result unit
}.

Inductive call : Type :=
| UpdateStatus (so : ProformaDoc) (requested : string)
| UpdateReservedQty (docname : string)
| UpdateBlanketOrder (docname : string)
| ClearMessageLog.

Definition with_status (so : ProformaDoc) (s : string) : ProformaDoc :=
  {| name := name so; docstatus := docstatus so; status := s;
     per_delivered := per_delivered so; per_billed := per_billed so |}.

(** [Proforma.update_status]: the document after the call, or the
    exception; the stored row changes as soon as [set_status] has run. *)
Definition update_status (h : Host) (so : ProformaDoc) (st : string) :
    option ProformaDoc * list call * option error :=
  if modified_since_load h so then
    (None, [UpdateStatus so st], Some (ValidationError "Proforma has been modified. Please refresh."))
  else
    let so' := with_status so (set_status h so st) in
    match (if String.eqb st "Draft" && Z.eqb (docstatus so') 1
           then check_credit_limit h so' else Ok tt) with
    | Err e => (Some so', [UpdateStatus so st], Some e)
    | Ok _ => (Some so', [UpdateStatus so st; UpdateReservedQty (name so)], None)
    end.

Definition store_doc (db : gmap string ProformaDoc) (n : string) (o : option ProformaDoc) :
    gmap string ProformaDoc :=
  match o with
  | Some so => <[n := so]> db
  | None => db
  end.

(** The body of the [for] loop for one name. *)
Definition visit (h : Host) (requested : string) (db : gmap string ProformaDoc)
    (n : string) : gmap string ProformaDoc * list call * option error :=
  match db !! n with
  | None => (db, [], Some (DoesNotExistError "Proforma" n))
  | Some so =>
      if Z.eqb (docstatus so) 1 then
        let '(o, calls, e) :=
          if String.eqb requested "Closed" then
            if negb (str_in (status so) ["Cancelled"; "Closed"])
               && (Qltb (per_delivered so) 100 || Qltb (per_billed so) 100)
            then update_status h so requested
            else (None, [], None)
          else
            if String.eqb (status so) "Closed" then update_status h so "Draft"
            else (None, [], None) in
        match e with
        | Some err => (store_doc db n o, calls, Some err)
        | None => (store_doc db n o, calls ++ [UpdateBlanketOrder (name so)], None)
        end
      else (db, [], None)
  end.

Fixpoint visit_all (h : Host) (requested : string) (db : gmap string ProformaDoc)
    (names : list string) : gmap string ProformaDoc * list call * option error :=
  match names with
  | [] => (db, [], None)
  | n :: rest =>
      match visit h requested db n with
      | (db', calls, Some e) => (db', calls, Some e)
      | (db', calls, None) =>
          let '(db'', calls', e) := visit_all h requested db' rest in
          (db'', calls ++ calls', e)
      end
  end.

(** [close_or_unclose_proforma(names, status)]: the Proforma table after
    the call, the controller methods invoked, and the exception if any. *)
Definition close_or_unclose_proforma (h : Host) (db : gmap string ProformaDoc)
    (names : string) (requested : string) :
    gmap string ProformaDoc * list call * option error :=
  if negb (has_permission_write h) then
    (db, [], Some (PermissionError "Not permitted"))
  else
    match json_loads h names with
    | Err e => (db, [], Some e)
    | Ok names =>
        match visit_all h requested db names with
        | (db', calls, Some e) => (db', calls, Some e)
        | (db', calls, None) => (db', calls ++ [ClearMessageLog], None)
        end
    end.

(** The conditions under which the loop body calls [update_status] on a
    document, in the words of the source. *)
Definition update_allowed (requested : string) (so : ProformaDoc) : Prop :=
  docstatus so = 1%Z
  /\ (requested = "Closed" ->
      status so <> "Cancelled" /\ status so <> "Closed"
      /\ ((per_delivered so < 100)%Q \/ (per_billed so < 100)%Q))
  /\ (requested <> "Closed" -> status so = "Closed").

(** The status [update_status] is called with. *)
Definition status_argument (requested : string) : string :=
  if String.eqb requested "Closed" then "Closed" else "Draft".

(** Relative to the table [db] at the start of the call: a row of [cur]
    is either as it was, or differs in its status only and qualified for
    the update when the call started. *)
Definition changed_as_allowed (h : Host) (requested : string)
    (db cur : gmap string ProformaDoc) : Prop :=
  forall n,
    cur !! n = db !! n
    \/ exists d s,
         db !! n = Some d /\ cur !! n = Some (with_status d s)
         /\ update_allowed requested d
         /\ ((forall so r, set_status h so r = r) -> s = status_argument requested).

End CloseOrUnclose.

(** ** doctype/proforma/proforma.py: Proforma to Purchase Order *)

Module MakePurchaseOrder.

(** One element of [selected_items]. *)
Record SelItem : Type := mkSelItem {
  sel_item_code : option string;
  sel_supplier : option string
}.

(** The [selected_items] argument: absent, a JSON text, or a list. *)
Inductive Selected : Type :=
| SelNone
| SelStr (text : string)
| SelList (l : list SelItem).

Definition selected_truthy (sel : Selected) : bool :=
  match sel with
  | SelNone => false
  | SelStr text => negb (String.eqb text "")
  | SelList l => match l with [] => false | _ :: _ => true end
  end.

Record SoRow : Type := mkSoRow {
  name : string;
  item_code : string;
  qty : Q;
  stock_qty : Q;
  ordered_qty : Q;
  conversion_factor : option Q;
  supplier : option string;
  delivery_date : option string;
  delivered_by_supplier : Z
}.

Record PackedRow : Type := mkPackedRow {
  pk_name : string;
  pk_parent_item : string;
  pk_item_code : string;
  pk_qty : Q;
  pk_ordered_qty : option Q
}.

Record Proforma : Type := mkProforma {
  so_name : string;
  so_docstatus : Z;
  so_customer : option string;
  so_customer_name : option string;
  so_shipping_address_name : option string;
  so_customer_address : option string;
  so_project : option string;
  so_items : list SoRow;
  so_packed_items : list PackedRow
}.

Record PoItem : Type := mkPoItem {
  proforma_item : option string;
  proforma_packed_item : option string;
  product_bundle : option string;
  po_item_code : string;
  po_qty : Q;
  po_stock_qty : Q;
  schedule_date : option string;
  po_project : option string;
  po_delivered_by_supplier : Z
}.

Record PurchaseOrder : Type := mkPurchaseOrder {
  po_supplier : string;
  po_customer : option string;
  po_customer_name : option string;
  po_shipping_address : option string;
  po_items : list PoItem
}.

Inductive effect : Type :=
| Insert (doc : PurchaseOrder)
| Commit.

Record Host : Type := mkHost {
  json_loads : string -> result (list SelItem);
  is_product_bundle : string -> bool;
  get_proforma : string -> option Proforma
}.

(** [json.loads] when the argument is a text. *)
Definition load_selected (h : Host) (sel : Selected) : result (list SelItem) :=
  match sel with
  | SelNone => Ok []
  | SelStr text => json_loads h text
  | SelList l => Ok l
  end.

Definition truthy_codes (get : SelItem -> option string) (l : list SelItem) : list string :=
  omap (fun i => if truthy_str (get i) then get i else None) l.

(** [update_item] of both functions. *)
Definition update_item (source : SoRow) (source_parent : Proforma) : result PoItem :=
  if truthy_Q (flt (conversion_factor source)) then
    Ok {| proforma_item := Some (name source);
          proforma_packed_item := None;
          product_bundle := None;
          po_item_code := item_code source;
          po_qty := (flt (Some (qty source))
                     - flt (Some (ordered_qty source)) / flt (conversion_factor source))%Q;
          po_stock_qty := (flt (Some (stock_qty source)) - flt (Some (ordered_qty source)))%Q;
          schedule_date := delivery_date source;
          po_project := so_project source_parent;
          po_delivered_by_supplier := delivered_by_supplier source |}
  else Err ZeroDivisionError.

Definition update_item_for_packed_item (source : PackedRow) : PoItem :=
  {| proforma_item := None;
     proforma_packed_item := Some (pk_name source);
     product_bundle := Some (pk_parent_item source);
     po_item_code := pk_item_code source;
     po_qty := (flt (Some (pk_qty source)) - flt (pk_ordered_qty source))%Q;
     po_stock_qty := 0;
     schedule_date := None;
     po_project := None;
     po_delivered_by_supplier := 0 |}.

(** The mapper's pass over a child table with a fallible post-process. *)
Fixpoint map_rows {A : Type} (keep : A -> bool) (post : A -> result PoItem)
    (rows : list A) : result (list PoItem) :=
  match rows with
  | [] => Ok []
  | r :: rest =>
      if keep r then
        bind (post r) (fun t => bind (map_rows keep post rest) (fun ts => Ok (t :: ts)))
      else map_rows keep post rest
  end.

(** [is_drop_ship_order]. *)
Definition is_drop_ship_order (items : list PoItem) : bool :=
  forallb (fun item => negb (Z.eqb (po_delivered_by_supplier item) 0)) items.

(** [set_delivery_date]: a later row of the same item code replaces the
    date of an earlier one; a bundle without a row raises [KeyError]. *)
Definition delivery_by_item (so : Proforma) : gmap string (option string) :=
  fold_left (fun m d => <[item_code d := delivery_date d]> m) (so_items so) ∅.

Fixpoint set_delivery_date (by_item : gmap string (option string)) (items : list PoItem) :
    result (list PoItem) :=
  match items with
  | [] => Ok []
  | item :: rest =>
      bind (if truthy_str (product_bundle item) then
              match by_item !! default "" (product_bundle item) with
              | Some d =>
                  Ok {| proforma_item := proforma_item item;
                        proforma_packed_item := proforma_packed_item item;
                        product_bundle := product_bundle item;
                        po_item_code := po_item_code item;
                        po_qty := po_qty item;
                        po_stock_qty := po_stock_qty item;
                        schedule_date := d;
                        po_project := po_project item;
                        po_delivered_by_supplier := po_delivered_by_supplier item |}
              | None => Err (KeyError (default "" (product_bundle item)))
              end
            else Ok item)
        (fun item' => bind (set_delivery_date by_item rest) (fun rest' => Ok (item' :: rest')))
  end.

Definition fetch (h : Host) (source_name : string) : result Proforma :=
  match get_proforma h source_name with
  | None => Err (DoesNotExistError "Proforma" source_name)
  | Some so =>
      if Z.eqb (so_docstatus so) 1 then Ok so
      else Err (ValidationError "Cannot map because following condition fails: docstatus=1")
  end.

(** [make_purchase_order]: the returned value ([None] or the unsaved
    document) and the database effects, which are none. *)
Definition make_purchase_order (h : Host) (source_name : string) (selected_items : Selected) :
    list effect * result (option PurchaseOrder) :=
  if negb (selected_truthy selected_items) then ([], Ok None) else
  ([],
   bind (load_selected h selected_items) (fun selected_items =>
   let items_to_map := truthy_codes sel_item_code selected_items in
   bind (fetch h source_name) (fun so =>
   bind (map_rows
           (fun doc : SoRow =>
              Qltb (ordered_qty doc) (stock_qty doc)
              && str_in (item_code doc) items_to_map
              && negb (is_product_bundle h (item_code doc)))
           (fun doc => update_item doc so) (so_items so)) (fun items =>
   let packed :=
     update_item_for_packed_item
       <$> List.filter (fun doc => str_in (pk_parent_item doc) items_to_map)
             (so_packed_items so) in
   let items := items ++ packed in
   let drop_ship := is_drop_ship_order items in
   bind (set_delivery_date (delivery_by_item so) items) (fun items =>
   Ok (Some {| po_supplier := "";
               po_customer := if drop_ship then so_customer so else None;
               po_customer_name := if drop_ship then so_customer_name so else None;
               po_shipping_address :=
                 if drop_ship then so_shipping_address_name so else None;
               po_items := items |})))))).

Fixpoint dedup (seen : list string) (l : list string) : list string :=
  match l with
  | [] => []
  | x :: rest => if str_in x seen then dedup seen rest else x :: dedup (x :: seen) rest
  end.

(** The [for supplier in suppliers] loop: each document is inserted and
    committed before the next one is mapped. *)
Fixpoint orders_for (h : Host) (so : Proforma) (items_to_map : list string)
    (suppliers : list string) : list effect * result (list PurchaseOrder) :=
  match suppliers with
  | [] => ([], Ok [])
  | sup :: rest =>
      match map_rows
              (fun doc : SoRow =>
                 Qltb (ordered_qty doc) (stock_qty doc)
                 && opt_str_eqb (supplier doc) sup
                 && str_in (item_code doc) items_to_map)
              (fun doc => update_item doc so) (so_items so) with
      | Err e => ([], Err e)
      | Ok items =>
          let drop := existsb (fun r => Z.eqb (delivered_by_supplier r) 1) (so_items so) in
          let doc :=
            {| po_supplier := sup;
               po_customer := if drop then so_customer so else Some "";
               po_customer_name := if drop then so_customer_name so else Some "";
               po_shipping_address :=
                 if drop then
                   if truthy_str (so_shipping_address_name so)
                   then so_shipping_address_name so else so_customer_address so
                 else None;
               po_items := items |} in
          let '(effs, r) := orders_for h so items_to_map rest in
          (Insert doc :: Commit :: effs, bind r (fun docs => Ok (doc :: docs)))
      end
  end.

(** [make_purchase_order_for_default_supplier]: the returned value ([None]
    or the list of documents) and the database effects in program order. *)
Definition make_purchase_order_for_default_supplier (h : Host) (source_name : string)
    (selected_items : Selected) : list effect * result (option (list PurchaseOrder)) :=
  if negb (selected_truthy selected_items) then ([], Ok None) else
  match load_selected h selected_items with
  | Err e => ([], Err e)
  | Ok selected_items =>
      let suppliers := dedup [] (truthy_codes sel_supplier selected_items) in
      let items_to_map := truthy_codes sel_item_code selected_items in
      match suppliers with
      | [] => ([], Err (ValidationError
                "Please set a Supplier against the Items to be considered in the Purchase Order."))
      | _ :: _ =>
          match fetch h source_name with
          | Err e => ([], Err e)
          | Ok so =>
              let '(effs, r) := orders_for h so items_to_map suppliers in
              (effs, bind r (fun docs => Ok (Some docs)))
          end
      end
  end.

End MakePurchaseOrder.

(** ** doctype/proforma/proforma.py: methods of the Proforma document *)

Module ProformaMethods.

(** [Proforma.has_unreserved_stock]. *)
Fixpoint any_unreserved (reserved_qty_details : gmap string Q)
    (items : list StockReservation.SoItem) : bool :=
  match items with
  | [] => false
  | item :: rest =>
      if negb (truthy_Z (StockReservation.reserve_stock item)) then
        any_unreserved reserved_qty_details rest
      else if Qltb 0 (StockReservation.get_unreserved_qty item reserved_qty_details) then true
      else any_unreserved reserved_qty_details rest
  end.

Definition has_unreserved_stock (h : StockReservation.Host)
    (sres : list StockReservation.Sre) (proforma : StockReservation.ProformaDoc) : bool :=
  any_unreserved
    (StockReservation.get_sre_reserved_qty_details_for_voucher h sres "Proforma"
       (StockReservation.pf_name proforma))
    (StockReservation.pf_items proforma).

(** [Proforma.create_stock_reservation_entries]. *)
Definition create_stock_reservation_entries (h : StockReservation.Host)
    (sres : list StockReservation.Sre) (self : StockReservation.ProformaDoc)
    (items_details : option (list StockReservation.ItemDetail))
    (from_voucher_type : option string) (notify : bool) :
    result (list StockReservation.event * list StockReservation.Sre) :=
  StockReservation.create_stock_reservation_entries_for_so_items h sres self items_details
    from_voucher_type notify.

End ProformaMethods.

(** ** general_functions.py: the counterpart of a document *)

Module Counterpart.

(** [ref_doc] and [ref_field] as the first branch of
    [unlink_inter_company_doc] computes them. *)
Definition ref_doc_of (doctype : string) : string :=
  if str_in doctype ["Sales Invoice"; "Purchase Invoice"] then
    if String.eqb doctype "Sales Invoice" then "Purchase Invoice" else "Sales Invoice"
  else
    if String.eqb doctype "Sales Order" then "Purchase Order" else "Sales Order".

Definition ref_field_of (doctype : string) : string :=
  if str_in doctype ["Sales Invoice"; "Purchase Invoice"]
  then "inter_company_invoice_reference"
  else "inter_company_order_reference".

End Counterpart.

(** ** doctype/proforma/proforma.py: validation and status methods *)

Module DocMethods.

(** A Proforma Item as the document methods read it. *)
Record Item : Type := mkItem {
  name : string;
  idx : Z;
  item_code : string;
  warehouse : option string;
  stock_qty : option Q;
  picked_qty : option Q;
  delivered_by_supplier : option Z;
  supplier : option string;
  reserve_stock : option Z;
  is_stock_item : option Z;
  ensure_delivery_based_on_produced_serial_no : option Z
}.

Record PackedItem : Type := mkPackedItem {
  parent_detail_docname : string;
  parent_item : string;
  pk_item_code : string;
  pk_warehouse : option string
}.

(** Look-ups the methods make outside the document. *)
Record Host : Type := mkHost {
  enable_stock_reservation : option Z;
  over_picking_allowance : option Q;
  item_is_stock_item : string -> option Z;
  item_has_serial_no : string -> option Z;
  active_bom_exists : string -> bool;
  has_product_bundle : string -> bool;
  get_reserved_qty : string -> string -> Q
}.

Definition with_reserve_stock (item : Item) (v : option Z) : Item :=
  {| name := name item; idx := idx item; item_code := item_code item;
     warehouse := warehouse item; stock_qty := stock_qty item;
     picked_qty := picked_qty item; delivered_by_supplier := delivered_by_supplier item;
     supplier := supplier item; reserve_stock := v; is_stock_item := is_stock_item item;
     ensure_delivery_based_on_produced_serial_no :=
       ensure_delivery_based_on_produced_serial_no item |}.

(** [Proforma.validate_reserved_stock]: the rows after the method. *)
Definition validate_reserved_stock (h : Host) (items : list Item) : list Item :=
  (fun item =>
     if truthy_Z (reserve_stock item)
        && (negb (truthy_Z (enable_stock_reservation h))
            || negb (truthy_Z (is_stock_item item)))
     then with_reserve_stock item (Some 0%Z)
     else item) <$> items.

(** [Proforma.validate_drop_ship]. *)
Fixpoint validate_drop_ship (items : list Item) : result unit :=
  match items with
  | [] => Ok tt
  | d :: rest =>
      if truthy_Z (delivered_by_supplier d) && negb (truthy_str (supplier d)) then
        Err (ValidationError
               ("Row #" ++ pretty (idx d) ++ ": Set Supplier for item " ++ item_code d))
      else validate_drop_ship rest
  end.

(** The test of [Proforma.validate_warehouse] for a row that has to name a
    warehouse; [product_bundle_has_stock_item] is the number of stock
    items of the bundle. *)
Definition needs_warehouse (h : Host) (product_bundle_has_stock_item : string -> nat)
    (d : Item) : bool :=
  match item_is_stock_item h (item_code d) with
  | Some v => (v =? 1)%Z
  | None => false
  end
  || (has_product_bundle h (item_code d)
      && negb (Nat.eqb (product_bundle_has_stock_item (item_code d)) 0)).

Fixpoint warehouse_loop (h : Host) (product_bundle_has_stock_item : string -> nat)
    (items : list Item) : result unit :=
  match items with
  | [] => Ok tt
  | d :: rest =>
      if needs_warehouse h product_bundle_has_stock_item d
         && negb (truthy_str (warehouse d))
         && negb (truthy_Z (delivered_by_supplier d))
      then Err (ValidationError
                  ("Delivery warehouse required for stock item " ++ item_code d))
      else warehouse_loop h product_bundle_has_stock_item rest
  end.

(** [Proforma.validate_warehouse]; [super_validate_warehouse] is the
    outcome of the controller's own check, and [WarehouseRequired] is a
    [ValidationError]. *)
Definition validate_warehouse (h : Host) (super_validate_warehouse : result unit)
    (product_bundle_has_stock_item : string -> nat) (items : list Item) : result unit :=
  bind super_validate_warehouse (fun _ =>
    warehouse_loop h product_bundle_has_stock_item items).

(** [Proforma.validate_serial_no_based_delivery]: the loop, with the two
    lists it accumulates. *)
Fixpoint serial_no_loop (h : Host) (items : list Item)
    (reserved_items normal_items : list string) : result unit :=
  match items with
  | [] => Ok tt
  | item :: rest =>
      if truthy_Z (ensure_delivery_based_on_produced_serial_no item) then
        if str_in (item_code item) normal_items then
          Err (ValidationError
                 ("Cannot ensure delivery by Serial No as Item " ++ item_code item
                  ++ " is added with and without Ensure Delivery by Serial No."))
        else
          bind
            (if negb (str_in (item_code item) reserved_items) then
               if negb (truthy_Z (item_has_serial_no h (item_code item))) then
                 Err (ValidationError ("Item " ++ item_code item ++ " has no Serial No."))
               else if negb (active_bom_exists h (item_code item)) then
                 Err (ValidationError ("No active BOM found for item " ++ item_code item))
               else Ok tt
             else Ok tt)
            (fun _ => serial_no_loop h rest (reserved_items ++ [item_code item]) normal_items)
      else
        if str_in (item_code item) reserved_items then
          Err (ValidationError
                 ("Cannot ensure delivery by Serial No as Item " ++ item_code item
                  ++ " is added with and without Ensure Delivery by Serial No."))
        else serial_no_loop h rest reserved_items (normal_items ++ [item_code item])
  end.

Definition validate_serial_no_based_delivery (h : Host) (items : list Item) : result unit :=
  serial_no_loop h items [] [].

Definition pair_in (code wh : string) (l : list (string * string)) : bool :=
  existsb (fun p => String.eqb (fst p) code && String.eqb (snd p) wh) l.

(** [_valid_for_reserve]: the list after the call. *)
Definition valid_for_reserve (h : Host) (item_wh_list : list (string * string))
    (code : string) (wh : option string) : list (string * string) :=
  if negb (String.eqb code "") && truthy_str wh
     && negb (pair_in code (default "" wh) item_wh_list)
     && truthy_Z (item_is_stock_item h code)
  then item_wh_list ++ [(code, default "" wh)]
  else item_wh_list.

Definition rows_truthy (so_item_rows : option (list string)) : bool :=
  match so_item_rows with
  | Some (_ :: _) => true
  | _ => false
  end.

(** The first loop of [Proforma.update_reserved_qty]. *)
Fixpoint collect_item_wh (h : Host) (packed_items : list PackedItem)
    (so_item_rows : option (list string)) (items : list Item)
    (item_wh_list : list (string * string)) : list (string * string) :=
  match items with
  | [] => item_wh_list
  | d :: rest =>
      let item_wh_list :=
        if (negb (rows_truthy so_item_rows) || str_in (name d) (default [] so_item_rows))
           && negb (truthy_Z (delivered_by_supplier d))
        then
          if has_product_bundle h (item_code d) then
            fold_left
              (fun l p =>
                 if String.eqb (parent_detail_docname p) (name d)
                    && String.eqb (parent_item p) (item_code d)
                 then valid_for_reserve h l (pk_item_code p) (pk_warehouse p)
                 else l)
              packed_items item_wh_list
          else valid_for_reserve h item_wh_list (item_code d) (warehouse d)
        else item_wh_list in
      collect_item_wh h packed_items so_item_rows rest item_wh_list
  end.

(** [Proforma.update_reserved_qty]: the bins written, with the reserved
    quantity stored in each. *)
Definition update_reserved_qty (h : Host) (items : list Item) (packed_items : list PackedItem)
    (so_item_rows : option (list string)) : list (string * string * Q) :=
  (fun p => (fst p, snd p, get_reserved_qty h (fst p) (snd p)))
    <$> collect_item_wh h packed_items so_item_rows items [].

(** The totals of [Proforma.update_picking_status]. *)
Definition counts_for_picking (h : Host) (so_item : Item) : bool :=
  truthy_Z (item_is_stock_item h (item_code so_item))
  || has_product_bundle h (item_code so_item).

Definition total_picked (h : Host) (items : list Item) : Q :=
  fold_left (fun acc i => if counts_for_picking h i then (acc + flt (picked_qty i))%Q else acc)
    items 0%Q.

Definition total_stock (h : Host) (items : list Item) : Q :=
  fold_left (fun acc i => if counts_for_picking h i then (acc + flt (stock_qty i))%Q else acc)
    items 0%Q.

(** [Proforma.update_picking_status]: the value stored in [per_picked]. *)
Definition update_picking_status (h : Host) (items : list Item) : result Q :=
  let total_picked_qty := total_picked h items in
  let total_qty := total_stock h items in
  if truthy_Q total_picked_qty && truthy_Q total_qty then
    let per_picked := (total_picked_qty / total_qty * 100)%Q in
    let total_qty :=
      match over_picking_allowance h with
      | Some pick_percentage =>
          if truthy_Q pick_percentage
          then (total_qty + flt (Some total_qty) * (pick_percentage / 100))%Q
          else total_qty
      | None => total_qty
      end in
    if Qltb total_qty total_picked_qty then
      Err (ValidationError "Total Picked Quantity is more than ordered qty.")
    else Ok (flt (Some per_picked))
  else Ok (flt (Some 0%Q)).

(** The two requirements of delivery by serial number, as propositions. *)
Definition flagged (item : Item) : Prop :=
  truthy_Z (ensure_delivery_based_on_produced_serial_no item) = true.

Definition serial_ready (h : Host) (code : string) : Prop :=
  truthy_Z (item_has_serial_no h code) = true /\ active_bom_exists h code = true.

(** What holds of every pair [update_reserved_qty] collects. *)
Definition reservable (h : Host) (p : string * string) : Prop :=
  fst p <> "" /\ snd p <> "" /\ truthy_Z (item_is_stock_item h (fst p)) = true.

End DocMethods.

(** ** doctype/proforma/proforma.py: Proforma to Material Request *)

Module MakeMaterialRequest.

(** A Proforma Item or Packed Item row as [get_remaining_qty] reads it. *)
Record SoRow : Type := mkSoRow {
  name : string;
  item_code : string;
  qty : option Q;
  delivered_qty : option Q;
  conversion_factor : option Q
}.

(** One value of [get_requested_item_qty]. *)
Record Requested : Type := mkRequested {
  rq_qty : option Q;
  rq_received_qty : option Q
}.

Record MrItem : Type := mkMrItem {
  mr_source : string;
  mr_item_code : string;
  mr_qty : Q;
  mr_stock_qty : Q;
  mr_rate : Q;
  mr_amount : Q;
  mr_project : option string
}.

Record Proforma : Type := mkProforma {
  so_name : string;
  so_docstatus : Z;
  so_project : option string;
  so_items : list SoRow;
  so_packed_items : list SoRow
}.

Record Host : Type := mkHost {
  get_requested_item_qty : string -> gmap string Requested;
  product_bundle_exists : string -> bool;
  price_list_rate : string -> option Q
}.

(** [max(x, 0)]. *)
Definition max0 (x : Q) : Q := if Qltb x 0 then 0%Q else x.

Definition get_remaining_qty (requested_item_qty : gmap string Requested) (so_item : SoRow) :
    Q :=
  let requested := requested_item_qty !! name so_item in
  flt (Some
    (flt (qty so_item)
     - flt (match requested with Some r => rq_qty r | None => None end)
     - max0 (flt (delivered_qty so_item)
             - flt (match requested with Some r => rq_received_qty r | None => None end)))%Q).

Definition update_item (h : Host) (requested_item_qty : gmap string Requested)
    (source : SoRow) (source_parent : Proforma) : MrItem :=
  let target_qty := get_remaining_qty requested_item_qty source in
  let rate := flt (price_list_rate h (item_code source)) in
  {| mr_source := name source;
     mr_item_code := item_code source;
     mr_qty := target_qty;
     mr_stock_qty := (flt (Some target_qty) * flt (conversion_factor source))%Q;
     mr_rate := rate;
     mr_amount := (target_qty * rate)%Q;
     mr_project := so_project source_parent |}.

(** The rows mapped from the Proforma Item table and from the Packed Item
    table. *)
Definition make_material_request (h : Host) (so : Proforma) :
    result (list MrItem * list MrItem) :=
  let requested_item_qty := get_requested_item_qty h (so_name so) in
  if negb (Z.eqb (so_docstatus so) 1) then
    Err (ValidationError "Cannot map because following condition fails: docstatus=1")
  else
    Ok ((fun r => update_item h requested_item_qty r so)
          <$> List.filter
                (fun item => negb (product_bundle_exists h (item_code item))
                             && Qltb 0 (get_remaining_qty requested_item_qty item))
                (so_items so),
        (fun r => update_item h requested_item_qty r so) <$> so_packed_items so).

End MakeMaterialRequest.

(** ** doctype/proforma/proforma.py: Proforma to Sales Invoice *)

Module MakeSalesInvoice.

Record SoRow : Type := mkSoRow {
  name : string;
  item_code : string;
  qty : Q;
  returned_qty : Q;
  rate : option Q;
  amount : Q;
  base_amount : Q;
  billed_amt : Q
}.

Record SiItem : Type := mkSiItem {
  so_detail : string;
  si_item_code : string;
  si_qty : Q;
  si_amount : Q;
  si_base_amount : Q
}.

Definition condition (doc : SoRow) : bool :=
  truthy_Q (qty doc)
  && (Qeq_bool (base_amount doc) 0 || Qltb (Qabs_ (billed_amt doc)) (Qabs_ (amount doc))).

Definition update_item (conversion_rate : option Q) (source : SoRow) : SiItem :=
  let target_amount := (flt (Some (amount source)) - flt (Some (billed_amt source)))%Q in
  {| so_detail := name source;
     si_item_code := item_code source;
     si_qty :=
       if truthy_Q (flt (rate source)) && truthy_Q (billed_amt source)
       then (target_amount / flt (rate source))%Q
       else (qty source - returned_qty source)%Q;
     si_amount := target_amount;
     si_base_amount := (target_amount * flt conversion_rate)%Q |}.

(** The item rows of the invoice. *)
Definition make_sales_invoice (docstatus : Z) (conversion_rate : option Q)
    (items : list SoRow) : result (list SiItem) :=
  if negb (Z.eqb docstatus 1) then
    Err (ValidationError "Cannot map because following condition fails: docstatus=1")
  else Ok (update_item conversion_rate <$> List.filter condition items).

End MakeSalesInvoice.

(** ** doctype/proforma/proforma.py: Proforma to Pick List *)

Module CreatePickList.

Record SoRow : Type := mkSoRow {
  name : string;
  item_code : string;
  qty : Q;
  delivered_qty : Q;
  picked_qty : option Q;
  conversion_factor : option Q;
  delivered_by_supplier : Z;
  stock_reserved_qty : Q
}.

Record PackedRow : Type := mkPackedRow {
  pk_name : string;
  pk_parent_detail_docname : string;
  pk_item_code : string;
  pk_qty : Q
}.

Record Proforma : Type := mkProforma {
  so_name : string;
  so_docstatus : Z;
  so_items : list SoRow;
  so_packed_items : list PackedRow
}.

Record PlItem : Type := mkPlItem {
  proforma_item : string;
  product_bundle_item : option string;
  pl_item_code : string;
  pl_qty : Q;
  pl_stock_qty : Q
}.

Record Host : Type := mkHost {
  get_proforma : string -> option Proforma;
  is_product_bundle : string -> bool
}.

(** [validate_proforma]. *)
Fixpoint validate_proforma (items : list SoRow) : result unit :=
  match items with
  | [] => Ok tt
  | item :: rest =>
      if Qltb 0 (stock_reserved_qty item) then
        Err (ValidationError
               "Cannot create a pick list for Proforma because it has reserved stock.")
      else validate_proforma rest
  end.

Definition pymax (x y : Q) : Q := if Qltb x y then y else x.

Definition or_one (x : Q) : Q := if truthy_Q x then x else 1%Q.

Definition update_item_quantity (source : SoRow) : PlItem :=
  let picked_qty := (flt (picked_qty source) / or_one (flt (conversion_factor source)))%Q in
  let qty_to_be_picked :=
    (flt (Some (qty source)) - pymax picked_qty (flt (Some (delivered_qty source))))%Q in
  {| proforma_item := name source;
     product_bundle_item := None;
     pl_item_code := item_code source;
     pl_qty := qty_to_be_picked;
     pl_stock_qty := (qty_to_be_picked * flt (conversion_factor source))%Q |}.

(** [update_packed_item_qty]: the first row the packed item belongs to
    decides; the division by that row's quantity can fail. *)
Fixpoint update_packed_item_qty (items : list SoRow) (source : PackedRow) : result PlItem :=
  match items with
  | [] =>
      Ok {| proforma_item := pk_name source;
            product_bundle_item := Some (pk_parent_detail_docname source);
            pl_item_code := pk_item_code source;
            pl_qty := pk_qty source;
            pl_stock_qty := 0 |}
  | item :: rest =>
      if String.eqb (pk_parent_detail_docname source) (name item) then
        if truthy_Q (qty item) then
          let picked_qty :=
            (flt (picked_qty item) / or_one (flt (conversion_factor item)))%Q in
          let pending_percent :=
            ((qty item - pymax picked_qty (delivered_qty item)) / qty item)%Q in
          Ok {| proforma_item := pk_name source;
                product_bundle_item := Some (pk_parent_detail_docname source);
                pl_item_code := pk_item_code source;
                pl_qty := (flt (Some (pk_qty source)) * pending_percent)%Q;
                pl_stock_qty := (flt (Some (pk_qty source)) * pending_percent)%Q |}
        else Err ZeroDivisionError
      else update_packed_item_qty rest source
  end.

Definition should_pick_order_item (h : Host) (item : SoRow) : bool :=
  Qltb (Qabs_ (delivered_qty item)) (Qabs_ (qty item))
  && negb (Z.eqb (delivered_by_supplier item) 1)
  && negb (is_product_bundle h (item_code item)).

Fixpoint map_packed (items : list SoRow) (packed : list PackedRow) : result (list PlItem) :=
  match packed with
  | [] => Ok []
  | p :: rest =>
      bind (update_packed_item_qty items p) (fun t =>
      bind (map_packed items rest) (fun ts => Ok (t :: ts)))
  end.

(** [create_pick_list]: the rows mapped from the Proforma Item table and
    from the Packed Item table. *)
Definition create_pick_list (h : Host) (source_name : string) :
    result (list PlItem * list PlItem) :=
  match get_proforma h source_name with
  | None => Err (DoesNotExistError "Proforma" source_name)
  | Some so =>
      bind (validate_proforma (so_items so)) (fun _ =>
      if negb (Z.eqb (so_docstatus so) 1) then
        Err (ValidationError "Cannot map because following condition fails: docstatus=1")
      else
        bind (map_packed (so_items so) (so_packed_items so)) (fun packed =>
        Ok (update_item_quantity <$> List.filter (should_pick_order_item h) (so_items so),
            packed)))
  end.

End CreatePickList.

(** ** doctype/proforma/proforma.py: delivery dates *)

Module DeliveryDate.

(** Dates are day numbers; an unset date is [None]. *)
Record Item : Type := mkItem {
  name : string;
  delivery_date : option Z
}.

Definition with_date (d : Item) (date : option Z) : Item :=
  {| name := name d; delivery_date := date |}.

Definition max_date (l : list Z) : option Z :=
  match l with
  | [] => None
  | x :: rest => Some (fold_left Z.max rest x)
  end.

(** The loop that fills in and checks the rows' dates. *)
Fixpoint fill_dates (transaction_date doc_date : Z) (items : list Item) :
    result (list Item) :=
  match items with
  | [] => Ok []
  | d :: rest =>
      let d :=
        match delivery_date d with
        | Some _ => d
        | None => with_date d (Some doc_date)
        end in
      if Z.ltb (default doc_date (delivery_date d)) transaction_date then
        Err (ValidationError "Expected Delivery Date should be after Proforma Date")
      else bind (fill_dates transaction_date doc_date rest) (fun rest' => Ok (d :: rest'))
  end.

(** [Proforma.validate_delivery_date]: the document's delivery date and the
    rows after the method.  The closing call of
    [validate_sales_mntc_quotation] only prints notices and is left out. *)
Definition validate_delivery_date (order_type : string) (skip_delivery_note : bool)
    (transaction_date : Z) (doc_delivery_date : option Z) (items : list Item) :
    result (option Z * list Item) :=
  if String.eqb order_type "Sales" && negb skip_delivery_note then
    let delivery_date_list := omap delivery_date items in
    let max_delivery_date := max_date delivery_date_list in
    let doc_delivery_date :=
      match max_delivery_date, doc_delivery_date with
      | Some m, None => Some m
      | Some m, Some cur => if negb (Z.eqb cur m) then Some m else Some cur
      | None, cur => cur
      end in
    match doc_delivery_date with
    | Some date =>
        bind (fill_dates transaction_date date items) (fun items' =>
        Ok (Some date, items'))
    | None => Err (ValidationError "Please enter Delivery Date")
    end
  else Ok (doc_delivery_date, items).

End DeliveryDate.

(** ** doctype/proforma/proforma.py: work orders *)

Module MakeWorkOrders.

(** One element of the [items] the client sends. *)
Record WoRequest : Type := mkWoRequest {
  item_code : string;
  bom : option string;
  pending_qty : option Q;
  proforma_item : string;
  warehouse : string;
  description : string
}.

Record WorkOrder : Type := mkWorkOrder {
  production_item : string;
  bom_no : option string;
  wo_qty : option Q;
  wo_company : string;
  wo_proforma : string;
  wo_proforma_item : string;
  wo_project : option string;
  fg_warehouse : string;
  wo_description : string
}.

Inductive effect : Type :=
| InsertWo (wo : WorkOrder)
| SaveWo (wo : WorkOrder).

Record Host : Type := mkHost {
  json_loads_items : string -> result (list WoRequest);
  name_of : WorkOrder -> string
}.

Definition new_work_order (company proforma : string) (project : option string)
    (i : WoRequest) : WorkOrder :=
  {| production_item := item_code i;
     bom_no := bom i;
     wo_qty := pending_qty i;
     wo_company := company;
     wo_proforma := proforma;
     wo_proforma_item := proforma_item i;
     wo_project := project;
     fg_warehouse := warehouse i;
     wo_description := description i |}.

Definition truthy_opt_Q (o : option Q) : bool :=
  match o with
  | Some q => truthy_Q q
  | None => false
  end.

(** The [for] loop: the inserts and saves issued, and the names returned
    or the exception.  The host's [insert] and [save] are taken to succeed.
    The function has no [frappe.db.commit], so the trace says what was
    asked of the host's transaction, not what persists. *)
Fixpoint work_order_loop (h : Host) (company proforma : string) (project : option string)
    (items : list WoRequest) : list effect * result (list string) :=
  match items with
  | [] => ([], Ok [])
  | i :: rest =>
      if negb (truthy_str (bom i)) then
        ([], Err (ValidationError ("Please select BOM against item " ++ item_code i)))
      else if negb (truthy_opt_Q (pending_qty i)) then
        ([], Err (ValidationError ("Please select Qty against item " ++ item_code i)))
      else
        let work_order := new_work_order company proforma project i in
        let '(effs, r) := work_order_loop h company proforma project rest in
        (InsertWo work_order :: SaveWo work_order :: effs,
         bind r (fun names => Ok (name_of h work_order :: names)))
  end.

Definition make_work_orders (h : Host) (items : string) (proforma company : string)
    (project : option string) : list effect * result (list string) :=
  match json_loads_items h items with
  | Err e => ([], Err e)
  | Ok items => work_order_loop h company proforma project items
  end.

(** A request the loop accepts. *)
Definition acceptable (i : WoRequest) : bool :=
  truthy_str (bom i) && truthy_opt_Q (pending_qty i).

End MakeWorkOrders.

(** ** doctype/proforma/proforma.py: items for work orders *)

Module GetWorkOrderItems.

(** A row of [so.items] or of [so.packed_items]; [is_packed_item] is
    [i.doctype == "Packed Item"]. *)
Record Row : Type := mkRow {
  name : string;
  item_code : string;
  is_packed_item : bool;
  qty : Q;
  stock_qty : Q;
  warehouse : string;
  description : string
}.

Record Proforma : Type := mkProforma {
  so_name : string;
  items : list Row;
  packed_items : list Row
}.

Record WorkOrderRow : Type := mkWorkOrderRow {
  production_item : string;
  wo_proforma : string;
  wo_proforma_item : string;
  wo_qty : Q;
  wo_docstatus : Z
}.

(** A Product Bundle: its [new_item_code] and [disabled]. *)
Record ProductBundle : Type := mkProductBundle {
  new_item_code : string;
  disabled : Z
}.

Record Host : Type := mkHost {
  get_doc : string -> result Proforma;
  work_orders : list WorkOrderRow;
  bundles : list ProductBundle;
  get_default_bom : string -> option string
}.

(** One element of the returned list. *)
Record WoItem : Type := mkWoItem {
  wi_name : string;
  wi_item_code : string;
  wi_description : string;
  wi_bom : string;
  wi_warehouse : string;
  wi_pending_qty : Q;
  wi_required_qty : Q;
  wi_proforma_item : string
}.

Definition product_bundle_parents (h : Host) (item_codes : list string) : list string :=
  new_item_code
    <$> List.filter (fun pb => str_in (new_item_code pb) item_codes && (disabled pb =? 0)%Z)
          (bundles h).

(** [Sum(wo.qty)] over the Work Orders of the row that are not cancelled,
    after [flt]. *)
Definition total_work_order_qty (h : Host) (so : Proforma) (i : Row) : Q :=
  StockReservation.Qsum
    (wo_qty
       <$> List.filter
             (fun wo => String.eqb (production_item wo) (item_code i)
                        && String.eqb (wo_proforma wo) (so_name so)
                        && String.eqb (wo_proforma_item wo) (name i)
                        && (wo_docstatus wo <? 2)%Z)
             (work_orders h)).

Definition row_stock_qty (i : Row) : Q :=
  if is_packed_item i then qty i else stock_qty i.

(** The body of the inner loop: the element appended for row [i], if any. *)
Definition item_for (h : Host) (so : Proforma) (parents : list string)
    (for_raw_material_request : bool) (i : Row) : option WoItem :=
  let bom := get_default_bom h (item_code i) in
  let stock_qty := row_stock_qty i in
  let pending_qty :=
    if negb for_raw_material_request
    then (stock_qty - total_work_order_qty h so i)%Q
    else stock_qty in
  if truthy_Q pending_qty && negb (str_in (item_code i) parents) then
    Some {| wi_name := name i;
            wi_item_code := item_code i;
            wi_description := description i;
            wi_bom := if truthy_str bom then default "" bom else "";
            wi_warehouse := warehouse i;
            wi_pending_qty := pending_qty;
            wi_required_qty := if for_raw_material_request then pending_qty else 0%Q;
            wi_proforma_item := name i |}
  else None.

(** [get_work_order_items]; [for_raw_material_request] is the truth value
    of the argument.  Without a Proforma name the function returns
    [None]. *)
Definition get_work_order_items (h : Host) (proforma : option string)
    (for_raw_material_request : bool) : result (option (list WoItem)) :=
  if truthy_str proforma then
    bind (get_doc h (default "" proforma)) (fun so =>
      let item_codes := item_code <$> items so in
      let parents := product_bundle_parents h item_codes in
      Ok (Some (omap (item_for h so parents for_raw_material_request)
                  (concat [items so; packed_items so]))))
  else Ok None.

(** A returned element as [make_work_orders] reads it when it is sent
    back unchanged. *)
Definition as_request (it : WoItem) : MakeWorkOrders.WoRequest :=
  MakeWorkOrders.mkWoRequest (wi_item_code it) (Some (wi_bom it))
    (Some (wi_pending_qty it)) (wi_proforma_item it) (wi_warehouse it)
    (wi_description it).

End GetWorkOrderItems.

(** ** doctype/proforma/proforma.py: delivery status of drop-shipped rows *)

Module DeliveryStatus.

Record Item : Type := mkItem {
  name : string;
  item_code : string;
  qty : Q;
  delivered_qty : Q;
  delivered_by_supplier : option Z
}.

Definition with_delivered (item : Item) (q : Q) : Item :=
  {| name := name item; item_code := item_code item; qty := qty item;
     delivered_qty := q; delivered_by_supplier := delivered_by_supplier item |}.

(** The rows after the loop of [Proforma.update_delivery_status];
    [po_delivered] is the quantity on delivered Purchase Orders of the
    row, when the query returns one. *)
Definition refresh (po_delivered : string -> string -> option Q) (item : Item) : Item :=
  if truthy_Z (delivered_by_supplier item)
  then with_delivered item (flt (po_delivered (name item) (item_code item)))
  else item.

Definition sum_of (f : Item -> Q) (items : list Item) : Q :=
  fold_left (fun acc i => (acc + f i)%Q) items 0%Q.

(** [Proforma.update_delivery_status]: the rows after the method and the
    value written to [per_delivered], if one is written. *)
Definition update_delivery_status (po_delivered : string -> string -> option Q)
    (items : list Item) : list Item * option Q :=
  let items' := refresh po_delivered <$> items in
  let delivered_qty := sum_of delivered_qty items' in
  let tot_qty := sum_of qty items' in
  (items',
   if negb (Qeq_bool tot_qty 0)
   then Some (flt (Some (delivered_qty / tot_qty)) * 100)%Q
   else None).

End DeliveryStatus.

(** * Sample inputs *)

Module Samples.

Definition sample_store : gmap (string * string) (gmap string string) :=
  {[ ("Proforma", "PF-0001") := {[ "inter_company_order_reference" := "PO-0007" ]} ]}.

(** The times of the writes of a call. *)
Definition sample_clock (i : nat) : string :=
  match i with
  | O => "2024-05-02 10:00:00.000001"
  | _ => "2024-05-02 10:00:00.000002"
  end.

(** An internal customer that may transact with company B only. *)
Definition intercompany_db : GeneralFunctions.Db :=
  GeneralFunctions.mkDb
    [GeneralFunctions.mkParty "Customer" "ACME Internal" (Some "Company B") 1 0]
    []
    [GeneralFunctions.mkAllowed "Customer" "ACME Internal" "Company B"].

(** Stock of ITEM-A in WH-1: 10 on hand, 3 of them held by an earlier,
    partly delivered reservation of another voucher. *)
Definition stored_sre (n : string) (e : StockReservation.Sre) : StockReservation.Sre :=
  StockReservation.mkSre n 1 "Reserved"
    (StockReservation.sre_item_code e) (StockReservation.sre_warehouse e)
    (StockReservation.sre_has_serial_no e) (StockReservation.sre_has_batch_no e)
    (StockReservation.sre_voucher_type e) (StockReservation.sre_voucher_no e)
    (StockReservation.sre_voucher_detail_no e) (StockReservation.sre_available_qty e)
    (StockReservation.sre_voucher_qty e) (StockReservation.sre_reserved_qty e)
    (StockReservation.sre_delivered_qty e) (StockReservation.sre_company e)
    (StockReservation.sre_stock_uom e) (StockReservation.sre_project e)
    (StockReservation.sre_from_voucher_type e) (StockReservation.sre_from_voucher_no e)
    (StockReservation.sre_from_voucher_detail_no e)
    (StockReservation.sre_reservation_based_on e) (StockReservation.sre_sb_entries e).

Definition reservation_host : StockReservation.Host :=
  StockReservation.mkHost (Some 1%Z) (Some 1%Z)
    (fun _ => Some 0%Z)
    (fun _ => (true, false, false))
    (fun code wh => if String.eqb code "ITEM-A" && String.eqb wh "WH-1" then 10%Q else 0%Q)
    (fun _ _ _ _ => 0%Q)
    (fun _ _ _ => ∅)
    (fun _ => None)
    (fun _ => None)
    (fun e st => st ++ [stored_sre ("SRE-" ++ StockReservation.sre_voucher_detail_no e) e]).

Definition earlier_sres : list StockReservation.Sre :=
  [StockReservation.mkSre "SRE-0001" 1 "Partially Delivered" "ITEM-A" "WH-1" false false
     "Proforma" "PF-0000" "row-0" 10 4 4 1 None "Nos" None None None None "Qty" [];
   StockReservation.mkSre "SRE-0002" 2 "Cancelled" "ITEM-A" "WH-1" false false
     "Proforma" "PF-0000" "row-9" 10 2 2 0 None "Nos" None None None None "Qty" []].

Definition reservation_rows : list StockReservation.SoItem :=
  [StockReservation.mkSoItem "row-1" 1 "ITEM-A" "WH-1" 5 None (Some 1%Q) (Some 1%Z)
     None None "Nos" "Nos" None None None;
   StockReservation.mkSoItem "row-2" 2 "ITEM-A" "WH-1" 6 None (Some 1%Q) (Some 1%Z)
     None None "Nos" "Nos" None None None].

Definition reservation_proforma : StockReservation.ProformaDoc :=
  StockReservation.mkProformaDoc "Proforma" "PF-0001" (Some "Company B") None None None
    reservation_rows.

(** The two entries the run over [reservation_proforma] builds: row-1
    takes 5 of the 7 available, row-2 the remaining 2 of its 6. *)
Definition first_entry : StockReservation.Sre :=
  StockReservation.mkSre "" 0 "Draft" "ITEM-A" "WH-1" false false
    "Proforma" "PF-0001" "row-1" 7 5 5 0 (Some "Company B") "Nos" None None None None
    "Qty" [].

Definition second_entry : StockReservation.Sre :=
  StockReservation.mkSre "" 0 "Draft" "ITEM-A" "WH-1" false false
    "Proforma" "PF-0001" "row-2" 2 6 2 0 (Some "Company B") "Nos" None None None None
    "Qty" [].

(** A quotation of 5 units of which 2 were ordered before, in boxes of 12. *)
Definition quotation_rows : list MakeProforma.QuotationItem :=
  [MakeProforma.mkQuotationItem "q-row-1" "QTN-0001" "ITEM-A" 5 (Some 12%Q) false false
     None None None;
   MakeProforma.mkQuotationItem "q-row-2" "QTN-0001" "ITEM-B" 1 (Some 1%Q) false false
     None None None].

Definition ordered_before : gmap string Q := {[ "ITEM-A" := 2%Q; "ITEM-B" := 3%Q ]}.

Definition purchase_host : MakePurchaseOrder.Host :=
  MakePurchaseOrder.mkHost (fun _ => Ok []) (fun _ => false) (fun _ => None).

(** Three submitted or draft documents and a host that stores the
    requested status as it is. *)
Definition plain_host : CloseOrUnclose.Host :=
  CloseOrUnclose.mkHost true
    (fun _ => Ok ["PF-0001"; "PF-0002"; "PF-0003"; "PF-0001"])
    (fun _ => false) (fun _ s => s) (fun _ => Ok tt).

Definition proforma_table : gmap string CloseOrUnclose.ProformaDoc :=
  {[ "PF-0001" := CloseOrUnclose.mkProformaDoc "PF-0001" 1 "To Deliver and Bill" 40 0;
     "PF-0002" := CloseOrUnclose.mkProformaDoc "PF-0002" 0 "Draft" 0 0;
     "PF-0003" := CloseOrUnclose.mkProformaDoc "PF-0003" 1 "Completed" 100 100 ]}.

(** A submitted Proforma with two rows; 2 units of the first one are
    reserved by one Stock Reservation Entry. *)
Definition delivery_host : MakeDeliveryNote.Host :=
  MakeDeliveryNote.mkHost None
    (fun _ _ => {[ "r1" := 2%Q ]})
    (fun _ _ => [MakeDeliveryNote.mkSreDetail "r1" (Some 2%Q) "Qty" false false])
    (fun _ => None)
    (fun _ _ _ => None).

Definition delivery_row_1 : MakeDeliveryNote.SoRow :=
  MakeDeliveryNote.mkSoRow "r1" "ITEM-A" 5 0 (Some 10%Q) (Some 10%Q) (Some 1%Q)
    "2025-01-31" 0 2.

Definition delivery_row_2 : MakeDeliveryNote.SoRow :=
  MakeDeliveryNote.mkSoRow "r2" "ITEM-B" 3 1 (Some 4%Q) (Some 4%Q) (Some 1%Q)
    "2025-01-31" 0 0.

Definition delivery_proforma : MakeDeliveryNote.Proforma :=
  MakeDeliveryNote.mkProforma "PF-0001" 1 "Company B" None [delivery_row_1; delivery_row_2].

Definition for_reserved : MakeDeliveryNote.Kwargs := MakeDeliveryNote.mkKwargs true false.

Definition delivered_rows : list MakeDeliveryNote.DnItem :=
  Eval vm_compute in
    match MakeDeliveryNote.make_delivery_note delivery_host delivery_proforma for_reserved with
    | Ok items => items
    | Err _ => []
    end.

(** Two Stock Reservation Entries for row r1. *)
Definition two_entry_host : MakeDeliveryNote.Host :=
  MakeDeliveryNote.mkHost None
    (fun _ _ => {[ "r1" := 5%Q ]})
    (fun _ _ => [MakeDeliveryNote.mkSreDetail "r1" (Some 2%Q) "Qty" false false;
                 MakeDeliveryNote.mkSreDetail "r1" (Some 3%Q) "Qty" false false])
    (fun _ => None)
    (fun _ _ _ => None).

Definition guest_host : CloseOrUnclose.Host :=
  CloseOrUnclose.mkHost false
    (fun _ => Ok ["PF-0001"])
    (fun _ => false) (fun _ s => s) (fun _ => Ok tt).

Definition closing_run :
    gmap string CloseOrUnclose.ProformaDoc * list CloseOrUnclose.call * option error :=
  CloseOrUnclose.close_or_unclose_proforma plain_host proforma_table
    "[PF-0001, PF-0002, PF-0003, PF-0001]" "Closed".

(** The reservation host with partial reservation switched off, with
    stock reservation switched off in a group warehouse, and with every row
    of [reservation_proforma] already reserved in full. *)
Definition strict_host : StockReservation.Host :=
  StockReservation.mkHost (Some 1%Z) (Some 0%Z)
    (fun _ => Some 0%Z)
    (fun _ => (true, false, false))
    (fun code wh => if String.eqb code "ITEM-A" && String.eqb wh "WH-1" then 10%Q else 0%Q)
    (fun _ _ _ _ => 0%Q)
    (fun _ _ _ => ∅)
    (fun _ => None)
    (fun _ => None)
    (fun e st => st ++ [stored_sre ("SRE-" ++ StockReservation.sre_voucher_detail_no e) e]).

Definition disabled_host : StockReservation.Host :=
  StockReservation.mkHost None (Some 1%Z)
    (fun _ => Some 1%Z)
    (fun _ => (true, false, false))
    (fun _ _ => 10%Q)
    (fun _ _ _ _ => 0%Q)
    (fun _ _ _ => ∅)
    (fun _ => None)
    (fun _ => None)
    (fun e st => st ++ [e]).

Definition submitted_in_group_warehouse : StockReservation.ProformaDoc :=
  StockReservation.mkProformaDoc "Proforma" "PF-0001" (Some "Company B") None
    (Some "submit") (Some "All Warehouses") reservation_rows.

Definition reserved_host : StockReservation.Host :=
  StockReservation.mkHost (Some 1%Z) (Some 1%Z)
    (fun _ => Some 0%Z)
    (fun _ => (true, false, false))
    (fun _ _ => 10%Q)
    (fun _ _ _ _ => 0%Q)
    (fun _ _ _ => {[ "row-1" := 5%Q; "row-2" := 6%Q ]})
    (fun _ => None)
    (fun _ => None)
    (fun e st => st ++ [e]).

Definition batch_entries : list StockReservation.SbbEntry :=
  [StockReservation.mkSbbEntry None (Some "B-1") (-3) "WH-1";
   StockReservation.mkSbbEntry None (Some "B-2") (-4) "WH-1";
   StockReservation.mkSbbEntry None (Some "B-3") (-2) "WH-1"].

(** A submitted Proforma whose rows are bought from two suppliers, and the
    selection the client sends for it. *)
Definition purchase_rows : list MakePurchaseOrder.SoRow :=
  [MakePurchaseOrder.mkSoRow "p1" "ITEM-A" 5 5 0 (Some 1%Q) (Some "SUP-1") (Some "2025-02-01") 0;
   MakePurchaseOrder.mkSoRow "p2" "ITEM-B" 2 24 12 (Some 12%Q) (Some "SUP-2") (Some "2025-02-03") 0;
   MakePurchaseOrder.mkSoRow "p3" "ITEM-C" 4 4 4 (Some 1%Q) (Some "SUP-1") (Some "2025-02-05") 0].

Definition purchase_proforma : MakePurchaseOrder.Proforma :=
  MakePurchaseOrder.mkProforma "PF-0001" 1 (Some "CUST-1") (Some "Customer One") None None None
    purchase_rows [].

Definition purchase_selection : list MakePurchaseOrder.SelItem :=
  [MakePurchaseOrder.mkSelItem (Some "ITEM-A") (Some "SUP-1");
   MakePurchaseOrder.mkSelItem (Some "ITEM-B") (Some "SUP-2");
   MakePurchaseOrder.mkSelItem (Some "ITEM-C") (Some "SUP-1")].

Definition supplier_host : MakePurchaseOrder.Host :=
  MakePurchaseOrder.mkHost (fun _ => Ok purchase_selection) (fun _ => false)
    (fun n => if String.eqb n "PF-0001" then Some purchase_proforma else None).

Definition supplier_run :
    list MakePurchaseOrder.effect * result (option (list MakePurchaseOrder.PurchaseOrder)) :=
  Eval vm_compute in
    MakePurchaseOrder.make_purchase_order_for_default_supplier supplier_host "PF-0001"
      (MakePurchaseOrder.SelList purchase_selection).

Definition supplier_orders : list MakePurchaseOrder.PurchaseOrder :=
  Eval vm_compute in
    match supplier_run.2 with
    | Ok (Some docs) => docs
    | _ => []
    end.

Definition supplier_order_2 : MakePurchaseOrder.PurchaseOrder :=
  Eval vm_compute in
    match supplier_orders with
    | [_; d] => d
    | _ => MakePurchaseOrder.mkPurchaseOrder "" None None None []
    end.

Definition supplier_item_2 : MakePurchaseOrder.PoItem :=
  Eval vm_compute in
    match MakePurchaseOrder.po_items supplier_order_2 with
    | [t] => t
    | _ => MakePurchaseOrder.update_item_for_packed_item
             (MakePurchaseOrder.mkPackedRow "" "" "" 0 None)
    end.

(** The same Proforma with a row whose conversion factor is zero. *)
Definition broken_proforma : MakePurchaseOrder.Proforma :=
  MakePurchaseOrder.mkProforma "PF-0002" 1 (Some "CUST-1") (Some "Customer One") None None None
    [MakePurchaseOrder.mkSoRow "b1" "ITEM-A" 5 5 0 (Some 1%Q) (Some "SUP-1") None 0;
     MakePurchaseOrder.mkSoRow "b2" "ITEM-B" 2 24 12 (Some 0%Q) (Some "SUP-2") None 0]
    [].

Definition broken_host : MakePurchaseOrder.Host :=
  MakePurchaseOrder.mkHost (fun _ => Ok purchase_selection) (fun _ => false)
    (fun n => if String.eqb n "PF-0002" then Some broken_proforma else None).

(** A Proforma and the Purchase Order of the other company, stored under
    the generic document table. *)
Definition linked_store : gmap (string * string) (gmap string string) :=
  {[ ("Proforma", "PF-0001") := {[ "inter_company_order_reference" := "PO-0007";
                                   "customer" := "ACME Internal" ]};
     ("Proforma", "PO-0007") := {[ "inter_company_order_reference" := "PF-0001" ]};
     ("Sales Order", "PO-0007") := {[ "inter_company_order_reference" := "PF-0001" ]} ]}.

(** A quotation with an alternative for its first row. *)
Definition alternative_rows : list MakeProforma.QuotationItem :=
  [MakeProforma.mkQuotationItem "q1" "QTN-0002" "ITEM-A" 5 (Some 1%Q) false true None None None;
   MakeProforma.mkQuotationItem "q2" "QTN-0002" "ITEM-A2" 5 (Some 1%Q) true false None None None;
   MakeProforma.mkQuotationItem "q3" "QTN-0002" "ITEM-B" 0 (Some 1%Q) false false None None None].

(** Rows for the document methods: a stock item that asks for reservation,
    a service that asks for it too, and a drop-shipped row. *)
Definition method_host : DocMethods.Host :=
  DocMethods.mkHost (Some 1%Z) (Some 10%Q)
    (fun code => if String.eqb code "SERVICE" then Some 0%Z else Some 1%Z)
    (fun code => if String.eqb code "ITEM-S" then Some 1%Z else Some 0%Z)
    (fun code => String.eqb code "ITEM-S")
    (fun code => String.eqb code "BUNDLE")
    (fun _ _ => 3%Q).

Definition method_rows : list DocMethods.Item :=
  [DocMethods.mkItem "m1" 1 "ITEM-A" (Some "WH-1") (Some 10%Q) (Some 4%Q) None None
     (Some 1%Z) (Some 1%Z) None;
   DocMethods.mkItem "m2" 2 "SERVICE" None (Some 1%Q) None None None
     (Some 1%Z) (Some 0%Z) None;
   DocMethods.mkItem "m3" 3 "ITEM-A" (Some "WH-1") (Some 10%Q) (Some 7%Q) None None
     None (Some 1%Z) None;
   DocMethods.mkItem "m4" 4 "ITEM-D" (Some "WH-2") (Some 5%Q) None (Some 1%Z) (Some "SUP-1")
     None (Some 1%Z) None].

Definition serial_rows : list DocMethods.Item :=
  [DocMethods.mkItem "s1" 1 "ITEM-S" (Some "WH-1") (Some 1%Q) None None None None (Some 1%Z)
     (Some 1%Z);
   DocMethods.mkItem "s2" 2 "ITEM-A" (Some "WH-1") (Some 1%Q) None None None None (Some 1%Z)
     None;
   DocMethods.mkItem "s3" 3 "ITEM-S" (Some "WH-1") (Some 2%Q) None None None None (Some 1%Z)
     (Some 1%Z)].

(** Rows for the Material Request and the Sales Invoice. *)
Definition request_host : MakeMaterialRequest.Host :=
  MakeMaterialRequest.mkHost
    (fun _ => {[ "mr1" := MakeMaterialRequest.mkRequested (Some 2%Q) (Some 1%Q) ]})
    (fun code => String.eqb code "BUNDLE")
    (fun _ => Some 7%Q).

Definition request_proforma : MakeMaterialRequest.Proforma :=
  MakeMaterialRequest.mkProforma "PF-0001" 1 None
    [MakeMaterialRequest.mkSoRow "mr1" "ITEM-A" (Some 10%Q) (Some 3%Q) (Some 2%Q);
     MakeMaterialRequest.mkSoRow "mr2" "BUNDLE" (Some 1%Q) None (Some 1%Q);
     MakeMaterialRequest.mkSoRow "mr3" "ITEM-C" (Some 4%Q) (Some 4%Q) (Some 1%Q)]
    [].

Definition requested_item : MakeMaterialRequest.MrItem :=
  Eval vm_compute in
    MakeMaterialRequest.update_item request_host
      (MakeMaterialRequest.get_requested_item_qty request_host "PF-0001")
      (MakeMaterialRequest.mkSoRow "mr1" "ITEM-A" (Some 10%Q) (Some 3%Q) (Some 2%Q))
      request_proforma.

Definition invoice_rows : list MakeSalesInvoice.SoRow :=
  [MakeSalesInvoice.mkSoRow "i1" "ITEM-A" 10 0 (Some 5%Q) 50 50 20;
   MakeSalesInvoice.mkSoRow "i2" "ITEM-B" 2 0 (Some 8%Q) 16 16 16;
   MakeSalesInvoice.mkSoRow "i3" "ITEM-C" 3 1 (Some 4%Q) 12 12 0].

Definition invoiced_item : MakeSalesInvoice.SiItem :=
  Eval vm_compute in
    MakeSalesInvoice.update_item (Some 1%Q)
      (MakeSalesInvoice.mkSoRow "i1" "ITEM-A" 10 0 (Some 5%Q) 50 50 20).

(** A Proforma ready for picking: half of the first row is picked. *)
Definition pick_proforma : CreatePickList.Proforma :=
  CreatePickList.mkProforma "PF-0001" 1
    [CreatePickList.mkSoRow "k1" "ITEM-A" 10 2 (Some 12%Q) (Some 3%Q) 0 0;
     CreatePickList.mkSoRow "k2" "ITEM-B" 4 4 None (Some 1%Q) 0 0]
    [].

Definition pick_host : CreatePickList.Host :=
  CreatePickList.mkHost
    (fun n => if String.eqb n "PF-0001" then Some pick_proforma else None)
    (fun _ => false).

Definition picked_item : CreatePickList.PlItem :=
  Eval vm_compute in
    CreatePickList.update_item_quantity
      (CreatePickList.mkSoRow "k1" "ITEM-A" 10 2 (Some 12%Q) (Some 3%Q) 0 0).

(** Rows with delivery dates given as day numbers. *)
Definition dated_rows : list DeliveryDate.Item :=
  [DeliveryDate.mkItem "d1" (Some 20%Z);
   DeliveryDate.mkItem "d2" None;
   DeliveryDate.mkItem "d3" (Some 25%Z)].

Definition dated_rows_after : list DeliveryDate.Item :=
  [DeliveryDate.mkItem "d1" (Some 20%Z);
   DeliveryDate.mkItem "d2" (Some 25%Z);
   DeliveryDate.mkItem "d3" (Some 25%Z)].

(** Three work-order requests, the last one without a BOM. *)
Definition wo_requests : list MakeWorkOrders.WoRequest :=
  [MakeWorkOrders.mkWoRequest "ITEM-A" (Some "BOM-A") (Some 5%Q) "w1" "WH-1" "first";
   MakeWorkOrders.mkWoRequest "ITEM-B" (Some "BOM-B") (Some 2%Q) "w2" "WH-1" "second";
   MakeWorkOrders.mkWoRequest "ITEM-C" None (Some 1%Q) "w3" "WH-1" "third"].

Definition wo_host : MakeWorkOrders.Host :=
  MakeWorkOrders.mkHost (fun _ => Ok wo_requests)
    (fun wo => String.append "WO-" (MakeWorkOrders.wo_proforma_item wo)).

Definition shipped_rows : list DeliveryStatus.Item :=
  [DeliveryStatus.mkItem "u1" "ITEM-A" 10 4 None;
   DeliveryStatus.mkItem "u2" "ITEM-D" 5 0 (Some 1%Z)].

Definition po_delivered_sample (row code : string) : option Q :=
  if String.eqb row "u2" then Some 5%Q else None.

(** A Proforma with a row fully covered by work orders, a row covered
    beyond its quantity, a bundle parent and a packed row. *)
Definition wo_proforma_doc : GetWorkOrderItems.Proforma :=
  GetWorkOrderItems.mkProforma "PF-0001"
    [GetWorkOrderItems.mkRow "w1" "ITEM-A" false 5 5 "WH-1" "first";
     GetWorkOrderItems.mkRow "w2" "ITEM-B" false 2 4 "WH-1" "second";
     GetWorkOrderItems.mkRow "w3" "BUNDLE" false 1 1 "WH-1" "third"]
    [GetWorkOrderItems.mkRow "p1" "PART" true 3 0 "WH-1" "part"].

Definition wo_items_host : GetWorkOrderItems.Host :=
  GetWorkOrderItems.mkHost (fun _ => Ok wo_proforma_doc)
    [GetWorkOrderItems.mkWorkOrderRow "ITEM-A" "PF-0001" "w1" 5 1;
     GetWorkOrderItems.mkWorkOrderRow "ITEM-B" "PF-0001" "w2" 6 0;
     GetWorkOrderItems.mkWorkOrderRow "ITEM-B" "PF-0001" "w2" 9 2]
    [GetWorkOrderItems.mkProductBundle "BUNDLE" 0]
    (fun code => if String.eqb code "ITEM-B" then Some "BOM-B" else None).

Definition returned_item : GetWorkOrderItems.WoItem :=
  GetWorkOrderItems.mkWoItem "w2" "ITEM-B" "second" "BOM-B" "WH-1" (4 - (6 + 0))%Q 0 "w2".

End Samples.

(** * Properties *)

(** ** Arithmetic of the boolean comparisons *)

Lemma Qltb_lt (x y : Q) : Qltb x y = true <-> (x < y)%Q.
Proof.
  unfold Qltb. rewrite negb_true_iff. split.
  - intros H. apply Qnot_le_lt. intros Hle. apply Qle_bool_iff in Hle. congruence.
  - intros H. destruct (Qle_bool y x) eqn:E; [|reflexivity].
    apply Qle_bool_iff in E. exfalso. exact (Qlt_not_le _ _ H E).
Qed.

Lemma Qltb_ge (x y : Q) : Qltb x y = false <-> (y <= x)%Q.
Proof.
  unfold Qltb. rewrite negb_false_iff. apply Qle_bool_iff.
Qed.

Lemma Qleb_le (x y : Q) : Qleb x y = true <-> (x <= y)%Q.
Proof. apply Qle_bool_iff. Qed.

Lemma truthy_Q_false (q : Q) : truthy_Q q = false <-> (q == 0)%Q.
Proof. unfold truthy_Q. rewrite negb_false_iff. apply Qeq_bool_iff. Qed.

Lemma truthy_Q_true (q : Q) : truthy_Q q = true <-> ~ (q == 0)%Q.
Proof.
  unfold truthy_Q. rewrite negb_true_iff. split.
  - intros H Hq. apply Qeq_bool_iff in Hq. congruence.
  - intros H. destruct (Qeq_bool q 0) eqn:E; [|reflexivity].
    apply Qeq_bool_iff in E. contradiction.
Qed.

Lemma pymin_le_l (x y : Q) : (pymin x y <= x)%Q.
Proof.
  unfold pymin. destruct (Qltb y x) eqn:E.
  - apply Qltb_lt in E. apply Qlt_le_weak, E.
  - apply Qle_refl.
Qed.

Lemma pymin_le_r (x y : Q) : (pymin x y <= y)%Q.
Proof.
  unfold pymin. destruct (Qltb y x) eqn:E.
  - apply Qle_refl.
  - apply Qltb_ge in E. exact E.
Qed.

Lemma pymin_Qmin (x y : Q) : (pymin x y == Qmin x y)%Q.
Proof.
  unfold pymin. destruct (Qltb y x) eqn:E.
  - apply Qltb_lt in E. symmetry. apply Q.min_r. apply Qlt_le_weak, E.
  - apply Qltb_ge in E. symmetry. apply Q.min_l. exact E.
Qed.

Lemma str_in_In (s : string) (l : list string) : str_in s l = true <-> In s l.
Proof.
  unfold str_in. rewrite existsb_exists. split.
  - intros [x [Hin Heq]]. apply String.eqb_eq in Heq. subst. exact Hin.
  - intros Hin. exists s. split; [exact Hin | apply String.eqb_refl].
Qed.

(** ** general_functions.py *)

Section GeneralFunctionsProps.
Import GeneralFunctions Samples.

(** C9. With an empty or missing inter-company reference neither
    [update_linked_doc] nor [unlink_inter_company_doc] issues a database
    write, so every field of every stored document keeps its value. *)
Theorem no_writes_without_reference (doctype name : string)
    (inter_company_reference : option string)
    (clock : nat -> string) (user : string)
    (st : gmap (string * string) (gmap string string)) :
  truthy_str inter_company_reference = false ->
  update_linked_doc doctype name inter_company_reference = []
  /\ unlink_inter_company_doc doctype name inter_company_reference = []
  /\ apply_writes clock user (update_linked_doc doctype name inter_company_reference) st = st
  /\ apply_writes clock user (unlink_inter_company_doc doctype name inter_company_reference) st
     = st.
Proof.
  intros Hfalsy.
  assert (Hu : update_linked_doc doctype name inter_company_reference = []).
  { unfold update_linked_doc. rewrite Hfalsy. reflexivity. }
  assert (Hl : unlink_inter_company_doc doctype name inter_company_reference = []).
  { unfold unlink_inter_company_doc.
    destruct (str_in doctype ["Sales Invoice"; "Purchase Invoice"]);
      rewrite Hfalsy; reflexivity. }
  rewrite Hu, Hl. repeat split; reflexivity.
Qed.

Lemma no_writes_without_reference_witness :
  update_linked_doc "Proforma" "PF-0001" (Some "") = []
  /\ unlink_inter_company_doc "Proforma" "PF-0001" (Some "") = []
  /\ apply_writes sample_clock "user@b.example"
       (update_linked_doc "Proforma" "PF-0001" (Some "")) sample_store
     = sample_store
  /\ apply_writes sample_clock "user@b.example"
       (unlink_inter_company_doc "Proforma" "PF-0001" (Some "")) sample_store
     = sample_store.
Proof.
  apply (no_writes_without_reference "Proforma" "PF-0001" (Some "") sample_clock
           "user@b.example" sample_store).
  reflexivity.
Defined.

(** C3. On a Proforma the party is looked up as a Supplier with the flag
    [is_internal_supplier]: the first membership test spells the doctype
    "Porforma".  The internal customer of [intercompany_db] is therefore
    accepted for company C on a Proforma, while the same call for a Sales
    Order is refused.  The reference party is the counterpart's supplier,
    as for the other sales documents. *)
Theorem proforma_party_validated_as_supplier :
  party_roles "Proforma" = ("Supplier", "Customer", "is_internal_supplier", "Proforma")
  /\ party_roles "Sales Order"
     = ("Customer", "Supplier", "is_internal_customer", "Purchase Order")
  /\ validate_inter_company_party intercompany_db "Proforma"
       (Some "ACME Internal") "Company C" None = Ok tt
  /\ validate_inter_company_party intercompany_db "Sales Order"
       (Some "ACME Internal") "Company C" None
     = Err (ValidationError
              "Customer not allowed to transact with Company C. Please change the Company.")
  /\ (forall doc, ref_party_of "Proforma" doc = d_supplier doc).
Proof.
  repeat split; reflexivity.
Qed.

End GeneralFunctionsProps.

(** ** Stock reservation: the quantity functions *)

Section QuantityProps.
Import StockReservation Samples.

(** C2. [get_unreserved_qty] is the stock quantity, minus the delivered
    quantity times the conversion factor (1 when the item has none), minus
    the quantity recorded under the row's name (0 when there is none). *)
Theorem get_unreserved_qty_formula (item : SoItem) (reserved_qty_details : gmap string Q) :
  get_unreserved_qty item reserved_qty_details
  = (stock_qty item
     - flt (delivered_qty item) * default 1%Q (conversion_factor item)
     - default 0%Q (reserved_qty_details !! name item))%Q.
Proof.
  unfold get_unreserved_qty, dict_get.
  destruct (reserved_qty_details !! name item), (conversion_factor item); reflexivity.
Qed.

(** C5. [validate_stock_reservation_settings] raises a validation error
    exactly when the setting is falsy or the voucher is not a Proforma, and
    returns normally in every other case. *)
Theorem validate_stock_reservation_settings_iff (enable : option Z) (doctype : string) :
  ((exists msg, validate_stock_reservation_settings enable doctype
                = Err (ValidationError msg))
   <-> (truthy_Z enable = false \/ doctype <> "Proforma"))
  /\ (validate_stock_reservation_settings enable doctype = Ok tt
      <-> (truthy_Z enable = true /\ doctype = "Proforma")).
Proof.
  unfold validate_stock_reservation_settings, str_in. simpl.
  destruct (truthy_Z enable); simpl.
  - rewrite orb_false_r. destruct (String.eqb_spec doctype "Proforma") as [Heq | Hne]; simpl.
    + split; split.
      * intros [e He]. discriminate.
      * intros [H | H]; [discriminate | contradiction].
      * intros _. split; [reflexivity | exact Heq].
      * reflexivity.
    + split; split.
      * intros _. right. exact Hne.
      * intros _. eexists. reflexivity.
      * discriminate.
      * intros [_ H]. contradiction.
  - split; split.
    + intros _. left. reflexivity.
    + intros _. eexists. reflexivity.
    + discriminate.
    + intros [H _]. discriminate.
Qed.

Lemma sre_counts_counted (item_code warehouse : string) (ignore_sre : option string)
    (e : Sre) :
  sre_counts item_code warehouse ignore_sre e = true
  <-> counted item_code warehouse ignore_sre e.
Proof.
  unfold sre_counts, counted, str_in. simpl.
  rewrite !andb_true_iff, Z.eqb_eq, !String.eqb_eq, negb_true_iff, orb_false_r,
    orb_false_iff, <- Qle_bool_iff.
  assert (Hs : forall a b : string, String.eqb a b = false <-> a <> b).
  { intros a b. destruct (String.eqb_spec a b); split; congruence. }
  rewrite !Hs.
  assert (Hi : (if truthy_str ignore_sre
                then negb (String.eqb (sre_name e) (default "" ignore_sre))
                else true) = true
               <-> (forall n, ignore_sre = Some n -> n <> "" -> sre_name e <> n)).
  { destruct ignore_sre as [n|]; simpl.
    - destruct (String.eqb_spec n "") as [-> | Hn]; simpl.
      + split; [intros _ m [= <-] Hm; congruence | reflexivity].
      + rewrite negb_true_iff, Hs. split.
        * intros H m [= <-] _. exact H.
        * intros H. apply (H n); [reflexivity | exact Hn].
    - split; [intros _ m Hm; discriminate | reflexivity]. }
  rewrite Hi. tauto.
Qed.

(** C4. Without a batch number [get_available_qty_to_reserve] is the stock
    balance minus the sum of reserved minus delivered quantities over the
    counted entries; when the balance or that sum is zero it is the balance
    itself. *)
Theorem get_available_qty_to_reserve_formula (h : Host) (sres : list Sre)
    (item_code warehouse : string) (batch_no ignore_sre : option string) :
  truthy_str batch_no = false ->
  let balance := get_stock_balance h item_code warehouse in
  let reserved :=
    Qsum ((fun e => sre_reserved_qty e - sre_delivered_qty e)%Q
          <$> List.filter (sre_counts item_code warehouse ignore_sre) sres) in
  let result :=
    get_available_qty_to_reserve h sres item_code warehouse batch_no ignore_sre in
  (forall e, In e (List.filter (sre_counts item_code warehouse ignore_sre) sres)
             <-> In e sres /\ counted item_code warehouse ignore_sre e)
  /\ ((balance == 0)%Q \/ (reserved == 0)%Q -> result = balance)
  /\ (~ (balance == 0)%Q -> ~ (reserved == 0)%Q -> result = (balance - reserved)%Q)
  /\ (~ (balance == 0)%Q -> (result == balance - reserved)%Q).
Proof.
  intros Hb balance reserved result.
  split; [|split; [|split]].
  - intros e. rewrite filter_In, sre_counts_counted. reflexivity.
  - intros Hz. subst result. unfold get_available_qty_to_reserve. rewrite Hb.
    fold balance. destruct (truthy_Q balance) eqn:Eb; [|reflexivity].
    fold reserved. destruct (truthy_Q reserved) eqn:Er; [|reflexivity].
    apply truthy_Q_true in Eb, Er. tauto.
  - intros Hnb Hnr. subst result. unfold get_available_qty_to_reserve. rewrite Hb.
    fold balance. apply truthy_Q_true in Hnb. rewrite Hnb.
    fold reserved. apply truthy_Q_true in Hnr. rewrite Hnr. reflexivity.
  - intros Hnb. subst result. unfold get_available_qty_to_reserve. rewrite Hb.
    fold balance. apply truthy_Q_true in Hnb. rewrite Hnb.
    fold reserved. destruct (truthy_Q reserved) eqn:Er; [reflexivity|].
    apply truthy_Q_false in Er. rewrite Er. ring.
Qed.

Example unreserved_of_second_row :
  get_unreserved_qty
    (mkSoItem "row-2" 2 "ITEM-A" "WH-1" 6 (Some 2%Q) None (Some 1%Z) None None
       "Nos" "Nos" None None None)
    {[ "row-2" := 3%Q ]}
  = (6 - 2 * 1 - 3)%Q.
Proof. reflexivity. Qed.

Example settings_disabled :
  validate_stock_reservation_settings (Some 0%Z) "Proforma"
  = Err (ValidationError "Please enable Stock Reservation in the Stock Settings.").
Proof. reflexivity. Qed.

Example settings_other_voucher :
  validate_stock_reservation_settings (Some 1%Z) "Sales Order"
  = Err (ValidationError "Stock Reservation can only be created against Proforma.").
Proof. reflexivity. Qed.

Lemma get_available_qty_to_reserve_formula_witness :
  get_available_qty_to_reserve reservation_host earlier_sres "ITEM-A" "WH-1" None None
  = (10 - (4 - 1 + 0))%Q.
Proof.
  destruct (get_available_qty_to_reserve_formula reservation_host earlier_sres
              "ITEM-A" "WH-1" None None eq_refl) as (_ & _ & H & _).
  apply H; vm_compute; discriminate.
Defined.

End QuantityProps.

Section MappingProps.
Import MakeProforma MakePurchaseOrder Samples.

Lemma update_item_qty (ordered_items : gmap string Q) (obj : QuotationItem)
    (target : ProformaItem) :
  let balance := (MakeProforma.qty obj
                  - default 0%Q (ordered_items !! MakeProforma.item_code obj))%Q in
  let t := MakeProforma.update_item ordered_items obj target in
  (0 <= t_qty t)%Q
  /\ ((0 < balance)%Q -> t_qty t = balance)
  /\ (~ (0 < balance)%Q -> t_qty t = 0%Q)
  /\ t_stock_qty t = (t_qty t * flt (MakeProforma.conversion_factor obj))%Q.
Proof.
  intros balance t.
  assert (Hb : (MakeProforma.qty obj
                - dict_get ordered_items (MakeProforma.item_code obj) 0)%Q = balance).
  { unfold balance, dict_get.
    destruct (ordered_items !! MakeProforma.item_code obj); reflexivity. }
  subst t. unfold MakeProforma.update_item. cbn [t_qty t_stock_qty flt].
  rewrite Hb. destruct (Qltb 0 balance) eqn:E.
  - apply Qltb_lt in E. repeat split.
    + apply Qlt_le_weak, E.
    + intros H. contradiction.
  - apply Qltb_ge in E. repeat split.
    + apply Qle_refl.
    + intros H. exfalso. exact (Qlt_not_le _ _ H E).
Qed.

(** C8. Every Proforma Item the mapper produces from a quotation comes
    from a quotation row that passed [can_map_row]; its quantity is the
    row's quantity minus what was ordered before for the item code when
    that is positive and 0 otherwise, so it is never negative, and its
    stock quantity is that quantity times the row's conversion factor. *)
Theorem mapped_qty_nonnegative (ordered_items : gmap string Q)
    (selected_rows : list string) (rows : list QuotationItem) (t : ProformaItem) :
  In t (map_quotation_items ordered_items selected_rows rows) ->
  exists obj,
    In obj rows /\ can_map_row selected_rows obj = true
    /\ t_quotation_item t = MakeProforma.name obj
    /\ (0 <= t_qty t)%Q
    /\ ((0 < MakeProforma.qty obj
            - default 0%Q (ordered_items !! MakeProforma.item_code obj))%Q
        -> t_qty t = (MakeProforma.qty obj
                      - default 0%Q (ordered_items !! MakeProforma.item_code obj))%Q)
    /\ (~ (0 < MakeProforma.qty obj
              - default 0%Q (ordered_items !! MakeProforma.item_code obj))%Q
        -> t_qty t = 0%Q)
    /\ t_stock_qty t = (t_qty t * flt (MakeProforma.conversion_factor obj))%Q.
Proof.
  unfold map_quotation_items. intros Hin.
  apply in_map_iff in Hin. destruct Hin as [obj [Ht Hobj]].
  apply filter_In in Hobj. destruct Hobj as [Hrow Hcan].
  exists obj. subst t.
  destruct (update_item_qty ordered_items obj (map_child_doc obj)) as (H0 & Hp & Hn & Hs).
  repeat split; try assumption.
Qed.

Lemma mapped_qty_nonnegative_witness :
  exists obj,
    In obj quotation_rows /\ can_map_row [] obj = true
    /\ "q-row-2" = MakeProforma.name obj
    /\ (0 <= 0)%Q
    /\ ((0 < MakeProforma.qty obj
            - default 0%Q (ordered_before !! MakeProforma.item_code obj))%Q
        -> 0%Q = (MakeProforma.qty obj
                  - default 0%Q (ordered_before !! MakeProforma.item_code obj))%Q)
    /\ (~ (0 < MakeProforma.qty obj
              - default 0%Q (ordered_before !! MakeProforma.item_code obj))%Q
        -> 0%Q = 0%Q)
    /\ (0 * 1)%Q = (0 * flt (MakeProforma.conversion_factor obj))%Q.
Proof.
  apply (mapped_qty_nonnegative ordered_before [] quotation_rows
           (mkProformaItem "ITEM-B" "QTN-0001" "q-row-2" 0 (0 * 1) (Some 1%Q)
              None None None)).
  vm_compute. right. left. reflexivity.
Defined.

(** C10. With [selected_items] missing or empty, both purchase-order
    functions return [None]: no exception, no document inserted, no
    commit. *)
Theorem no_selection_no_purchase_order (h : MakePurchaseOrder.Host) (source_name : string)
    (selected_items : Selected) :
  selected_items = SelNone \/ selected_items = SelList [] \/ selected_items = SelStr "" ->
  make_purchase_order h source_name selected_items = ([], Ok None)
  /\ make_purchase_order_for_default_supplier h source_name selected_items = ([], Ok None).
Proof.
  intros [-> | [-> | ->]]; split; reflexivity.
Qed.

Lemma no_selection_no_purchase_order_witness :
  make_purchase_order purchase_host "PF-0001" (SelList []) = ([], Ok None)
  /\ make_purchase_order_for_default_supplier purchase_host "PF-0001" (SelList [])
     = ([], Ok None).
Proof.
  apply (no_selection_no_purchase_order purchase_host "PF-0001" (SelList [])).
  right. left. reflexivity.
Defined.

End MappingProps.

(** ** Stock reservation: the entries a run creates *)

Section ReservationProps.
Import StockReservation Samples.

Ltac inv_ok H := inversion H; subst; clear H.

Lemma created_of_app (a b : list event) :
  created_of (a ++ b) = created_of a ++ created_of b.
Proof. unfold created_of. apply omap_app. Qed.

Ltac decide_qty_done H :=
  inv_ok H; split;
  [ try rewrite created_of_app; try (destruct (Qeq_bool _ _)); reflexivity
  | intros q Hq; try discriminate; inversion Hq; reflexivity ].

Lemma decide_qty_result (h : Host) (from_voucher_type : option string) (item : SoItem)
    (unreserved_qty available_qty_to_reserve : Q) (evs : list event) (d : option Q) :
  decide_qty h from_voucher_type item unreserved_qty available_qty_to_reserve = Ok (evs, d) ->
  created_of evs = []
  /\ (forall q, d = Some q ->
        q = match qty_to_reserve item with
            | Some r => pymin (pymin unreserved_qty available_qty_to_reserve) r
            | None => pymin unreserved_qty available_qty_to_reserve
            end).
Proof.
  unfold decide_qty. intros H.
  destruct (qty_to_reserve item) as [r|] eqn:Er; cbn [flt] in H.
  - destruct (Qleb r 0); [inv_ok H; split; [reflexivity | discriminate]|].
    destruct (Qltb _ unreserved_qty); [|decide_qty_done H].
    destruct (falsy_str from_voucher_type && _); cbn [bind] in H.
    + destruct (conversion_factor item) as [c|]; [|discriminate].
      destruct (truthy_Q c); [|discriminate]. cbn [bind] in H.
      destruct (negb (truthy_Z (allow_partial_reservation h))); decide_qty_done H.
    + destruct (negb (truthy_Z (allow_partial_reservation h))); decide_qty_done H.
  - destruct (Qltb _ unreserved_qty); [|decide_qty_done H].
    destruct (falsy_str from_voucher_type && _); cbn [bind] in H.
    + destruct (conversion_factor item) as [c|]; [|discriminate].
      destruct (truthy_Q c); [|discriminate]. cbn [bind] in H.
      destruct (negb (truthy_Z (allow_partial_reservation h))); decide_qty_done H.
    + destruct (negb (truthy_Z (allow_partial_reservation h))); decide_qty_done H.
Qed.

Lemma reserve_item_outcome (h : Host) (proforma : ProformaDoc)
    (from_voucher_type : option string) (details : gmap string Q) (st : list Sre)
    (item : SoItem) (o : step_outcome) :
  reserve_item h proforma from_voucher_type details st item = Ok o ->
  match o with
  | Continue evs => created_of evs = []
  | Reserve evs e => created_of evs = [] /\ entry_built_for h details st item e
  end.
Proof.
  unfold reserve_item. intros H.
  destruct (negb (truthy_Z (reserve_stock item))); [inv_ok H; reflexivity|].
  destruct (negb (opt_str_eqb from_voucher_type "Pick List") && _); [discriminate|].
  destruct (item_flags h (item_code item)) as [[is_stock_item has_serial_no] has_batch_no].
  destruct (negb is_stock_item).
  { inv_ok H. rewrite created_of_app. destruct (falsy_str from_voucher_type); reflexivity. }
  destruct (truthy_Z (warehouse_is_group h (warehouse item))); [inv_ok H; reflexivity|].
  destruct (Qleb (get_unreserved_qty item details) 0).
  { inv_ok H. destruct (falsy_str from_voucher_type); reflexivity. }
  destruct (Qleb (get_available_qty_to_reserve h st _ _ None None) 0);
    [inv_ok H; reflexivity|].
  destruct (decide_qty h from_voucher_type item _ _) as [[evs d]|err] eqn:Ed;
    [|discriminate].
  apply decide_qty_result in Ed. destruct Ed as [Hevs Hd]. cbn [bind] in H.
  destruct d as [q|]; [|inv_ok H; exact Hevs].
  specialize (Hd q eq_refl).
  destruct (truthy_str (serial_and_batch_bundle item)).
  - destruct (get_serial_and_batch_bundle h _) as [entries|]; [|discriminate].
    inv_ok H. split; [exact Hevs|]. unfold entry_built_for. cbn. repeat split.
  - inv_ok H. split; [exact Hevs|]. unfold entry_built_for. cbn. repeat split.
Qed.

Lemma reserve_loop_created (h : Host) (proforma : ProformaDoc)
    (from_voucher_type : option string) (details : gmap string Q) (items : list SoItem) :
  forall (st : list Sre) (evs : list event) (st' : list Sre) (n : Z),
    reserve_loop h proforma from_voucher_type details items st = Ok (evs, st', n) ->
    st' = table_after h (created_of evs) st
    /\ forall c1 e c2, created_of evs = c1 ++ e :: c2 ->
         exists item, In item items
                      /\ entry_built_for h details (table_after h c1 st) item e.
Proof.
  induction items as [|item rest IH]; intros st evs st' n H; cbn [reserve_loop] in H.
  - inv_ok H. split; [reflexivity|]. intros c1 e c2 Hc. destruct c1; discriminate.
  - destruct (reserve_item h proforma from_voucher_type details st item) as [o|err] eqn:Eo;
      [|discriminate].
    apply reserve_item_outcome in Eo. cbn [bind] in H. destruct o as [evs0 | evs0 e0].
    + destruct (reserve_loop h proforma from_voucher_type details rest st)
        as [[[evs1 st1] n1]|err] eqn:El; [|discriminate].
      cbn [bind] in H. inv_ok H. destruct (IH _ _ _ _ El) as [Hst Hall].
      rewrite created_of_app, Eo. cbn [app]. split; [exact Hst|].
      intros c1 e c2 Hc. destruct (Hall c1 e c2 Hc) as [it [Hin Hb]].
      exists it. split; [right; exact Hin | exact Hb].
    + destruct Eo as [Eo Hbuilt].
      destruct (reserve_loop h proforma from_voucher_type details rest
                  (save_and_submit h e0 st)) as [[[evs1 st1] n1]|err] eqn:El; [|discriminate].
      cbn [bind] in H. inv_ok H. destruct (IH _ _ _ _ El) as [Hst Hall].
      rewrite created_of_app, Eo. cbn [app created_of omap]. fold (created_of evs1).
      split; [exact Hst|].
      intros c1 e c2 Hc. destruct c1 as [|e1 c1]; cbn [app] in Hc.
      * inversion Hc; subst. exists item. split; [left; reflexivity | exact Hbuilt].
      * inversion Hc; subst. destruct (Hall c1 e c2 H1) as [it [Hin Hb]].
        exists it. split; [right; exact Hin | exact Hb].
Qed.

(** C1. Every Stock Reservation Entry a run creates belongs to one of the
    rows the loop went over; its reserved quantity is the minimum of the
    row's unreserved quantity and of the quantity available to reserve when
    the row was reached (the entries created earlier in the run are already
    in the table), capped by the row's [qty_to_reserve] when the row has
    that attribute.  It is therefore at most the unreserved quantity and at
    most the available quantity. *)
Theorem reserved_qty_is_capped_minimum (h : Host) (sres : list Sre)
    (proforma : ProformaDoc) (items_details : option (list ItemDetail))
    (from_voucher_type : option string) (notify : bool)
    (evs : list event) (sres' : list Sre) (evs1 : list event) (e : Sre)
    (evs2 : list event) :
  create_stock_reservation_entries_for_so_items h sres proforma items_details
    from_voucher_type notify = Ok (evs, sres') ->
  evs = evs1 ++ Created e :: evs2 ->
  exists items item,
    rows_of_run h proforma items_details from_voucher_type = Ok items
    /\ In item items
    /\ sre_voucher_detail_no e = name item
    /\ let unreserved_qty :=
         get_unreserved_qty item
           (get_sre_reserved_qty_details_for_voucher h sres "Proforma" (pf_name proforma)) in
       let available_qty_to_reserve :=
         get_available_qty_to_reserve h (table_after h (created_of evs1) sres)
           (item_code item) (warehouse item) None None in
       sre_available_qty e = available_qty_to_reserve
       /\ (sre_reserved_qty e
           == match qty_to_reserve item with
              | Some r => Qmin (Qmin unreserved_qty available_qty_to_reserve) r
              | None => Qmin unreserved_qty available_qty_to_reserve
              end)%Q
       /\ (sre_reserved_qty e <= unreserved_qty)%Q
       /\ (sre_reserved_qty e <= available_qty_to_reserve)%Q.
Proof.
  unfold create_stock_reservation_entries_for_so_items. intros H Hsplit.
  destruct (falsy_str from_voucher_type && _).
  { inv_ok H. destruct evs1 as [|ev evs1]; [discriminate|].
    destruct evs1; discriminate. }
  destruct (validate_stock_reservation_settings _ _) as [[]|err]; [|discriminate].
  cbn [bind] in H. unfold rows_of_run.
  set (first_stage := if items_details_truthy items_details
                      then prepare_items h from_voucher_type (default [] items_details)
                      else Ok []) in H.
  destruct first_stage as [prepared|err] eqn:Ep; [|discriminate].
  subst first_stage. cbn [bind] in H.
  set (rows := if items_details_truthy items_details then prepared
               else pf_items proforma) in H.
  assert (Hrows : (if items_details_truthy items_details
                   then prepare_items h from_voucher_type (default [] items_details)
                   else Ok (pf_items proforma)) = Ok rows).
  { subst rows. destruct (items_details_truthy items_details); [exact Ep | reflexivity]. }
  destruct (reserve_loop h proforma from_voucher_type _ rows sres)
    as [[[evs0 st0] n0]|err] eqn:El; [|discriminate].
  cbn [bind] in H. inv_ok H.
  apply reserve_loop_created in El. destruct El as [_ Hall].
  assert (Hc : created_of evs0 = created_of evs1 ++ e :: created_of evs2).
  { assert (Hx : created_of (evs0 ++ (if negb (n0 =? 0)%Z && notify
                                      then [Msg EntriesCreated] else []))
                 = created_of (evs1 ++ Created e :: evs2)) by (rewrite H1; reflexivity).
    rewrite !created_of_app in Hx.
    change (created_of (Created e :: evs2)) with (e :: created_of evs2) in Hx.
    rewrite <- Hx. destruct (negb (n0 =? 0)%Z && notify); cbn; rewrite app_nil_r; reflexivity. }
  destruct (Hall _ _ _ Hc) as [item [Hin Hb]].
  exists rows, item. split; [exact Hrows|]. split; [exact Hin|].
  destruct Hb as (Hname & _ & _ & _ & Havail & Hres).
  split; [exact Hname|]. cbn zeta. split; [exact Havail|].
  rewrite Hres. destruct (qty_to_reserve item) as [r|].
  - split; [|split].
    + rewrite pymin_Qmin. apply Q.min_compat; [apply pymin_Qmin | reflexivity].
    + eapply Qle_trans; [apply pymin_le_l | apply pymin_le_l].
    + eapply Qle_trans; [apply pymin_le_l | apply pymin_le_r].
  - split; [apply pymin_Qmin|]. split; [apply pymin_le_l | apply pymin_le_r].
Qed.

Lemma reserved_qty_is_capped_minimum_witness :
  exists items item,
    rows_of_run reservation_host reservation_proforma None None = Ok items
    /\ In item items
    /\ sre_voucher_detail_no second_entry = name item
    /\ let unreserved_qty :=
         get_unreserved_qty item
           (get_sre_reserved_qty_details_for_voucher reservation_host earlier_sres
              "Proforma" (pf_name reservation_proforma)) in
       let available_qty_to_reserve :=
         get_available_qty_to_reserve reservation_host
           (table_after reservation_host
              (created_of [Created first_entry; Msg (OnlyAvailable 2 2 "Nos" "ITEM-A")])
              earlier_sres)
           (item_code item) (warehouse item) None None in
       sre_available_qty second_entry = available_qty_to_reserve
       /\ (sre_reserved_qty second_entry
           == match qty_to_reserve item with
              | Some r => Qmin (Qmin unreserved_qty available_qty_to_reserve) r
              | None => Qmin unreserved_qty available_qty_to_reserve
              end)%Q
       /\ (sre_reserved_qty second_entry <= unreserved_qty)%Q
       /\ (sre_reserved_qty second_entry <= available_qty_to_reserve)%Q.
Proof.
  apply (reserved_qty_is_capped_minimum reservation_host earlier_sres reservation_proforma
           None None true
           ([Created first_entry; Msg (OnlyAvailable 2 2 "Nos" "ITEM-A")]
            ++ Created second_entry :: [Msg EntriesCreated])
           (earlier_sres ++ [stored_sre "SRE-row-1" first_entry;
                             stored_sre "SRE-row-2" second_entry])
           [Created first_entry; Msg (OnlyAvailable 2 2 "Nos" "ITEM-A")]
           second_entry [Msg EntriesCreated]).
  - vm_compute. reflexivity.
  - reflexivity.
Defined.

End ReservationProps.

(** ** Closing and re-opening *)

Section CloseProps.
Import CloseOrUnclose Samples.

Lemma update_status_store (h : Host) (so : ProformaDoc) (arg : string)
    (o : option ProformaDoc) (calls : list call) (e : option error) :
  update_status h so arg = (o, calls, e) ->
  (o = None \/ o = Some (with_status so (set_status h so arg)))
  /\ (forall so' arg', In (UpdateStatus so' arg') calls -> so' = so /\ arg' = arg).
Proof.
  unfold update_status. intros H.
  destruct (modified_since_load h so).
  - inversion H; subst. split; [left; reflexivity|].
    intros so' arg' [Hin | []]. inversion Hin. split; reflexivity.
  - destruct (if String.eqb arg "Draft" && _ then _ else _); inversion H; subst.
    + split; [right; reflexivity|].
      intros so' arg' [Hin | [Hin | []]]; [|discriminate]. inversion Hin. split; reflexivity.
    + split; [right; reflexivity|].
      intros so' arg' [Hin | []]. inversion Hin. split; reflexivity.
Qed.

Lemma visit_effect (h : Host) (requested : string) (cur : gmap string ProformaDoc)
    (n : string) (cur' : gmap string ProformaDoc) (calls : list call) (e : option error) :
  visit h requested cur n = (cur', calls, e) ->
  (cur' = cur
   \/ exists so, cur !! n = Some so /\ update_allowed requested so
                 /\ cur' = <[n := with_status so
                                    (set_status h so (status_argument requested))]> cur)
  /\ (forall so arg, In (UpdateStatus so arg) calls ->
        update_allowed requested so /\ arg = status_argument requested).
Proof.
  unfold visit. intros H.
  destruct (cur !! n) as [so|] eqn:En.
  2:{ inversion H; subst. split; [left; reflexivity | intros so arg []]. }
  destruct (Z.eqb_spec (docstatus so) 1) as [Hds | Hds].
  2:{ inversion H; subst. split; [left; reflexivity | intros so' arg []]. }
  assert (Hnone : forall calls0,
             (forall so' arg', In (UpdateStatus so' arg') calls0 -> False) ->
             forall so' arg', In (UpdateStatus so' arg')
                                (calls0 ++ [UpdateBlanketOrder (name so)]) -> False).
  { intros calls0 H0 so' arg' Hin. apply in_app_or in Hin.
    destruct Hin as [Hin | [Hin | []]]; [exact (H0 _ _ Hin) | discriminate]. }
  unfold status_argument.
  destruct (String.eqb_spec requested "Closed") as [Hreq | Hreq].
  - destruct (negb (str_in (status so) ["Cancelled"; "Closed"])
              && (Qltb (per_delivered so) 100 || Qltb (per_billed so) 100)) eqn:Eg.
    + assert (Hallow : update_allowed requested so).
      { apply andb_true_iff in Eg. destruct Eg as [Hs Hq].
        apply negb_true_iff in Hs. apply orb_true_iff in Hq.
        split; [exact Hds|]. split; [|congruence]. intros _.
        split; [|split].
        * intros Hc. rewrite Hc in Hs. discriminate.
        * intros Hc. rewrite Hc in Hs. discriminate.
        * destruct Hq as [Hq | Hq]; apply Qltb_lt in Hq; [left | right]; exact Hq. }
      destruct (update_status h so requested) as [[o calls0] e0] eqn:Eu.
      apply update_status_store in Eu. destruct Eu as [Ho Hcalls].
      assert (Hc : forall so' arg', In (UpdateStatus so' arg') calls ->
                                    update_allowed requested so' /\ arg' = "Closed").
      { intros so' arg' Hin. destruct e0; inversion H; subst calls.
        - destruct (Hcalls _ _ Hin) as [-> ->]. split; [exact Hallow | exact Hreq].
        - apply in_app_or in Hin. destruct Hin as [Hin | [Hin | []]]; [|discriminate].
          destruct (Hcalls _ _ Hin) as [-> ->]. split; [exact Hallow | exact Hreq]. }
      split; [|exact Hc].
      assert (Hst : cur' = store_doc cur n o) by (destruct e0; inversion H; reflexivity).
      destruct Ho as [-> | ->]; [left; exact Hst|].
      right. exists so. split; [reflexivity|]. split; [exact Hallow|].
      rewrite Hst. cbn [store_doc]. rewrite Hreq. reflexivity.
    + inversion H; subst. split; [left; reflexivity|].
      intros so' arg' Hin. exfalso. apply (Hnone [] (fun _ _ x => x) so' arg' Hin).
  - destruct (String.eqb_spec (status so) "Closed") as [Hs | Hs].
    + assert (Hallow : update_allowed requested so).
      { split; [exact Hds|]. split; [contradiction | intros _; exact Hs]. }
      destruct (update_status h so "Draft") as [[o calls0] e0] eqn:Eu.
      apply update_status_store in Eu. destruct Eu as [Ho Hcalls].
      assert (Hc : forall so' arg', In (UpdateStatus so' arg') calls ->
                                    update_allowed requested so' /\ arg' = "Draft").
      { intros so' arg' Hin. destruct e0; inversion H; subst calls.
        - destruct (Hcalls _ _ Hin) as [-> ->]. split; [exact Hallow | reflexivity].
        - apply in_app_or in Hin. destruct Hin as [Hin | [Hin | []]]; [|discriminate].
          destruct (Hcalls _ _ Hin) as [-> ->]. split; [exact Hallow | reflexivity]. }
      split; [|exact Hc].
      assert (Hst : cur' = store_doc cur n o) by (destruct e0; inversion H; reflexivity).
      destruct Ho as [-> | ->]; [left; exact Hst|].
      right. exists so. split; [reflexivity|]. split; [exact Hallow|].
      rewrite Hst. reflexivity.
    + inversion H; subst. split; [left; reflexivity|].
      intros so' arg' Hin. exfalso. apply (Hnone [] (fun _ _ x => x) so' arg' Hin).
Qed.

Lemma visit_keeps_invariant (h : Host) (requested : string)
    (db cur : gmap string ProformaDoc) (n : string) (cur' : gmap string ProformaDoc)
    (calls : list call) (e : option error) :
  changed_as_allowed h requested db cur ->
  visit h requested cur n = (cur', calls, e) ->
  changed_as_allowed h requested db cur'.
Proof.
  intros Hinv Hv. apply visit_effect in Hv. destruct Hv as [[-> | Hupd] _]; [exact Hinv|].
  destruct Hupd as (so & Hso & Hallow & ->). intros m.
  destruct (decide (n = m)) as [<- | Hne].
  - right. destruct (Hinv n) as [Hsame | (d & s & Hd & Hcur & Hd_allow & Hs)].
    + exists so, (set_status h so (status_argument requested)).
      rewrite <- Hsame, Hso, lookup_insert_eq.
      split; [reflexivity|]. split; [reflexivity|]. split; [exact Hallow|].
      intros Hset. apply Hset.
    + exists d, (set_status h so (status_argument requested)).
      rewrite Hso in Hcur. injection Hcur as ->.
      rewrite lookup_insert_eq. split; [exact Hd|]. split; [reflexivity|].
      split; [exact Hd_allow|]. intros Hset. apply Hset.
  - rewrite lookup_insert_ne by exact Hne. apply Hinv.
Qed.

Lemma visit_all_invariant (h : Host) (requested : string) (db : gmap string ProformaDoc)
    (names : list string) :
  forall (cur cur' : gmap string ProformaDoc) (calls : list call) (e : option error),
    changed_as_allowed h requested db cur ->
    visit_all h requested cur names = (cur', calls, e) ->
    changed_as_allowed h requested db cur'
    /\ (forall so arg, In (UpdateStatus so arg) calls ->
          update_allowed requested so /\ arg = status_argument requested).
Proof.
  induction names as [|n rest IH]; intros cur cur' calls e Hinv H; cbn [visit_all] in H.
  - inversion H; subst. split; [exact Hinv | intros so arg []].
  - destruct (visit h requested cur n) as [[cur1 calls1] e1] eqn:Ev.
    pose proof (visit_keeps_invariant _ _ _ _ _ _ _ _ Hinv Ev) as Hinv1.
    apply visit_effect in Ev. destruct Ev as [_ Hcalls1].
    destruct e1 as [err|].
    + inversion H; subst. split; [exact Hinv1 | exact Hcalls1].
    + destruct (visit_all h requested cur1 rest) as [[cur2 calls2] e2] eqn:Er.
      inversion H; subst. destruct (IH _ _ _ _ Hinv1 Er) as [Hinv2 Hcalls2].
      split; [exact Hinv2|]. intros so arg Hin. apply in_app_or in Hin.
      destruct Hin as [Hin | Hin]; [apply Hcalls1 | apply Hcalls2]; exact Hin.
Qed.

(** C7. [close_or_unclose_proforma] refuses a caller without write
    permission before it reads or writes any document.  Otherwise
    [update_status] is only called on documents with docstatus 1: for the
    requested status "Closed", with "Closed", on documents that are neither
    cancelled nor closed and are not both fully delivered and fully billed;
    for any other requested status, with "Draft", on closed documents.
    Every row of the table is afterwards as it was, or differs in its
    status only and met these conditions when the call started; where the
    controller stores the status it is asked to set, that status is
    "Closed", respectively "Draft". *)
Theorem close_or_unclose_changes_only_allowed (h : Host) (db : gmap string ProformaDoc)
    (names requested : string) (db' : gmap string ProformaDoc) (calls : list call)
    (e : option error) :
  close_or_unclose_proforma h db names requested = (db', calls, e) ->
  (has_permission_write h = false ->
     db' = db /\ calls = [] /\ e = Some (PermissionError "Not permitted"))
  /\ (forall so arg, In (UpdateStatus so arg) calls ->
        docstatus so = 1%Z
        /\ (requested = "Closed" ->
            arg = "Closed" /\ status so <> "Cancelled" /\ status so <> "Closed"
            /\ ((per_delivered so < 100)%Q \/ (per_billed so < 100)%Q))
        /\ (requested <> "Closed" -> arg = "Draft" /\ status so = "Closed"))
  /\ (forall n,
        db' !! n = db !! n
        \/ exists d s,
             db !! n = Some d /\ db' !! n = Some (with_status d s)
             /\ docstatus d = 1%Z
             /\ (requested = "Closed" ->
                 status d <> "Cancelled" /\ status d <> "Closed"
                 /\ ((per_delivered d < 100)%Q \/ (per_billed d < 100)%Q))
             /\ (requested <> "Closed" -> status d = "Closed")
             /\ ((forall so r, set_status h so r = r) ->
                 s = if String.eqb requested "Closed" then "Closed" else "Draft")).
Proof.
  unfold close_or_unclose_proforma. intros H.
  destruct (has_permission_write h) eqn:Eperm; cbn [negb] in H.
  2:{ inversion H; subst. split; [intros _; repeat split|]. split.
      - intros so arg [].
      - intros n. left. reflexivity. }
  split; [discriminate|].
  assert (Hstart : changed_as_allowed h requested db db) by (intros n; left; reflexivity).
  destruct (json_loads h names) as [parsed|err].
  2:{ inversion H; subst. split; [intros so arg [] | intros n; left; reflexivity]. }
  destruct (visit_all h requested db parsed) as [[db1 calls1] e1] eqn:Ev.
  destruct (visit_all_invariant _ _ _ _ _ _ _ _ Hstart Ev) as [Hinv Hcalls].
  assert (Hdb : db' = db1) by (destruct e1; inversion H; reflexivity).
  assert (Hin_calls : forall so arg, In (UpdateStatus so arg) calls ->
                                     In (UpdateStatus so arg) calls1).
  { intros so arg Hin. destruct e1; inversion H; subst calls; [exact Hin|].
    apply in_app_or in Hin. destruct Hin as [Hin | [Hin | []]]; [exact Hin | discriminate]. }
  subst db'. split.
  - intros so arg Hin. destruct (Hcalls _ _ (Hin_calls _ _ Hin)) as [(Hds & Hc & Ho) Harg].
    unfold status_argument in Harg. split; [exact Hds|]. split.
    + intros Hreq. split; [|apply Hc, Hreq]. rewrite Harg, Hreq. reflexivity.
    + intros Hreq. split; [|apply Ho, Hreq]. rewrite Harg.
      destruct (String.eqb_spec requested "Closed"); [contradiction | reflexivity].
  - intros n. destruct (Hinv n) as [Hsame | (d & s & Hd & Hcur & (Hds & Hc & Ho) & Hs)].
    + left. exact Hsame.
    + right. exists d, s.
      split; [exact Hd|]. split; [exact Hcur|]. split; [exact Hds|].
      split; [exact Hc|]. split; [exact Ho | exact Hs].
Qed.

Lemma close_or_unclose_changes_only_allowed_witness :
  (forall so arg, In (UpdateStatus so arg) closing_run.1.2 ->
     docstatus so = 1%Z
     /\ ("Closed" = "Closed" ->
         arg = "Closed" /\ status so <> "Cancelled" /\ status so <> "Closed"
         /\ ((per_delivered so < 100)%Q \/ (per_billed so < 100)%Q))
     /\ ("Closed" <> "Closed" -> arg = "Draft" /\ status so = "Closed"))
  /\ (forall n,
        closing_run.1.1 !! n = proforma_table !! n
        \/ exists d s,
             proforma_table !! n = Some d /\ closing_run.1.1 !! n = Some (with_status d s)
             /\ docstatus d = 1%Z
             /\ ("Closed" = "Closed" ->
                 status d <> "Cancelled" /\ status d <> "Closed"
                 /\ ((per_delivered d < 100)%Q \/ (per_billed d < 100)%Q))
             /\ ("Closed" <> "Closed" -> status d = "Closed")
             /\ ((forall so r, set_status plain_host so r = r) -> s = "Closed")).
Proof.
  exact (proj2 (close_or_unclose_changes_only_allowed plain_host proforma_table
                  "[PF-0001, PF-0002, PF-0003, PF-0001]" "Closed"
                  closing_run.1.1 closing_run.1.2 closing_run.2 eq_refl)).
Defined.

Example close_without_permission :
  close_or_unclose_proforma guest_host proforma_table "[PF-0001]" "Closed"
  = (proforma_table, [], Some (PermissionError "Not permitted")).
Proof. reflexivity. Qed.

Example reopen_only_closed :
  (close_or_unclose_proforma plain_host closing_run.1.1
     "[PF-0001, PF-0002, PF-0003, PF-0001]" "Draft").1.1 !! "PF-0001"
  = Some (mkProformaDoc "PF-0001" 1 "Draft" 40 0).
Proof. reflexivity. Qed.

End CloseProps.

(** ** Delivery notes *)

Section DeliveryProps.
Import MakeDeliveryNote Samples.

Lemma Qabs__Qabs (x : Q) : (Qabs_ x == Qabs x)%Q.
Proof.
  unfold Qabs_. destruct (Qltb x 0) eqn:E.
  - apply Qltb_lt in E. symmetry. apply Qabs_neg. apply Qlt_le_weak, E.
  - apply Qltb_ge in E. symmetry. apply Qabs_pos. exact E.
Qed.

Lemma remaining_tests_iff (h : Host) (doc : SoRow) :
  remaining_tests h doc = true <-> passes_tests h doc.
Proof.
  unfold remaining_tests, passes_tests.
  destruct (delivery_dates_truthy (flags_delivery_dates h)); cbn [andb].
  - destruct (str_in (delivery_date doc) (default [] (flags_delivery_dates h))) eqn:Ein;
      cbn [negb].
    + apply str_in_In in Ein. rewrite andb_true_iff, Qltb_lt, negb_true_iff, Z.eqb_neq,
        !Qabs__Qabs. tauto.
    + split; [discriminate|]. intros [Hin _]. specialize (Hin eq_refl).
      apply str_in_In in Hin. congruence.
  - rewrite andb_true_iff, Qltb_lt, negb_true_iff, Z.eqb_neq, !Qabs__Qabs.
    split; [intros [H1 H2]; repeat split; [discriminate | exact H1 | exact H2] | tauto].
Qed.

Lemma condition_eq (h : Host) (d : gmap string Q) (doc : SoRow) :
  condition h d doc = (keep_row h d doc, delete (name doc) d).
Proof.
  unfold condition, keep_row, remaining_tests.
  destruct (d !! name doc) eqn:E; [reflexivity|].
  rewrite (delete_id _ _ E). destruct (_ && _); reflexivity.
Qed.

Lemma mapper_pass_fst (h : Host) (so : Proforma) (rows : list SoRow) :
  forall d : gmap string Q,
    NoDup (name <$> rows) ->
    (mapper_pass h so d rows).1
    = (fun row => update_item h row (map_child_doc so row) so)
        <$> List.filter (keep_row h d) rows.
Proof.
  induction rows as [|row rest IH]; intros d Hnd; [reflexivity|].
  cbn [mapper_pass]. rewrite condition_eq.
  apply NoDup_cons in Hnd. destruct Hnd as [Hfresh Hnd].
  specialize (IH (delete (name row) d) Hnd).
  destruct (mapper_pass h so (delete (name row) d) rest) as [mapped final].
  cbn [fst] in IH |- *.
  assert (Hext : List.filter (keep_row h (delete (name row) d)) rest
                 = List.filter (keep_row h d) rest).
  { apply filter_ext_in. intros r Hr. unfold keep_row.
    rewrite lookup_delete_ne; [reflexivity|].
    intros Heq. apply Hfresh. rewrite Heq. apply list_elem_of_fmap.
    exists r. split; [reflexivity | apply list_elem_of_In; exact Hr]. }
  rewrite Hext in IH. cbn [List.filter].
  destruct (keep_row h d row); cbn; rewrite IH; reflexivity.
Qed.

Lemma mapper_pass_snd (h : Host) (so : Proforma) (rows : list SoRow) :
  forall (d : gmap string Q) (n : string),
    d !! n = None \/ In n (name <$> rows) ->
    (mapper_pass h so d rows).2 !! n = None.
Proof.
  induction rows as [|row rest IH]; intros d n Hn.
  - destruct Hn as [Hn | []]. exact Hn.
  - cbn [mapper_pass]. rewrite condition_eq.
    specialize (IH (delete (name row) d) n).
    destruct (mapper_pass h so (delete (name row) d) rest) as [mapped final].
    cbn [snd] in IH |- *. apply IH.
    destruct Hn as [Hn | [Hn | Hn]].
    + left. apply lookup_delete_None. right. exact Hn.
    + left. apply lookup_delete_None. left. exact Hn.
    + right. exact Hn.
Qed.

Lemma so_items_by_name_lookup (so : Proforma) (n : string) (row : SoRow) :
  so_items_by_name so !! n = Some row -> In row (so_items so) /\ name row = n.
Proof.
  unfold so_items_by_name.
  assert (Hgen : forall rows (m : gmap string SoRow),
             fold_left (fun m d => if truthy_Q (stock_reserved_qty d)
                                   then <[name d := d]> m else m) rows m !! n = Some row ->
             m !! n = Some row \/ (In row rows /\ name row = n)).
  { induction rows as [|r rest IH]; intros m H; cbn [fold_left] in H; [left; exact H|].
    apply IH in H. destruct H as [H | [Hin Hn]]; [|right; split; [right|]; assumption].
    destruct (truthy_Q (stock_reserved_qty r)); [|left; exact H].
    apply lookup_insert_Some in H. destruct H as [[Hk Hv] | [_ H]]; [|left; exact H].
    right. subst. split; [left; reflexivity | reflexivity]. }
  intros H. apply Hgen in H. destruct H as [H | H]; [|exact H].
  rewrite lookup_empty in H. discriminate.
Qed.

Lemma same_name_same_row (rows : list SoRow) (r1 r2 : SoRow) :
  NoDup (name <$> rows) -> In r1 rows -> In r2 rows -> name r1 = name r2 -> r1 = r2.
Proof.
  induction rows as [|r rest IH]; intros Hnd H1 H2 Hn; [destruct H1|].
  cbn in Hnd. apply NoDup_cons in Hnd. destruct Hnd as [Hfresh Hnd].
  assert (Hmem : forall x, In x rest -> name x ∈ name <$> rest).
  { intros x Hx. apply list_elem_of_fmap. exists x.
    split; [reflexivity | apply list_elem_of_In; exact Hx]. }
  destruct H1 as [<- | H1], H2 as [<- | H2].
  - reflexivity.
  - exfalso. apply Hfresh. rewrite Hn. apply Hmem, H2.
  - exfalso. apply Hfresh. rewrite <- Hn. apply Hmem, H1.
  - apply IH; assumption.
Qed.

Lemma reserved_pass_rows (h : Host) (so : Proforma) (by_name : gmap string SoRow)
    (rows : list SoRow) :
  NoDup (name <$> rows) ->
  (forall n row, by_name !! n = Some row -> In row rows /\ name row = n) ->
  forall (l : list SreDetail) (d : gmap string Q) (res : list DnItem),
    (forall row, In row rows -> d !! name row = None) ->
    reserved_pass h so by_name d l = Ok res ->
    forall t, In t res
              <-> exists sre row, In sre l /\ In row rows /\ name row = voucher_detail_no sre
                                  /\ remaining_tests h row = true
                                  /\ t = reserved_item h so sre row.
Proof.
  intros Hnd Hby. induction l as [|sre rest IH]; intros d res Hd H t; cbn [reserved_pass] in H.
  - inversion H; subst. split; [intros [] | intros (sre & row & [] & _)].
  - destruct (by_name !! voucher_detail_no sre) as [row|] eqn:Erow; [|discriminate].
    destruct (Hby _ _ Erow) as [Hrow Hname].
    rewrite condition_eq in H. unfold keep_row in H. rewrite (Hd row Hrow) in H.
    destruct (reserved_pass h so by_name (delete (name row) d) rest) as [more|err] eqn:Er;
      [|discriminate].
    cbn [bind] in H.
    assert (Hd' : forall r, In r rows -> delete (name row) d !! name r = None).
    { intros r Hr. apply lookup_delete_None. right. apply Hd, Hr. }
    specialize (IH _ _ Hd' Er).
    assert (Hhere : forall row', In row' rows -> name row' = voucher_detail_no sre ->
                                 row' = row).
    { intros row' Hr' Hn'. apply (same_name_same_row rows); try assumption. congruence. }
    destruct (remaining_tests h row) eqn:Et; inversion H; subst res.
    + split.
      * intros [<- | Hin].
        -- exists sre, row. repeat split; try assumption. left. reflexivity.
        -- apply IH in Hin. destruct Hin as (sre' & row' & Hs & Hr & Hn & Ht & Heq).
           exists sre', row'. repeat split; try assumption. right. exact Hs.
      * intros (sre' & row' & [<- | Hs] & Hr & Hn & Ht & Heq).
        -- left. rewrite (Hhere _ Hr Hn) in Heq. symmetry. exact Heq.
        -- right. apply IH. exists sre', row'. repeat split; assumption.
    + split.
      * intros Hin. apply IH in Hin. destruct Hin as (sre' & row' & Hs & Hr & Hn & Ht & Heq).
        exists sre', row'. repeat split; try assumption. right. exact Hs.
      * intros (sre' & row' & [<- | Hs] & Hr & Hn & Ht & Heq).
        -- rewrite (Hhere _ Hr Hn) in Ht. congruence.
        -- apply IH. exists sre', row'. repeat split; assumption.
Qed.

Lemma renumber_In (l : list DnItem) :
  forall (i : Z) (t : DnItem),
    In t (renumber i l) -> exists t0 j, In t0 l /\ t = set_idx j t0.
Proof.
  induction l as [|x rest IH]; intros i t; cbn [renumber]; [intros []|].
  intros [<- | Hin].
  - exists x, (i + 1)%Z. split; [left; reflexivity | reflexivity].
  - apply IH in Hin. destruct Hin as (t0 & j & Hin & ->).
    exists t0, j. split; [right; exact Hin | reflexivity].
Qed.

Lemma In_renumber (l : list DnItem) :
  forall (i : Z) (t0 : DnItem),
    In t0 l -> exists j, In (set_idx j t0) (renumber i l).
Proof.
  induction l as [|x rest IH]; intros i t0; cbn [renumber]; [intros []|].
  intros [<- | Hin].
  - exists (i + 1)%Z. left. reflexivity.
  - destruct (IH (i + 1)%Z t0 Hin) as [j Hj]. exists j. right. exact Hj.
Qed.

(** The rows [make_delivery_note] returns when items are mapped: the rows
    the mapper keeps, followed by one row per Stock Reservation Entry whose
    Proforma Item passes the tests, all renumbered. *)
Lemma make_delivery_note_rows (h : Host) (so : Proforma) (kwargs : Kwargs)
    (items : list DnItem) :
  NoDup (name <$> so_items so) ->
  skip_item_mapping kwargs = false ->
  make_delivery_note h so kwargs = Ok items ->
  exists reserved,
    items = renumber 0
              (((fun row => update_item h row (map_child_doc so row) so)
                  <$> List.filter (keep_row h (fetched_details h so kwargs)) (so_items so))
               ++ reserved)
    /\ forall t, In t reserved
                 <-> for_reserved_stock kwargs = true
                     /\ exists sre row,
                          In sre (get_sre_details_for_voucher h "Proforma" (so_name so))
                          /\ In row (so_items so) /\ name row = voucher_detail_no sre
                          /\ remaining_tests h row = true
                          /\ t = reserved_item h so sre row.
Proof.
  intros Hnd Hskip H. unfold make_delivery_note in H. rewrite Hskip in H. cbn [negb andb] in H.
  fold (fetched_details h so kwargs) in H.
  destruct (negb (so_docstatus so =? 1)%Z); [discriminate|].
  pose proof (mapper_pass_fst h so (so_items so) (fetched_details h so kwargs) Hnd) as Hfst.
  pose proof (mapper_pass_snd h so (so_items so) (fetched_details h so kwargs)) as Hsnd.
  destruct (mapper_pass h so (fetched_details h so kwargs) (so_items so)) as [mapped final].
  cbn [fst snd] in Hfst, Hsnd. subst mapped.
  destruct (for_reserved_stock kwargs) eqn:Efor.
  - destruct (get_sre_details_for_voucher h "Proforma" (so_name so)) as [|sre0 rest] eqn:El.
    + inversion H; subst. exists []. rewrite app_nil_r. split; [reflexivity|].
      intros t. split; [intros [] | intros [_ (sre & row & [] & _)]].
    + destruct (reserved_pass h so (so_items_by_name so) final (sre0 :: rest))
        as [reserved|err] eqn:Er; [|discriminate].
      cbn [bind] in H. inversion H; subst.
      exists reserved. split.
      * clear. generalize 0%Z.
        induction (_ <$> List.filter _ _ : list DnItem) as [|x l IH]; intros i;
          [reflexivity|].
        cbn [renumber app]. f_equal.
        assert (Hidem : forall (l1 l2 : list DnItem) i,
                   renumber i (renumber i l1 ++ l2) = renumber i (l1 ++ l2)).
        { clear. induction l1 as [|y l1 IH1]; intros l2 i; [reflexivity|].
          cbn [renumber app]. f_equal. apply IH1. }
        apply Hidem.
      * intros t.
        rewrite (reserved_pass_rows h so (so_items_by_name so) (so_items so) Hnd
                   (so_items_by_name_lookup so) (sre0 :: rest) final reserved).
        -- split; [intros Hx; split; [reflexivity | exact Hx] | intros [_ Hx]; exact Hx].
        -- intros row Hrow. apply Hsnd. right. apply list_elem_of_In.
           apply list_elem_of_fmap. exists row.
           split; [reflexivity | apply list_elem_of_In; exact Hrow].
        -- exact Er.
  - inversion H; subst. exists []. rewrite app_nil_r. split; [reflexivity|].
    intros t. split; [intros [] | intros [Hc _]; discriminate].
Qed.

Lemma mapped_item_fields (h : Host) (so : Proforma) (row : SoRow) :
  so_detail (update_item h row (map_child_doc so row) so) = name row
  /\ dn_qty (update_item h row (map_child_doc so row) so)
     = (qty row - delivered_qty row)%Q.
Proof. split; reflexivity. Qed.

Lemma reserved_item_fields (h : Host) (so : Proforma) (sre : SreDetail) (row : SoRow) :
  so_detail (reserved_item h so sre row) = name row
  /\ dn_qty (reserved_item h so sre row)
     = (flt (reserved_qty sre) * flt (conversion_factor row))%Q.
Proof. unfold reserved_item. destruct (_ && _); split; reflexivity. Qed.

Lemma keep_row_iff (h : Host) (d : gmap string Q) (row : SoRow) :
  keep_row h d row = true <-> d !! name row = None /\ passes_tests h row.
Proof.
  unfold keep_row. rewrite <- remaining_tests_iff.
  destruct (d !! name row); split; try tauto; try discriminate.
  - intros [H _]. discriminate.
Qed.

Lemma entry_passes_iff (h : Host) (so : Proforma) (sre : SreDetail) :
  entry_passes h so sre = true
  <-> exists row, In row (so_items so) /\ name row = voucher_detail_no sre
                  /\ passes_tests h row.
Proof.
  unfold entry_passes. rewrite existsb_exists. split.
  - intros (row & Hin & Hb). apply andb_true_iff in Hb. destruct Hb as [Hn Ht].
    exists row. split; [exact Hin|]. split; [apply String.eqb_eq, Hn|].
    apply remaining_tests_iff, Ht.
  - intros (row & Hin & Hn & Hp). exists row. split; [exact Hin|].
    apply andb_true_iff. split; [apply String.eqb_eq, Hn | apply remaining_tests_iff, Hp].
Qed.

(** The second loop appends one row per visited entry whose Proforma Item
    passes the tests, in the order of the entries. *)
Lemma reserved_pass_list (h : Host) (so : Proforma) :
  NoDup (name <$> so_items so) ->
  forall (l : list SreDetail) (d : gmap string Q) (res : list DnItem),
    (forall row, In row (so_items so) -> d !! name row = None) ->
    reserved_pass h so (so_items_by_name so) d l = Ok res ->
    Forall2 (fun sre t => exists row, In row (so_items so)
                                      /\ name row = voucher_detail_no sre
                                      /\ passes_tests h row
                                      /\ t = reserved_item h so sre row)
      (List.filter (entry_passes h so) l) res.
Proof.
  intros Hnd. induction l as [|sre rest IH]; intros d res Hd H; cbn [reserved_pass] in H.
  - inversion H; subst. constructor.
  - destruct (so_items_by_name so !! voucher_detail_no sre) as [row|] eqn:Erow;
      [|discriminate].
    destruct (so_items_by_name_lookup so _ _ Erow) as [Hrow Hname].
    rewrite condition_eq in H. unfold keep_row in H. rewrite (Hd row Hrow) in H.
    destruct (reserved_pass h so (so_items_by_name so) (delete (name row) d) rest)
      as [more|err] eqn:Er; [|discriminate].
    cbn [bind] in H.
    assert (Hd' : forall r, In r (so_items so) -> delete (name row) d !! name r = None).
    { intros r Hr. apply lookup_delete_None. right. apply Hd, Hr. }
    specialize (IH _ _ Hd' Er).
    assert (Hsame : entry_passes h so sre = remaining_tests h row).
    { destruct (remaining_tests h row) eqn:Et.
      - apply entry_passes_iff. exists row. split; [exact Hrow|]. split; [exact Hname|].
        apply remaining_tests_iff, Et.
      - destruct (entry_passes h so sre) eqn:Ee; [|reflexivity].
        apply entry_passes_iff in Ee. destruct Ee as (row' & Hr' & Hn' & Hp').
        rewrite (same_name_same_row (so_items so) row' row Hnd Hr' Hrow) in Hp'
          by congruence.
        apply remaining_tests_iff in Hp'. congruence. }
    cbn [List.filter]. rewrite Hsame.
    destruct (remaining_tests h row) eqn:Et; inversion H; subst res.
    + constructor; [|exact IH]. exists row. split; [exact Hrow|]. split; [exact Hname|].
      split; [apply remaining_tests_iff, Et | reflexivity].
    + exact IH.
Qed.

Lemma Forall2_compose {A B C : Type} (P : A -> B -> Prop) (Q : B -> C -> Prop)
    (R : A -> C -> Prop) (l : list A) (k : list B) (m : list C) :
  (forall x y z, P x y -> Q y z -> R x z) ->
  Forall2 P l k -> Forall2 Q k m -> Forall2 R l m.
Proof.
  intros HR HP. revert m.
  induction HP as [|x y l k Hxy _ IH]; intros m HQ; inversion HQ; subst; constructor.
  - eapply HR; eassumption.
  - apply IH. assumption.
Qed.

Lemma renumber_Forall2 (l : list DnItem) :
  forall i : Z, Forall2 (fun t0 t => exists j, t = set_idx j t0) l (renumber i l).
Proof.
  induction l as [|x rest IH]; intros i; cbn [renumber]; constructor.
  - exists (i + 1)%Z. reflexivity.
  - apply IH.
Qed.

(** The returned rows in order: the rows the mapper keeps, then one row
    for each visited entry whose Proforma Item passes the tests. *)
Lemma delivery_note_rows_listed (h : Host) (so : Proforma) (kwargs : Kwargs)
    (items : list DnItem) :
  NoDup (name <$> so_items so) ->
  skip_item_mapping kwargs = false ->
  make_delivery_note h so kwargs = Ok items ->
  exists plain reserved,
    items = plain ++ reserved
    /\ Forall2 (fun row t => so_detail t = name row
                             /\ dn_qty t = (qty row - delivered_qty row)%Q)
         (List.filter (keep_row h (fetched_details h so kwargs)) (so_items so)) plain
    /\ Forall2 (fun sre t =>
                  so_detail t = voucher_detail_no sre
                  /\ exists row,
                       In row (so_items so) /\ name row = voucher_detail_no sre
                       /\ passes_tests h row
                       /\ dn_qty t
                          = (flt (reserved_qty sre) * flt (conversion_factor row))%Q)
         (List.filter (entry_passes h so) (visited_entries h so kwargs)) reserved.
Proof.
  intros Hnd Hskip H.
  assert (Hshape : exists reserved0,
             items = renumber 0
                       (((fun row => update_item h row (map_child_doc so row) so)
                           <$> List.filter (keep_row h (fetched_details h so kwargs))
                                 (so_items so))
                        ++ reserved0)
             /\ Forall2 (fun sre t => exists row, In row (so_items so)
                                                  /\ name row = voucher_detail_no sre
                                                  /\ passes_tests h row
                                                  /\ t = reserved_item h so sre row)
                  (List.filter (entry_passes h so) (visited_entries h so kwargs))
                  reserved0).
  { unfold make_delivery_note in H. rewrite Hskip in H. cbn [negb andb] in H.
    fold (fetched_details h so kwargs) in H.
    destruct (negb (so_docstatus so =? 1)%Z); [discriminate|].
    pose proof (mapper_pass_fst h so (so_items so) (fetched_details h so kwargs) Hnd) as Hfst.
    pose proof (mapper_pass_snd h so (so_items so) (fetched_details h so kwargs)) as Hsnd.
    destruct (mapper_pass h so (fetched_details h so kwargs) (so_items so)) as [mapped final].
    cbn [fst snd] in Hfst, Hsnd. subst mapped. unfold visited_entries.
    destruct (for_reserved_stock kwargs) eqn:Efor.
    - destruct (get_sre_details_for_voucher h "Proforma" (so_name so)) as [|sre0 rest] eqn:El.
      + inversion H; subst. exists []. rewrite app_nil_r. split; [reflexivity|].
        constructor.
      + destruct (reserved_pass h so (so_items_by_name so) final (sre0 :: rest))
          as [reserved0|err] eqn:Er; [|discriminate].
        cbn [bind] in H. inversion H; subst.
        exists reserved0. split.
        * clear. generalize 0%Z.
          induction (_ <$> List.filter _ _ : list DnItem) as [|x l IH]; intros i;
            [reflexivity|].
          cbn [renumber app]. f_equal.
          assert (Hidem : forall (l1 l2 : list DnItem) i,
                     renumber i (renumber i l1 ++ l2) = renumber i (l1 ++ l2)).
          { clear. induction l1 as [|y l1 IH1]; intros l2 i; [reflexivity|].
            cbn [renumber app]. f_equal. apply IH1. }
          apply Hidem.
        * apply (reserved_pass_list h so Hnd (sre0 :: rest) final reserved0); [|exact Er].
          intros row Hrow. apply Hsnd. right. apply list_elem_of_In.
          apply list_elem_of_fmap. exists row.
          split; [reflexivity | apply list_elem_of_In; exact Hrow].
    - inversion H; subst. exists []. rewrite app_nil_r. split; [reflexivity|].
      constructor. }
  destruct Hshape as (reserved0 & -> & Hres).
  pose proof (renumber_Forall2
                (((fun row => update_item h row (map_child_doc so row) so)
                    <$> List.filter (keep_row h (fetched_details h so kwargs)) (so_items so))
                 ++ reserved0) 0) as Hren.
  apply Forall2_app_inv_l in Hren.
  destruct Hren as (plain & reserved & Hplain & Hreserved & ->).
  exists plain, reserved. split; [reflexivity|]. split.
  - apply Forall2_fmap_l in Hplain. eapply Forall2_impl; [exact Hplain|].
    intros row t [j ->]. split; reflexivity.
  - eapply Forall2_compose; [|exact Hres|exact Hreserved].
    intros sre t0 t (row & Hrow & Hname & Hp & ->) [j ->].
    destruct (reserved_item_fields h so sre row) as [Hd Hq].
    split; [cbn [set_idx so_detail]; rewrite Hd; exact Hname|].
    exists row. split; [exact Hrow|]. split; [exact Hname|]. split; [exact Hp|].
    cbn [set_idx dn_qty]. exact Hq.
Qed.

(** C6, as the code has it.  When item mapping is not skipped, a row that
    is not in the reserved-stock details is mapped if and only if it passes
    the date, quantity and supplier tests, and its quantity is the
    undelivered one.  A row that is in the reserved-stock details is left
    out of the mapper's pass and is mapped once for each Stock Reservation
    Entry of the row, if and only if it passes the same tests, with the
    entry's reserved quantity times the row's conversion factor.  The
    returned rows are, in order, one row for each Proforma Item the mapper
    keeps and then one row for each entry whose Proforma Item passes the
    tests, and no other row.  Row names are unique, and every entry of the
    voucher is accounted for in the reserved-stock details. *)
Theorem delivery_note_rows_by_pass (h : Host) (so : Proforma) (kwargs : Kwargs)
    (items : list DnItem) :
  NoDup (name <$> so_items so) ->
  (forall sre, In sre (get_sre_details_for_voucher h "Proforma" (so_name so)) ->
     get_sre_reserved_qty_details_for_voucher h "Proforma" (so_name so)
       !! voucher_detail_no sre <> None) ->
  skip_item_mapping kwargs = false ->
  make_delivery_note h so kwargs = Ok items ->
  (forall row, In row (so_items so) ->
     (fetched_details h so kwargs !! name row = None ->
        (mapped_into items row <-> passes_tests h row))
     /\ (fetched_details h so kwargs !! name row <> None ->
          (mapped_into items row
           <-> passes_tests h row
               /\ exists sre,
                    In sre (get_sre_details_for_voucher h "Proforma" (so_name so))
                    /\ voucher_detail_no sre = name row)))
  /\ (forall t, In t items ->
        exists row,
          In row (so_items so) /\ so_detail t = name row
          /\ ((fetched_details h so kwargs !! name row = None
               /\ dn_qty t = (qty row - delivered_qty row)%Q)
              \/ (fetched_details h so kwargs !! name row <> None
                  /\ exists sre,
                       In sre (get_sre_details_for_voucher h "Proforma" (so_name so))
                       /\ voucher_detail_no sre = name row
                       /\ dn_qty t
                          = (flt (reserved_qty sre) * flt (conversion_factor row))%Q)))
  /\ (exists plain reserved,
        items = plain ++ reserved
        /\ Forall2 (fun row t => so_detail t = name row
                                 /\ dn_qty t = (qty row - delivered_qty row)%Q)
             (List.filter (keep_row h (fetched_details h so kwargs)) (so_items so)) plain
        /\ Forall2 (fun sre t =>
                      so_detail t = voucher_detail_no sre
                      /\ exists row,
                           In row (so_items so) /\ name row = voucher_detail_no sre
                           /\ passes_tests h row
                           /\ dn_qty t
                              = (flt (reserved_qty sre) * flt (conversion_factor row))%Q)
             (List.filter (entry_passes h so) (visited_entries h so kwargs)) reserved).
Proof.
  intros Hnd Hcons Hskip H.
  pose proof (delivery_note_rows_listed h so kwargs items Hnd Hskip H) as Hlisted.
  destruct (make_delivery_note_rows h so kwargs items Hnd Hskip H) as (reserved & -> & Hres).
  set (fetched := fetched_details h so kwargs) in *.
  set (build := fun row => update_item h row (map_child_doc so row) so) in *.
  assert (Hfor : forall n, fetched !! n <> None -> for_reserved_stock kwargs = true).
  { intros n Hn. subst fetched. unfold fetched_details in Hn.
    destruct (for_reserved_stock kwargs); [reflexivity|].
    rewrite lookup_empty in Hn. contradiction. }
  assert (Hfetched : for_reserved_stock kwargs = true ->
                     fetched = get_sre_reserved_qty_details_for_voucher h "Proforma"
                                 (so_name so)).
  { intros Hf. subst fetched. unfold fetched_details. rewrite Hf. reflexivity. }
  assert (Hpass1 : forall t0, In t0 (build <$> List.filter (keep_row h fetched) (so_items so))
                     <-> exists row, In row (so_items so) /\ fetched !! name row = None
                                     /\ passes_tests h row /\ t0 = build row).
  { intros t0. rewrite in_map_iff. split.
    - intros (row & <- & Hin). apply filter_In in Hin. destruct Hin as [Hin Hk].
      apply keep_row_iff in Hk. exists row. tauto.
    - intros (row & Hin & Hn & Hp & ->). exists row. split; [reflexivity|].
      apply filter_In. split; [exact Hin | apply keep_row_iff; tauto]. }
  assert (Hitems : forall t, In t (renumber 0 ((build <$> List.filter (keep_row h fetched)
                                                  (so_items so)) ++ reserved)) ->
             exists t0 j, t = set_idx j t0
               /\ ((exists row, In row (so_items so) /\ fetched !! name row = None
                                /\ passes_tests h row /\ t0 = build row)
                   \/ (exists sre row,
                         In sre (get_sre_details_for_voucher h "Proforma" (so_name so))
                         /\ In row (so_items so) /\ name row = voucher_detail_no sre
                         /\ passes_tests h row /\ fetched !! name row <> None
                         /\ t0 = reserved_item h so sre row))).
  { intros t Ht. apply renumber_In in Ht. destruct Ht as (t0 & j & Hin & ->).
    exists t0, j. split; [reflexivity|]. apply in_app_or in Hin. destruct Hin as [Hin | Hin].
    - left. apply Hpass1, Hin.
    - right. apply Hres in Hin. destruct Hin as (Hf & sre & row & Hs & Hr & Hn & Ht & ->).
      exists sre, row. split; [exact Hs|]. split; [exact Hr|]. split; [exact Hn|].
      split; [apply remaining_tests_iff, Ht|]. split; [|reflexivity].
      rewrite (Hfetched Hf), Hn. apply Hcons, Hs. }
  split.
  - intros row Hrow. split.
    + intros Hnone. split.
      * intros (t & Ht & Hdet). apply Hitems in Ht.
        destruct Ht as (t0 & j & -> & [(row' & Hr' & _ & Hp & ->) | Hsre]).
        -- rewrite (same_name_same_row _ row row' Hnd Hrow Hr'); [exact Hp|].
           symmetry. exact Hdet.
        -- destruct Hsre as (sre & row' & _ & Hr' & _ & _ & Hsome & ->).
           destruct (reserved_item_fields h so sre row') as [Hd _].
           change (so_detail (reserved_item h so sre row') = name row) in Hdet.
           rewrite Hd in Hdet. rewrite Hdet in Hsome. contradiction.
      * intros Hp.
        destruct (In_renumber ((build <$> List.filter (keep_row h fetched) (so_items so))
                               ++ reserved) 0 (build row)) as [j Hj].
        { apply in_or_app. left. apply Hpass1. exists row. tauto. }
        exists (set_idx j (build row)). split; [exact Hj | reflexivity].
    + intros Hsome. split.
      * intros (t & Ht & Hdet). apply Hitems in Ht.
        destruct Ht as (t0 & j & -> & [(row' & Hr' & Hnone & _ & ->) | Hsre]).
        -- change (name row' = name row) in Hdet. rewrite Hdet in Hnone. contradiction.
        -- destruct Hsre as (sre & row' & Hs & Hr' & Hn & Hp & _ & ->).
           destruct (reserved_item_fields h so sre row') as [Hd _].
           change (so_detail (reserved_item h so sre row') = name row) in Hdet.
           rewrite Hd in Hdet.
           rewrite (same_name_same_row _ row row' Hnd Hrow Hr') by (symmetry; exact Hdet).
           split; [exact Hp|]. exists sre. split; [exact Hs | symmetry; exact Hn].
      * intros (Hp & sre & Hs & Hn).
        destruct (In_renumber ((build <$> List.filter (keep_row h fetched) (so_items so))
                               ++ reserved) 0 (reserved_item h so sre row)) as [j Hj].
        { apply in_or_app. right. apply Hres. split; [apply (Hfor _ Hsome)|].
          exists sre, row. split; [exact Hs|]. split; [exact Hrow|].
          split; [symmetry; exact Hn|]. split; [apply remaining_tests_iff, Hp | reflexivity]. }
        exists (set_idx j (reserved_item h so sre row)). split; [exact Hj|].
        apply reserved_item_fields.
  - split; [|exact Hlisted].
    intros t Ht. apply Hitems in Ht.
    destruct Ht as (t0 & j & -> & [(row & Hr & Hnone & _ & ->) | Hsre]).
    + exists row. split; [exact Hr|]. split; [reflexivity|]. left.
      split; [exact Hnone | reflexivity].
    + destruct Hsre as (sre & row & Hs & Hr & Hn & _ & Hsome & ->).
      destruct (reserved_item_fields h so sre row) as [Hd Hq].
      exists row. split; [exact Hr|]. split; [exact Hd|]. right.
      split; [exact Hsome|]. exists sre. split; [exact Hs|]. split; [symmetry; exact Hn|].
      exact Hq.
Qed.

Lemma delivery_note_rows_by_pass_witness :
  (forall row, In row (so_items delivery_proforma) ->
     (fetched_details delivery_host delivery_proforma for_reserved !! name row = None ->
        (mapped_into delivered_rows row <-> passes_tests delivery_host row))
     /\ (fetched_details delivery_host delivery_proforma for_reserved !! name row <> None ->
          (mapped_into delivered_rows row
           <-> passes_tests delivery_host row
               /\ exists sre,
                    In sre (get_sre_details_for_voucher delivery_host "Proforma"
                              (so_name delivery_proforma))
                    /\ voucher_detail_no sre = name row)))
  /\ (forall t, In t delivered_rows ->
        exists row,
          In row (so_items delivery_proforma) /\ so_detail t = name row
          /\ ((fetched_details delivery_host delivery_proforma for_reserved !! name row = None
               /\ dn_qty t = (qty row - delivered_qty row)%Q)
              \/ (fetched_details delivery_host delivery_proforma for_reserved !! name row
                    <> None
                  /\ exists sre,
                       In sre (get_sre_details_for_voucher delivery_host "Proforma"
                                 (so_name delivery_proforma))
                       /\ voucher_detail_no sre = name row
                       /\ dn_qty t
                          = (flt (reserved_qty sre) * flt (conversion_factor row))%Q)))
  /\ (exists plain reserved,
        delivered_rows = plain ++ reserved
        /\ Forall2 (fun row t => so_detail t = name row
                                 /\ dn_qty t = (qty row - delivered_qty row)%Q)
             (List.filter
                (keep_row delivery_host
                   (fetched_details delivery_host delivery_proforma for_reserved))
                (so_items delivery_proforma)) plain
        /\ Forall2 (fun sre t =>
                      so_detail t = voucher_detail_no sre
                      /\ exists row,
                           In row (so_items delivery_proforma)
                           /\ name row = voucher_detail_no sre
                           /\ passes_tests delivery_host row
                           /\ dn_qty t
                              = (flt (reserved_qty sre) * flt (conversion_factor row))%Q)
             (List.filter (entry_passes delivery_host delivery_proforma)
                (visited_entries delivery_host delivery_proforma for_reserved)) reserved).
Proof.
  apply (delivery_note_rows_by_pass delivery_host delivery_proforma for_reserved
           delivered_rows).
  - apply (bool_decide_unpack _). vm_compute. exact I.
  - intros sre [<- | []]. vm_compute. discriminate.
  - reflexivity.
  - vm_compute. reflexivity.
Defined.

Example one_row_per_entry :
  exists items,
    make_delivery_note two_entry_host delivery_proforma for_reserved = Ok items
    /\ so_detail <$> items = ["r2"; "r1"; "r1"]
    /\ Forall2 Qeq (dn_qty <$> items) [2; 2; 3]%Q.
Proof.
  eexists. split; [vm_compute; reflexivity|]. split; [reflexivity|].
  repeat constructor.
Qed.

(** C6, as stated, fails on [delivery_proforma]: row r1 is in the
    reserved-stock details and is mapped all the same, from its Stock
    Reservation Entry. *)
Lemma single_pass_rule_fails :
  ~ single_pass_rule delivery_host delivery_proforma for_reserved.
Proof.
  intros Hrule.
  assert (Hrun : make_delivery_note delivery_host delivery_proforma for_reserved
                 = Ok delivered_rows) by (vm_compute; reflexivity).
  destruct (Hrule _ Hrun) as [Hrows _].
  destruct (Hrows delivery_row_1 (or_introl eq_refl)) as [Hmapped _].
  assert (Hr1 : mapped_into delivered_rows delivery_row_1).
  { unfold mapped_into, delivered_rows.
    eexists. split; [right; left; reflexivity | reflexivity]. }
  destruct (Hmapped Hr1) as [Hnone _]. vm_compute in Hnone. discriminate.
Qed.

End DeliveryProps.

(** * Further properties *)

(** ** Stock reservation *)

Section ReservationExtras.
Import StockReservation ProformaMethods Samples.

Lemma Qsum_nonneg (l : list Q) : Forall (fun q => (0 <= q)%Q) l -> (0 <= Qsum l)%Q.
Proof.
  induction 1 as [|q l Hq _ IH]; cbn [Qsum fold_right]; [apply Qle_refl|].
  fold (Qsum l). rewrite <- (Qplus_0_r 0). apply Qplus_le_compat; assumption.
Qed.

(** X1. Without a batch number the quantity available to reserve never
    exceeds the stock balance: the entries that count hold a reserved
    quantity that is at least the delivered one. *)
Theorem available_at_most_balance (h : Host) (sres : list Sre)
    (item_code warehouse : string) (ignore_sre : option string) :
  (get_available_qty_to_reserve h sres item_code warehouse None ignore_sre
   <= get_stock_balance h item_code warehouse)%Q.
Proof.
  unfold get_available_qty_to_reserve. cbn [truthy_str].
  destruct (truthy_Q (get_stock_balance h item_code warehouse)); [|apply Qle_refl].
  set (rows := List.filter (sre_counts item_code warehouse ignore_sre) sres).
  assert (Hnn : (0 <= Qsum ((fun e => sre_reserved_qty e - sre_delivered_qty e)%Q <$> rows))%Q).
  { apply Qsum_nonneg. apply Forall_forall. intros q Hq.
    apply list_elem_of_In, in_map_iff in Hq. destruct Hq as (e & <- & He).
    apply filter_In in He. destruct He as [_ He].
    unfold sre_counts in He. rewrite !andb_true_iff in He.
    destruct He as [[[[_ _] Hle] _] _]. apply Qle_bool_iff in Hle.
    rewrite <- (Qplus_opp_r (sre_delivered_qty e)).
    apply Qplus_le_compat; [exact Hle | apply Qle_refl]. }
  destruct (truthy_Q _); [|apply Qle_refl].
  rewrite <- (Qplus_0_r (get_stock_balance h item_code warehouse)) at 2.
  apply Qplus_le_compat; [apply Qle_refl|].
  apply (Qopp_le_compat 0) in Hnn. exact Hnn.
Qed.

Lemma pymin_pos (x y : Q) : (0 < x)%Q -> (0 < y)%Q -> (0 < pymin x y)%Q.
Proof. intros Hx Hy. unfold pymin. destruct (Qltb y x); assumption. Qed.

Lemma Qleb_false_lt (x y : Q) : Qleb x y = false -> (y < x)%Q.
Proof.
  unfold Qleb. intros H. apply Qnot_le_lt. intros Hle.
  apply Qle_bool_iff in Hle. congruence.
Qed.

Lemma decide_qty_some (h : Host) (from_voucher_type : option string) (item : SoItem)
    (unreserved_qty available_qty_to_reserve : Q) (evs : list event) (q : Q) :
  decide_qty h from_voucher_type item unreserved_qty available_qty_to_reserve
  = Ok (evs, Some q) ->
  (forall r, qty_to_reserve item = Some r -> (0 < r)%Q)
  /\ (truthy_Z (allow_partial_reservation h) = false -> ~ (q < unreserved_qty)%Q).
Proof.
  unfold decide_qty. intros H.
  assert (Hlt : forall x, Qltb x unreserved_qty = false -> ~ (x < unreserved_qty)%Q).
  { intros x Hx Hc. apply Qltb_lt in Hc. congruence. }
  destruct (qty_to_reserve item) as [r|] eqn:Er; cbn [flt] in H.
  - destruct (Qleb r 0) eqn:Epos; [discriminate|]. apply Qleb_false_lt in Epos.
    split; [intros r' [= <-]; exact Epos|]. intros Hallow. rewrite Hallow in H.
    destruct (Qltb _ unreserved_qty) eqn:Elt.
    + destruct (falsy_str from_voucher_type && _); cbn [bind] in H.
      * destruct (conversion_factor item) as [c|]; [|discriminate].
        destruct (truthy_Q c); discriminate.
      * discriminate.
    + inversion H; subst. apply Hlt, Elt.
  - split; [discriminate|]. intros Hallow. rewrite Hallow in H.
    destruct (Qltb _ unreserved_qty) eqn:Elt.
    + destruct (falsy_str from_voucher_type && _); cbn [bind] in H.
      * destruct (conversion_factor item) as [c|]; [|discriminate].
        destruct (truthy_Q c); discriminate.
      * discriminate.
    + inversion H; subst. apply Hlt, Elt.
Qed.

(** What is known of a row once the loop body has built an entry for it. *)
Lemma reserve_item_reserve_facts (h : Host) (proforma : ProformaDoc)
    (from_voucher_type : option string) (details : gmap string Q) (st : list Sre)
    (item : SoItem) (evs : list event) (e : Sre) :
  reserve_item h proforma from_voucher_type details st item = Ok (Reserve evs e) ->
  truthy_Z (reserve_stock item) = true
  /\ (0 < get_unreserved_qty item details)%Q
  /\ sre_voucher_detail_no e = name item
  /\ (0 < sre_reserved_qty e)%Q
  /\ (sre_reserved_qty e <= get_unreserved_qty item details)%Q
  /\ (truthy_Z (allow_partial_reservation h) = false ->
      (sre_reserved_qty e == get_unreserved_qty item details)%Q).
Proof.
  intros H. pose proof (reserve_item_outcome _ _ _ _ _ _ _ H) as [_ Hbuilt].
  unfold reserve_item in H.
  destruct (negb (truthy_Z (reserve_stock item))) eqn:Ers; [discriminate|].
  apply negb_false_iff in Ers.
  destruct (negb (opt_str_eqb from_voucher_type "Pick List") && _); [discriminate|].
  destruct (item_flags h (item_code item)) as [[is_stock_item has_serial_no] has_batch_no].
  destruct (negb is_stock_item); [discriminate|].
  destruct (truthy_Z (warehouse_is_group h (warehouse item))); [discriminate|].
  destruct (Qleb (get_unreserved_qty item details) 0) eqn:Eun; [discriminate|].
  apply Qleb_false_lt in Eun.
  destruct (Qleb (get_available_qty_to_reserve h st _ _ None None) 0) eqn:Eav;
    [discriminate|].
  apply Qleb_false_lt in Eav.
  destruct (decide_qty h from_voucher_type item _ _) as [[evs0 d]|err] eqn:Ed; [|discriminate].
  cbn [bind] in H. destruct d as [q|]; [|discriminate].
  pose proof (decide_qty_result _ _ _ _ _ _ _ Ed) as [_ Hq]. specialize (Hq q eq_refl).
  apply decide_qty_some in Ed. destruct Ed as [Hr Hpartial].
  destruct Hbuilt as (Hname & _ & _ & _ & _ & Hres).
  assert (Hqe : sre_reserved_qty e = q) by (rewrite Hres; symmetry; exact Hq).
  assert (Hpos : (0 < q)%Q).
  { rewrite Hq. destruct (qty_to_reserve item) as [r|].
    - apply pymin_pos; [apply pymin_pos; assumption | apply Hr; reflexivity].
    - apply pymin_pos; assumption. }
  assert (Hle : (q <= get_unreserved_qty item details)%Q).
  { rewrite Hq. destruct (qty_to_reserve item) as [r|].
    - eapply Qle_trans; [apply pymin_le_l | apply pymin_le_l].
    - apply pymin_le_l. }
  rewrite Hqe. repeat split; try assumption.
  intros Hallow. apply Qle_antisym; [exact Hle|].
  apply Qnot_lt_le. apply Hpartial, Hallow.
Qed.

Lemma reserve_loop_each (P : SoItem -> Sre -> Prop) (h : Host) (proforma : ProformaDoc)
    (from_voucher_type : option string) (details : gmap string Q) (items : list SoItem) :
  (forall st item evs e,
     reserve_item h proforma from_voucher_type details st item = Ok (Reserve evs e) ->
     P item e) ->
  forall (st : list Sre) (evs : list event) (st' : list Sre) (n : Z),
    reserve_loop h proforma from_voucher_type details items st = Ok (evs, st', n) ->
    n = Z.of_nat (length (created_of evs))
    /\ forall e, In e (created_of evs) -> exists item, In item items /\ P item e.
Proof.
  intros HP. induction items as [|item rest IH]; intros st evs st' n H;
    cbn [reserve_loop] in H.
  - inversion H; subst. split; [reflexivity | intros e []].
  - destruct (reserve_item h proforma from_voucher_type details st item) as [o|err] eqn:Eo;
      [|discriminate].
    pose proof (reserve_item_outcome _ _ _ _ _ _ _ Eo) as Hout.
    cbn [bind] in H. destruct o as [evs0 | evs0 e0].
    + destruct (reserve_loop h proforma from_voucher_type details rest st)
        as [[[evs1 st1] n1]|err] eqn:El; [|discriminate].
      cbn [bind] in H. inversion H; subst. destruct (IH _ _ _ _ El) as [Hn Hall].
      rewrite created_of_app, Hout. cbn [app]. split; [exact Hn|].
      intros e He. destruct (Hall e He) as [it [Hin Hp]].
      exists it. split; [right; exact Hin | exact Hp].
    + destruct Hout as [Hout _].
      destruct (reserve_loop h proforma from_voucher_type details rest
                  (save_and_submit h e0 st)) as [[[evs1 st1] n1]|err] eqn:El; [|discriminate].
      cbn [bind] in H. inversion H; subst. destruct (IH _ _ _ _ El) as [Hn Hall].
      rewrite created_of_app, Hout.
      change (created_of (Created e0 :: evs1)) with (e0 :: created_of evs1).
      cbn [app length]. split; [lia|].
      intros e [<- | He].
      * exists item. split; [left; reflexivity | exact (HP _ _ _ _ Eo)].
      * destruct (Hall e He) as [it [Hin Hp]].
        exists it. split; [right; exact Hin | exact Hp].
Qed.

(** The three ways [create_stock_reservation_entries_for_so_items] returns
    normally: the early return on a group warehouse, or the loop. *)
Lemma run_cases (h : Host) (sres : list Sre) (proforma : ProformaDoc)
    (items_details : option (list ItemDetail)) (from_voucher_type : option string)
    (notify : bool) (evs : list event) (sres' : list Sre) :
  create_stock_reservation_entries_for_so_items h sres proforma items_details
    from_voucher_type notify = Ok (evs, sres') ->
  (created_of evs = [] /\ sres' = sres)
  \/ (truthy_Z (enable_stock_reservation h) = true
      /\ exists rows evs0 n,
           rows_of_run h proforma items_details from_voucher_type = Ok rows
           /\ reserve_loop h proforma from_voucher_type
                (get_sre_reserved_qty_details_for_voucher h sres "Proforma"
                   (pf_name proforma)) rows sres = Ok (evs0, sres', n)
           /\ created_of evs = created_of evs0
           /\ evs = evs0 ++ (if negb (n =? 0)%Z && notify then [Msg EntriesCreated] else [])).
Proof.
  unfold create_stock_reservation_entries_for_so_items. intros H.
  destruct (falsy_str from_voucher_type && _).
  { inversion H; subst. left. split; reflexivity. }
  right. unfold validate_stock_reservation_settings in H.
  destruct (truthy_Z (enable_stock_reservation h)); cbn [negb] in H; [|discriminate].
  split; [reflexivity|].
  destruct (negb (str_in (pf_doctype proforma) ["Proforma"])); [discriminate|].
  cbn [bind] in H. unfold rows_of_run.
  destruct (items_details_truthy items_details).
  - destruct (prepare_items h from_voucher_type (default [] items_details))
      as [rows|err]; [|discriminate].
    cbn [bind] in H.
    destruct (reserve_loop h proforma from_voucher_type _ rows sres)
      as [[[evs0 st0] n0]|err] eqn:El; [|discriminate].
    cbn [bind] in H. inversion H; subst.
    exists rows, evs0, n0. split; [reflexivity|]. split; [exact El|].
    split; [|reflexivity]. rewrite created_of_app.
    destruct (negb (n0 =? 0)%Z && notify); cbn; rewrite app_nil_r; reflexivity.
  - cbn [bind] in H.
    destruct (reserve_loop h proforma from_voucher_type _ (pf_items proforma) sres)
      as [[[evs0 st0] n0]|err] eqn:El; [|discriminate].
    cbn [bind] in H. inversion H; subst.
    exists (pf_items proforma), evs0, n0. split; [reflexivity|]. split; [exact El|].
    split; [|reflexivity]. rewrite created_of_app.
    destruct (negb (n0 =? 0)%Z && notify); cbn; rewrite app_nil_r; reflexivity.
Qed.

(** X2. Every Stock Reservation Entry a run creates reserves a strictly
    positive quantity. *)
Theorem created_entries_reserve_positive (h : Host) (sres : list Sre)
    (proforma : ProformaDoc) (items_details : option (list ItemDetail))
    (from_voucher_type : option string) (notify : bool)
    (evs : list event) (sres' : list Sre) (e : Sre) :
  create_stock_reservation_entries_for_so_items h sres proforma items_details
    from_voucher_type notify = Ok (evs, sres') ->
  In e (created_of evs) ->
  (0 < sre_reserved_qty e)%Q.
Proof.
  intros H He. apply run_cases in H.
  destruct H as [[Hnone _] | (_ & rows & evs0 & n & _ & Hloop & Hc & _)].
  - rewrite Hnone in He. destruct He.
  - rewrite Hc in He.
    destruct (reserve_loop_each (fun _ e => (0 < sre_reserved_qty e)%Q) h proforma
                from_voucher_type
                (get_sre_reserved_qty_details_for_voucher h sres "Proforma" (pf_name proforma))
                rows) with (2 := Hloop) as [_ Hall].
    { intros st item evs1 e1 H1. apply reserve_item_reserve_facts in H1.
      destruct H1 as (_ & _ & _ & Hpos & _). exact Hpos. }
    destruct (Hall e He) as (_ & _ & Hpos). exact Hpos.
Qed.

Lemma created_entries_reserve_positive_witness : (0 < sre_reserved_qty second_entry)%Q.
Proof.
  apply (created_entries_reserve_positive reservation_host earlier_sres reservation_proforma
           None None true
           ([Created first_entry; Msg (OnlyAvailable 2 2 "Nos" "ITEM-A")]
            ++ Created second_entry :: [Msg EntriesCreated])
           (earlier_sres ++ [stored_sre "SRE-row-1" first_entry;
                             stored_sre "SRE-row-2" second_entry])).
  - vm_compute. reflexivity.
  - right. left. reflexivity.
Defined.

(** X3. With partial reservation switched off in the Stock Settings, every
    entry a run creates reserves the whole unreserved quantity of its
    row. *)
Theorem no_partial_entry_when_disallowed (h : Host) (sres : list Sre)
    (proforma : ProformaDoc) (items_details : option (list ItemDetail))
    (from_voucher_type : option string) (notify : bool)
    (evs : list event) (sres' : list Sre) (e : Sre) :
  truthy_Z (allow_partial_reservation h) = false ->
  create_stock_reservation_entries_for_so_items h sres proforma items_details
    from_voucher_type notify = Ok (evs, sres') ->
  In e (created_of evs) ->
  exists rows item,
    rows_of_run h proforma items_details from_voucher_type = Ok rows
    /\ In item rows
    /\ sre_voucher_detail_no e = name item
    /\ (sre_reserved_qty e
        == get_unreserved_qty item
             (get_sre_reserved_qty_details_for_voucher h sres "Proforma"
                (pf_name proforma)))%Q.
Proof.
  intros Hallow H He. apply run_cases in H.
  destruct H as [[Hnone _] | (_ & rows & evs0 & n & Hrows & Hloop & Hc & _)].
  - rewrite Hnone in He. destruct He.
  - rewrite Hc in He. set (details := get_sre_reserved_qty_details_for_voucher _ _ _ _) in *.
    destruct (reserve_loop_each
                (fun item e => sre_voucher_detail_no e = name item
                               /\ (sre_reserved_qty e == get_unreserved_qty item details)%Q)
                h proforma from_voucher_type details rows) with (2 := Hloop) as [_ Hall].
    { intros st item evs1 e1 H1. apply reserve_item_reserve_facts in H1.
      destruct H1 as (_ & _ & Hn & _ & _ & Hfull). split; [exact Hn | apply Hfull, Hallow]. }
    destruct (Hall e He) as (item & Hin & Hn & Hq).
    exists rows, item. repeat split; assumption.
Qed.

Lemma no_partial_entry_when_disallowed_witness :
  exists rows item,
    rows_of_run strict_host reservation_proforma None None = Ok rows
    /\ In item rows
    /\ sre_voucher_detail_no first_entry = name item
    /\ (sre_reserved_qty first_entry
        == get_unreserved_qty item
             (get_sre_reserved_qty_details_for_voucher strict_host earlier_sres "Proforma"
                (pf_name reservation_proforma)))%Q.
Proof.
  apply (no_partial_entry_when_disallowed strict_host earlier_sres reservation_proforma
           None None true
           [Created first_entry; Msg (OnlyAvailable 2 2 "Nos" "ITEM-A");
            Msg EntriesCreated]
           (earlier_sres ++ [stored_sre "SRE-row-1" first_entry])).
  - reflexivity.
  - vm_compute. reflexivity.
  - left. reflexivity.
Defined.

(** X4. While stock reservation is switched off in the Stock Settings a
    call never creates an entry: it either raises, or returns after the
    group-warehouse notice with the entry table as it was. *)
Theorem nothing_reserved_when_disabled (h : Host) (sres : list Sre)
    (proforma : ProformaDoc) (items_details : option (list ItemDetail))
    (from_voucher_type : option string) (notify : bool) :
  truthy_Z (enable_stock_reservation h) = false ->
  match create_stock_reservation_entries_for_so_items h sres proforma items_details
          from_voucher_type notify with
  | Ok (evs, sres') => created_of evs = [] /\ sres' = sres
  | Err err => exists msg, err = ValidationError msg
  end.
Proof.
  intros Hoff.
  destruct (create_stock_reservation_entries_for_so_items h sres proforma items_details
              from_voucher_type notify) as [[evs sres']|err] eqn:H.
  - apply run_cases in H. destruct H as [H | [Hon _]]; [exact H | congruence].
  - unfold create_stock_reservation_entries_for_so_items in H.
    destruct (falsy_str from_voucher_type && _); [discriminate|].
    unfold validate_stock_reservation_settings in H. rewrite Hoff in H.
    cbn in H. inversion H. eexists. reflexivity.
Qed.

Lemma nothing_reserved_when_disabled_witness :
  match create_stock_reservation_entries_for_so_items disabled_host earlier_sres
          submitted_in_group_warehouse None None true with
  | Ok (evs, sres') => created_of evs = [] /\ sres' = earlier_sres
  | Err err => exists msg, err = ValidationError msg
  end.
Proof.
  apply (nothing_reserved_when_disabled disabled_host earlier_sres
           submitted_in_group_warehouse None None true).
  reflexivity.
Defined.

Lemma any_unreserved_true (details : gmap string Q) (items : list SoItem) :
  any_unreserved details items = true
  <-> exists item, In item items /\ truthy_Z (reserve_stock item) = true
                   /\ (0 < get_unreserved_qty item details)%Q.
Proof.
  induction items as [|item rest IH]; cbn [any_unreserved].
  - split; [discriminate | intros (item & [] & _)].
  - destruct (truthy_Z (reserve_stock item)) eqn:Ers; cbn [negb].
    + destruct (Qltb 0 (get_unreserved_qty item details)) eqn:Eq.
      * apply Qltb_lt in Eq. split; [|reflexivity].
        intros _. exists item. split; [left; reflexivity | split; assumption].
      * rewrite IH. split.
        -- intros (it & Hin & H). exists it. split; [right; exact Hin | exact H].
        -- intros (it & [<- | Hin] & Hrs & Hq).
           ++ apply Qltb_lt in Hq. congruence.
           ++ exists it. split; [exact Hin | split; assumption].
    + rewrite IH. split.
      * intros (it & Hin & H). exists it. split; [right; exact Hin | exact H].
      * intros (it & [<- | Hin] & Hrs & Hq); [congruence|].
        exists it. split; [exact Hin | split; assumption].
Qed.

(** X5. [has_unreserved_stock] answers whether a reservation run can do
    anything: it is true exactly when some row has its reserve flag set and
    a positive unreserved quantity, and when it is false a run over the
    document's own rows that returns normally creates no entry and leaves
    the entry table as it was. *)
Theorem has_unreserved_stock_decides_run (h : Host) (sres : list Sre)
    (proforma : ProformaDoc) (from_voucher_type : option string) (notify : bool) :
  (has_unreserved_stock h sres proforma = true
   <-> exists item,
         In item (pf_items proforma) /\ truthy_Z (reserve_stock item) = true
         /\ (0 < get_unreserved_qty item
                   (get_sre_reserved_qty_details_for_voucher h sres "Proforma"
                      (pf_name proforma)))%Q)
  /\ (has_unreserved_stock h sres proforma = false ->
      forall evs sres',
        ProformaMethods.create_stock_reservation_entries h sres proforma None
          from_voucher_type notify = Ok (evs, sres') ->
        created_of evs = [] /\ sres' = sres).
Proof.
  unfold has_unreserved_stock, ProformaMethods.create_stock_reservation_entries.
  split; [apply any_unreserved_true|].
  intros Hnone evs sres' H. apply run_cases in H.
  destruct H as [H | (_ & rows & evs0 & n & Hrows & Hloop & Hc & _)]; [exact H|].
  unfold rows_of_run in Hrows. cbn in Hrows. inversion Hrows; subst rows.
  set (details := get_sre_reserved_qty_details_for_voucher _ _ _ _) in *.
  pose proof (reserve_loop_created _ _ _ _ _ _ _ _ _ Hloop) as [Hst _].
  destruct (reserve_loop_each
              (fun item _ => truthy_Z (reserve_stock item) = true
                             /\ (0 < get_unreserved_qty item details)%Q)
              h proforma from_voucher_type details (pf_items proforma))
    with (2 := Hloop) as [_ Hall].
  { intros st item evs1 e1 H1. apply reserve_item_reserve_facts in H1.
    destruct H1 as (Hrs & Hq & _). split; assumption. }
  assert (Hempty : created_of evs0 = []).
  { destruct (created_of evs0) as [|e l] eqn:Ec; [reflexivity|].
    destruct (Hall e (or_introl eq_refl)) as (item & Hin & Hrs & Hq).
    assert (Htrue : any_unreserved details (pf_items proforma) = true).
    { apply any_unreserved_true. exists item. repeat split; assumption. }
    congruence. }
  rewrite Hc, Hempty. split; [reflexivity|]. rewrite Hst, Hempty. reflexivity.
Qed.

Lemma has_unreserved_stock_decides_run_witness :
  created_of [Msg (AlreadyReserved 1 "ITEM-A"); Msg (AlreadyReserved 2 "ITEM-A")] = []
  /\ earlier_sres = earlier_sres.
Proof.
  apply (proj2 (has_unreserved_stock_decides_run reserved_host earlier_sres
                  reservation_proforma None true) eq_refl
           [Msg (AlreadyReserved 1 "ITEM-A"); Msg (AlreadyReserved 2 "ITEM-A")]
           earlier_sres).
  vm_compute. reflexivity.
Defined.

Lemma pick_sb_entries_bound (entries : list SbbEntry) :
  forall picked target : Q,
    (picked <= target)%Q ->
    (picked + Qsum (sb_qty <$> pick_sb_entries false entries picked target) <= target)%Q
    /\ Forall (fun p => (0 <= sb_qty p)%Q) (pick_sb_entries false entries picked target).
Proof.
  induction entries as [|entry rest IH]; intros picked target Hle; cbn [pick_sb_entries].
  - cbn. rewrite Qplus_0_r. split; [exact Hle | constructor].
  - destruct (Qltb picked target) eqn:Elt.
    + apply Qltb_lt in Elt.
      set (qty := pymin (Qabs_ (sbb_qty entry)) (target - picked)).
      assert (Hq_le : (picked + qty <= target)%Q).
      { apply Qle_trans with (picked + (target - picked))%Q.
        - apply Qplus_le_compat; [apply Qle_refl | apply pymin_le_r].
        - apply Qle_lteq. right. ring. }
      assert (Hq_nn : (0 <= qty)%Q).
      { unfold qty, pymin. destruct (Qltb _ _).
        - rewrite <- (Qplus_opp_r picked). apply Qplus_le_compat;
            [apply Qlt_le_weak, Elt | apply Qle_refl].
        - rewrite Qabs__Qabs. apply Qabs_nonneg. }
      destruct (IH (picked + qty)%Q target Hq_le) as [Hsum Hall].
      split.
      * cbn [fmap list_fmap sb_qty Qsum fold_right]. fold (Qsum (sb_qty <$>
          pick_sb_entries false rest (picked + qty) target)).
        rewrite Qplus_assoc. exact Hsum.
      * constructor; [exact Hq_nn | exact Hall].
    + cbn. rewrite Qplus_0_r. split; [exact Hle | constructor].
Qed.

(** X6. For an item without serial numbers the batch quantities picked
    from a Serial and Batch Bundle are never negative and never add up to
    more than the quantity to reserve. *)
Theorem batch_picks_within_reserved_qty (entries : list SbbEntry) (qty_to_be_reserved : Q) :
  (0 <= qty_to_be_reserved)%Q ->
  (Qsum (sb_qty <$> pick_sb_entries false entries 0 qty_to_be_reserved)
   <= qty_to_be_reserved)%Q
  /\ Forall (fun p => (0 <= sb_qty p)%Q) (pick_sb_entries false entries 0 qty_to_be_reserved).
Proof.
  intros H. destruct (pick_sb_entries_bound entries 0 qty_to_be_reserved H) as [Hs Hall].
  rewrite Qplus_0_l in Hs. split; assumption.
Qed.

Lemma batch_picks_within_reserved_qty_witness :
  (Qsum (sb_qty <$> pick_sb_entries false batch_entries 0 5) <= 5)%Q
  /\ Forall (fun p => (0 <= sb_qty p)%Q) (pick_sb_entries false batch_entries 0 5).
Proof.
  apply (batch_picks_within_reserved_qty batch_entries 5). discriminate.
Defined.

End ReservationExtras.

(** ** Closing and re-opening *)

Section CloseExtras.
Import CloseOrUnclose Samples.

Lemma visit_other (h : Host) (requested : string) (cur : gmap string ProformaDoc)
    (n0 n : string) :
  n0 <> n -> (visit h requested cur n0).1.1 !! n = cur !! n.
Proof.
  intros Hne. destruct (visit h requested cur n0) as [[cur' calls] e] eqn:Ev.
  apply visit_effect in Ev. destruct Ev as [[-> | (so & _ & _ & ->)] _]; cbn [fst].
  - reflexivity.
  - apply lookup_insert_ne. exact Hne.
Qed.

Lemma visit_all_other (h : Host) (requested : string) (names : list string) (n : string) :
  ~ In n names ->
  forall cur, (visit_all h requested cur names).1.1 !! n = cur !! n.
Proof.
  induction names as [|n0 rest IH]; intros Hnot cur; cbn [visit_all]; [reflexivity|].
  pose proof (visit_other h requested cur n0 n) as Hv.
  destruct (visit h requested cur n0) as [[cur1 calls1] e1]. cbn [fst] in Hv.
  assert (Hne : n0 <> n) by (intros ->; apply Hnot; left; reflexivity).
  destruct e1 as [err|]; cbn [fst]; [apply Hv, Hne|].
  specialize (IH (fun H => Hnot (or_intror H)) cur1).
  destruct (visit_all h requested cur1 rest) as [[cur2 calls2] e2]. cbn [fst] in IH |- *.
  rewrite IH. apply Hv, Hne.
Qed.

(** X7. [close_or_unclose_proforma] leaves every document that is not
    among the parsed names exactly as it was, whatever the outcome of the
    call. *)
Theorem close_or_unclose_leaves_unnamed (h : Host) (db : gmap string ProformaDoc)
    (names requested : string) (n : string) :
  (forall parsed, json_loads h names = Ok parsed -> ~ In n parsed) ->
  (close_or_unclose_proforma h db names requested).1.1 !! n = db !! n.
Proof.
  intros Hnot. unfold close_or_unclose_proforma.
  destruct (negb (has_permission_write h)); [reflexivity|].
  destruct (json_loads h names) as [parsed|err]; [|reflexivity].
  pose proof (visit_all_other h requested parsed n (Hnot parsed eq_refl) db) as Hv.
  destruct (visit_all h requested db parsed) as [[db1 calls1] e1]. cbn [fst] in Hv.
  destruct e1; cbn [fst]; exact Hv.
Qed.

Lemma close_or_unclose_leaves_unnamed_witness :
  (close_or_unclose_proforma plain_host
     (<["PF-0009" := mkProformaDoc "PF-0009" 1 "To Bill" 100 0]> proforma_table)
     "[PF-0001, PF-0002, PF-0003, PF-0001]" "Closed").1.1 !! "PF-0009"
  = (<["PF-0009" := mkProformaDoc "PF-0009" 1 "To Bill" 100 0]> proforma_table) !! "PF-0009".
Proof.
  apply (close_or_unclose_leaves_unnamed plain_host).
  intros parsed [= <-] Hin. repeat (destruct Hin as [Hin | Hin]; [discriminate|]).
  destruct Hin.
Defined.

Lemma visit_done (h : Host) (requested : string) (cur : gmap string ProformaDoc)
    (n : string) (so : ProformaDoc) :
  cur !! n = Some so -> status so = status_argument requested ->
  (visit h requested cur n).1.1 = cur.
Proof.
  intros Hso Hst. unfold visit. rewrite Hso.
  destruct (docstatus so =? 1)%Z; [|reflexivity].
  unfold status_argument in Hst.
  destruct (String.eqb requested "Closed").
  - rewrite Hst. reflexivity.
  - rewrite Hst. reflexivity.
Qed.

Lemma visit_eligible (h : Host) (requested : string) (cur : gmap string ProformaDoc)
    (n : string) (d : ProformaDoc) (cur' : gmap string ProformaDoc) (calls : list call) :
  cur !! n = Some d -> update_allowed requested d ->
  visit h requested cur n = (cur', calls, None) ->
  cur' !! n = Some (with_status d (set_status h d (status_argument requested))).
Proof.
  intros Hd (Hds & Hc & Ho) H. unfold visit in H. rewrite Hd in H.
  apply Z.eqb_eq in Hds. rewrite Hds in H. unfold status_argument.
  assert (Hupd : forall arg o calls0 e0,
             update_status h d arg = (o, calls0, e0) -> e0 = None ->
             o = Some (with_status d (set_status h d arg))).
  { intros arg o calls0 e0 Hu He. unfold update_status in Hu.
    destruct (modified_since_load h d); [inversion Hu; congruence|].
    destruct (if String.eqb arg "Draft" && _ then _ else _); inversion Hu; congruence. }
  destruct (String.eqb_spec requested "Closed") as [Hreq | Hreq].
  - destruct (Hc Hreq) as (Hn1 & Hn2 & Hq).
    assert (Hg : negb (str_in (status d) ["Cancelled"; "Closed"])
                 && (Qltb (per_delivered d) 100 || Qltb (per_billed d) 100) = true).
    { apply andb_true_iff. split.
      - apply negb_true_iff. destruct (str_in _ _) eqn:Ein; [|reflexivity].
        apply str_in_In in Ein. destruct Ein as [E | [E | []]]; congruence.
      - apply orb_true_iff. destruct Hq as [Hq | Hq]; [left | right]; apply Qltb_lt, Hq. }
    rewrite Hg in H.
    destruct (update_status h d requested) as [[o calls0] e0] eqn:Eu.
    destruct e0 as [err|]; [discriminate|]. inversion H; subst.
    rewrite (Hupd _ _ _ _ Eu eq_refl). cbn [store_doc]. rewrite lookup_insert_eq.
    reflexivity.
  - rewrite (Ho Hreq) in H. cbn [String.eqb] in H.
    change (String.eqb "Closed" "Closed") with true in H.
    destruct (update_status h d "Draft") as [[o calls0] e0] eqn:Eu.
    destruct e0 as [err|]; [discriminate|]. inversion H; subst.
    rewrite (Hupd _ _ _ _ Eu eq_refl). cbn [store_doc]. apply lookup_insert_eq.
Qed.

Lemma visit_all_keeps_done (h : Host) (requested : string) (names : list string)
    (n : string) (so : ProformaDoc) :
  status so = status_argument requested ->
  forall cur, cur !! n = Some so -> (visit_all h requested cur names).1.1 !! n = Some so.
Proof.
  intros Hst. induction names as [|n0 rest IH]; intros cur Hso; cbn [visit_all];
    [exact Hso|].
  assert (Hv : (visit h requested cur n0).1.1 !! n = Some so).
  { destruct (decide (n0 = n)) as [-> | Hne].
    - rewrite (visit_done h requested cur n so Hso Hst). exact Hso.
    - rewrite visit_other by exact Hne. exact Hso. }
  destruct (visit h requested cur n0) as [[cur1 calls1] e1]. cbn [fst] in Hv.
  destruct e1 as [err|]; cbn [fst]; [exact Hv|].
  specialize (IH cur1 Hv).
  destruct (visit_all h requested cur1 rest) as [[cur2 calls2] e2]. exact IH.
Qed.

Lemma visit_all_closes (h : Host) (requested : string) (db : gmap string ProformaDoc)
    (n : string) (d : ProformaDoc) :
  (forall so r, set_status h so r = r) ->
  db !! n = Some d -> update_allowed requested d ->
  forall (names : list string) (cur cur' : gmap string ProformaDoc) (calls : list call),
    changed_as_allowed h requested db cur ->
    In n names ->
    visit_all h requested cur names = (cur', calls, None) ->
    cur' !! n = Some (with_status d (status_argument requested)).
Proof.
  intros Hset Hd Hallow. induction names as [|n0 rest IH];
    intros cur cur' calls Hinv Hin H; [destruct Hin|].
  cbn [visit_all] in H.
  destruct (visit h requested cur n0) as [[cur1 calls1] e1] eqn:Ev.
  destruct e1 as [err|]; [discriminate|].
  pose proof (visit_keeps_invariant _ _ _ _ _ _ _ _ Hinv Ev) as Hinv1.
  pose proof (visit_all_keeps_done h requested rest n
                (with_status d (status_argument requested)) eq_refl cur1) as Hkeep.
  destruct (visit_all h requested cur1 rest) as [[cur2 calls2] e2] eqn:Er.
  inversion H; subst. cbn [fst] in Hkeep.
  destruct (decide (n0 = n)) as [-> | Hne].
  - apply Hkeep. destruct (Hinv n) as [Hsame | (d0 & s & Hd0 & Hcur & _ & Hs)].
    + rewrite Hd in Hsame. rewrite (visit_eligible _ _ _ _ _ _ _ Hsame Hallow Ev).
      rewrite Hset. reflexivity.
    + rewrite Hd in Hd0. injection Hd0 as <-. rewrite (Hs Hset) in Hcur.
      pose proof (visit_done h requested cur n _ Hcur eq_refl) as Hdone.
      rewrite Ev in Hdone. cbn [fst] in Hdone. subst cur1. exact Hcur.
  - destruct Hin as [Heq | Hin]; [contradiction|].
    eapply IH; [exact Hinv1 | exact Hin | exact Er].
Qed.

(** X8. When a call returns without an exception and the controller
    stores the status it is asked to set, every named document that
    qualified at the start of the call ends with the status "Closed" (for
    the requested status "Closed") or "Draft" (for any other). *)
Theorem close_or_unclose_reaches_all (h : Host) (db : gmap string ProformaDoc)
    (names requested : string) (parsed : list string) (db' : gmap string ProformaDoc)
    (calls : list call) (n : string) (d : ProformaDoc) :
  (forall so r, set_status h so r = r) ->
  json_loads h names = Ok parsed ->
  close_or_unclose_proforma h db names requested = (db', calls, None) ->
  In n parsed ->
  db !! n = Some d ->
  docstatus d = 1%Z ->
  (requested = "Closed" ->
     status d <> "Cancelled" /\ status d <> "Closed"
     /\ ((per_delivered d < 100)%Q \/ (per_billed d < 100)%Q)) ->
  (requested <> "Closed" -> status d = "Closed") ->
  db' !! n
  = Some (with_status d (if String.eqb requested "Closed" then "Closed" else "Draft")).
Proof.
  intros Hset Hparse H Hin Hd Hds Hc Ho.
  unfold close_or_unclose_proforma in H.
  destruct (negb (has_permission_write h)); [discriminate|].
  rewrite Hparse in H.
  destruct (visit_all h requested db parsed) as [[db1 calls1] e1] eqn:Ev.
  destruct e1 as [err|]; [discriminate|]. inversion H; subst.
  apply (visit_all_closes h requested db n d Hset Hd (conj Hds (conj Hc Ho))
           parsed db db' calls1); [|exact Hin | exact Ev].
  intros m. left. reflexivity.
Qed.

Lemma close_or_unclose_reaches_all_witness :
  closing_run.1.1 !! "PF-0001"
  = Some (with_status (mkProformaDoc "PF-0001" 1 "To Deliver and Bill" 40 0) "Closed").
Proof.
  apply (close_or_unclose_reaches_all plain_host proforma_table
           "[PF-0001, PF-0002, PF-0003, PF-0001]" "Closed"
           ["PF-0001"; "PF-0002"; "PF-0003"; "PF-0001"]
           closing_run.1.1 closing_run.1.2 "PF-0001"
           (mkProformaDoc "PF-0001" 1 "To Deliver and Bill" 40 0)).
  - reflexivity.
  - reflexivity.
  - reflexivity.
  - left. reflexivity.
  - reflexivity.
  - reflexivity.
  - intros _. split; [discriminate|]. split; [discriminate|]. left. reflexivity.
  - intros H. exfalso. apply H. reflexivity.
Defined.

End CloseExtras.

(** ** Purchase orders *)

Section PurchaseExtras.
Import MakePurchaseOrder Samples.

Lemma dedup_spec (l : list string) :
  forall seen : list string,
    List.NoDup (dedup seen l)
    /\ forall x, In x (dedup seen l) <-> In x l /\ ~ In x seen.
Proof.
  induction l as [|a rest IH]; intros seen; cbn [dedup].
  - split; [constructor|]. intros x. split; [intros [] | intros [[] _]].
  - destruct (str_in a seen) eqn:Ea.
    + apply str_in_In in Ea. destruct (IH seen) as [Hnd Hin]. split; [exact Hnd|].
      intros x. rewrite Hin. split.
      * intros [Hx Hs]. split; [right; exact Hx | exact Hs].
      * intros [[<- | Hx] Hs]; [contradiction | split; assumption].
    + assert (Hna : ~ In a seen).
      { intros Hc. apply str_in_In in Hc. congruence. }
      destruct (IH (a :: seen)) as [Hnd Hin]. split.
      * constructor; [|exact Hnd]. intros Hc. apply Hin in Hc.
        destruct Hc as [_ Hc]. apply Hc. left. reflexivity.
      * intros x. split.
        -- intros [<- | Hx]; [split; [left; reflexivity | exact Hna]|].
           apply Hin in Hx. destruct Hx as [Hx Hs].
           split; [right; exact Hx | intros Hc; apply Hs; right; exact Hc].
        -- intros [[<- | Hx] Hs]; [left; reflexivity|].
           destruct (String.eqb_spec a x) as [-> | Hne]; [left; reflexivity|].
           right. apply Hin. split; [exact Hx|].
           intros [Hc | Hc]; [contradiction | exact (Hs Hc)].
Qed.

Lemma truthy_codes_In (get : SelItem -> option string) (l : list SelItem) (x : string) :
  In x (truthy_codes get l) <-> exists i, In i l /\ get i = Some x /\ x <> "".
Proof.
  unfold truthy_codes. rewrite <- list_elem_of_In, list_elem_of_omap. split.
  - intros (i & Hi & Hx). exists i. apply list_elem_of_In in Hi.
    destruct (get i) as [y|] eqn:Eg; cbn in Hx; [|discriminate].
    destruct (String.eqb_spec y ""); cbn in Hx; [discriminate|].
    inversion Hx; subst. repeat split; assumption.
  - intros (i & Hi & Hx & Hne). exists i. split; [apply list_elem_of_In, Hi|].
    rewrite Hx. cbn. destruct (String.eqb_spec x ""); [contradiction | reflexivity].
Qed.

(** The loop over the suppliers: what was inserted and committed, whether
    or not a later supplier failed. *)
Lemma orders_for_effects (h : Host) (so : Proforma) (items_to_map : list string)
    (suppliers : list string) :
  forall effs r,
    orders_for h so items_to_map suppliers = (effs, r) ->
    exists created,
      effs = flat_map (fun d => [Insert d; Commit]) created
      /\ match r with
         | Ok docs => docs = created /\ po_supplier <$> created = suppliers
         | Err _ => exists rest, suppliers = (po_supplier <$> created) ++ rest /\ rest <> []
         end.
Proof.
  induction suppliers as [|sup rest IH]; intros effs r H; cbn [orders_for] in H.
  - inversion H; subst. exists []. split; [reflexivity | split; reflexivity].
  - destruct (map_rows _ _ (so_items so)) as [items|err].
    + destruct (orders_for h so items_to_map rest) as [effs1 r1] eqn:Er.
      inversion H; subst. destruct (IH _ _ eq_refl) as (created & -> & Hr).
      match goal with |- context [Insert ?d :: _] => exists (d :: created) end.
      split; [reflexivity|]. destruct r1 as [docs|err]; cbn [bind].
      * destruct Hr as [-> Hs]. split; [reflexivity|]. cbn. rewrite Hs. reflexivity.
      * destruct Hr as (rest' & -> & Hne). exists rest'. split; [reflexivity | exact Hne].
    + inversion H; subst. exists []. split; [reflexivity|].
      exists (sup :: rest). split; [reflexivity | discriminate].
Qed.

(** X9. When [make_purchase_order_for_default_supplier] returns a list, it
    holds exactly one Purchase Order for each distinct non-empty supplier
    of the selection, and each of them was inserted and committed, in that
    order. *)
Theorem one_purchase_order_per_supplier (h : Host) (source_name : string)
    (selected_items : Selected) (parsed : list SelItem) (effs : list effect)
    (docs : list PurchaseOrder) :
  load_selected h selected_items = Ok parsed ->
  make_purchase_order_for_default_supplier h source_name selected_items
  = (effs, Ok (Some docs)) ->
  List.NoDup (po_supplier <$> docs)
  /\ (forall sup, In sup (po_supplier <$> docs)
                  <-> exists i, In i parsed /\ sel_supplier i = Some sup /\ sup <> "")
  /\ effs = flat_map (fun d => [Insert d; Commit]) docs.
Proof.
  intros Hload H. unfold make_purchase_order_for_default_supplier in H.
  destruct (negb (selected_truthy selected_items)); [discriminate|].
  rewrite Hload in H.
  destruct (dedup_spec (truthy_codes sel_supplier parsed) []) as [Hnd Hin].
  destruct (dedup [] (truthy_codes sel_supplier parsed)) as [|s0 rest] eqn:Ed;
    [discriminate|].
  destruct (fetch h source_name) as [so|err]; [|discriminate].
  destruct (orders_for h so (truthy_codes sel_item_code parsed) (s0 :: rest))
    as [effs1 r1] eqn:Eo.
  apply orders_for_effects in Eo. destruct Eo as (created & -> & Hr).
  destruct r1 as [docs1|err]; cbn [bind] in H; [|discriminate].
  inversion H; subst. destruct Hr as [-> Hs]. rewrite Hs.
  split; [exact Hnd|]. split; [|reflexivity].
  intros sup. rewrite Hin, truthy_codes_In. split; [intros [Hx _]; exact Hx|].
  intros Hx. split; [exact Hx | intros []].
Qed.

Lemma one_purchase_order_per_supplier_witness :
  List.NoDup (po_supplier <$> supplier_orders)
  /\ (forall sup, In sup (po_supplier <$> supplier_orders)
                  <-> exists i, In i purchase_selection /\ sel_supplier i = Some sup
                                /\ sup <> "")
  /\ supplier_run.1 = flat_map (fun d => [Insert d; Commit]) supplier_orders.
Proof.
  apply (one_purchase_order_per_supplier supplier_host "PF-0001" (SelList purchase_selection)
           purchase_selection supplier_run.1 supplier_orders).
  - reflexivity.
  - vm_compute. reflexivity.
Defined.

(** X10. Whatever the outcome, the database effects of
    [make_purchase_order_for_default_supplier] are an insert followed by a
    commit for each Purchase Order made so far, and these orders are for
    the first distinct suppliers of the selection, in order: orders made
    before a failure stay committed, and nothing is inserted without a
    commit. *)
Theorem purchase_orders_committed_one_by_one (h : Host) (source_name : string)
    (selected_items : Selected) :
  exists created,
    (make_purchase_order_for_default_supplier h source_name selected_items).1
    = flat_map (fun d => [Insert d; Commit]) created
    /\ (forall parsed, load_selected h selected_items = Ok parsed ->
          exists rest, dedup [] (truthy_codes sel_supplier parsed)
                       = (po_supplier <$> created) ++ rest)
    /\ match (make_purchase_order_for_default_supplier h source_name selected_items).2 with
       | Ok (Some docs) => docs = created
       | Ok None => created = []
       | Err _ => True
       end.
Proof.
  unfold make_purchase_order_for_default_supplier.
  assert (Hnil : forall (r : list effect * result (option (list PurchaseOrder))),
             r.1 = [] ->
             match r.2 with Ok (Some _) => False | _ => True end ->
             exists created,
               r.1 = flat_map (fun d => [Insert d; Commit]) created
               /\ (forall parsed, load_selected h selected_items = Ok parsed ->
                     exists rest, dedup [] (truthy_codes sel_supplier parsed)
                                  = (po_supplier <$> created) ++ rest)
               /\ match r.2 with
                  | Ok (Some docs) => docs = created
                  | Ok None => created = []
                  | Err _ => True
                  end).
  { intros r H1 H2. exists []. split; [exact H1|]. split.
    - intros parsed _. eexists. reflexivity.
    - destruct r.2 as [[docs|]|err]; [destruct H2 | reflexivity | exact I]. }
  destruct (negb (selected_truthy selected_items)); [apply Hnil; [reflexivity | exact I]|].
  destruct (load_selected h selected_items) as [parsed|err];
    [|apply Hnil; [reflexivity | exact I]].
  destruct (dedup [] (truthy_codes sel_supplier parsed)) as [|s0 rest] eqn:Ed;
    [apply Hnil; [reflexivity | exact I]|].
  destruct (fetch h source_name) as [so|err]; [|apply Hnil; [reflexivity | exact I]].
  destruct (orders_for h so (truthy_codes sel_item_code parsed) (s0 :: rest))
    as [effs1 r1] eqn:Eo.
  apply orders_for_effects in Eo. destruct Eo as (created & -> & Hr).
  exists created. split; [reflexivity|]. split.
  - intros parsed' [= <-]. rewrite Ed. destruct r1 as [docs|err].
    + destruct Hr as [_ Hs]. exists []. rewrite app_nil_r. symmetry. exact Hs.
    + destruct Hr as (rest' & Hs & _). exists rest'. exact Hs.
  - destruct r1 as [docs|err]; cbn [snd bind]; [|exact I].
    destruct Hr as [-> _]. reflexivity.
Qed.

Example first_order_stays_committed :
  exists doc,
    make_purchase_order_for_default_supplier broken_host "PF-0002"
      (SelList purchase_selection)
    = ([Insert doc; Commit], Err ZeroDivisionError)
    /\ po_supplier doc = "SUP-1".
Proof. eexists. split; [vm_compute; reflexivity | reflexivity]. Qed.

Lemma map_rows_ok {A : Type} (keep : A -> bool) (post : A -> result PoItem)
    (rows : list A) :
  forall ts, map_rows keep post rows = Ok ts ->
             forall t, In t ts <-> exists r, In r rows /\ keep r = true /\ post r = Ok t.
Proof.
  induction rows as [|r rest IH]; intros ts H t; cbn [map_rows] in H.
  - inversion H; subst. split; [intros [] | intros (r & [] & _)].
  - destruct (keep r) eqn:Ek.
    + destruct (post r) as [t0|err] eqn:Ep; [|discriminate]. cbn [bind] in H.
      destruct (map_rows keep post rest) as [ts0|err]; [|discriminate].
      cbn [bind] in H. inversion H; subst. specialize (IH ts0 eq_refl t). split.
      * intros [<- | Hin]; [exists r; repeat split; [left; reflexivity | assumption..]|].
        apply IH in Hin. destruct Hin as (r' & Hr & Hk & Hp).
        exists r'. repeat split; [right; exact Hr | assumption..].
      * intros (r' & [<- | Hr] & Hk & Hp); [left; congruence|].
        right. apply IH. exists r'. repeat split; assumption.
    + specialize (IH ts H t). rewrite IH. split.
      * intros (r' & Hr & Hk & Hp). exists r'. repeat split; [right; exact Hr | assumption..].
      * intros (r' & [<- | Hr] & Hk & Hp); [congruence|].
        exists r'. repeat split; assumption.
Qed.

Lemma map_rows_fails {A : Type} (keep : A -> bool) (post : A -> result PoItem)
    (rows : list A) (e0 : error) :
  (forall r e, post r = Err e -> e = e0) ->
  (exists r, In r rows /\ keep r = true /\ post r = Err e0) ->
  map_rows keep post rows = Err e0.
Proof.
  intros Honly. induction rows as [|r rest IH]; intros (r0 & Hin & Hk & Hp); [destruct Hin|].
  cbn [map_rows]. destruct Hin as [<- | Hin].
  - rewrite Hk, Hp. reflexivity.
  - assert (Hrest : map_rows keep post rest = Err e0).
    { apply IH. exists r0. repeat split; assumption. }
    destruct (keep r); [|exact Hrest].
    destruct (post r) as [t|e] eqn:Ep; cbn [bind].
    + rewrite Hrest. reflexivity.
    + rewrite (Honly _ _ Ep). reflexivity.
Qed.

Lemma update_item_only_error (so : Proforma) (r : SoRow) (e : error) :
  MakePurchaseOrder.update_item r so = Err e -> e = ZeroDivisionError.
Proof.
  unfold MakePurchaseOrder.update_item.
  destruct (truthy_Q (flt (conversion_factor r))); [discriminate | congruence].
Qed.

Lemma orders_for_items (h : Host) (so : Proforma) (items_to_map : list string)
    (suppliers : list string) :
  forall effs docs,
    orders_for h so items_to_map suppliers = (effs, Ok docs) ->
    forall doc, In doc docs ->
      map_rows
        (fun row : SoRow =>
           Qltb (ordered_qty row) (stock_qty row)
           && opt_str_eqb (supplier row) (po_supplier doc)
           && str_in (item_code row) items_to_map)
        (fun row => MakePurchaseOrder.update_item row so) (so_items so)
      = Ok (po_items doc).
Proof.
  induction suppliers as [|sup rest IH]; intros effs docs H doc Hdoc;
    cbn [orders_for] in H.
  - inversion H; subst. destruct Hdoc.
  - destruct (map_rows _ _ (so_items so)) as [items|err] eqn:Em; [|discriminate].
    destruct (orders_for h so items_to_map rest) as [effs1 r1] eqn:Er.
    destruct r1 as [docs1|err]; cbn [bind] in H; [|discriminate].
    inversion H; subst. destruct Hdoc as [<- | Hdoc].
    + exact Em.
    + exact (IH _ _ eq_refl doc Hdoc).
Qed.

(** X11. Every item of a Purchase Order that
    [make_purchase_order_for_default_supplier] returns comes from a row of
    the Proforma that is bought from the order's supplier, has a selected
    item code and is not yet fully ordered; the item carries the quantity
    still to order, which is positive. *)
Theorem purchase_items_belong_to_supplier (h : Host) (source_name : string)
    (selected_items : Selected) (parsed : list SelItem) (so : Proforma)
    (effs : list effect) (docs : list PurchaseOrder) (doc : PurchaseOrder) (t : PoItem) :
  load_selected h selected_items = Ok parsed ->
  get_proforma h source_name = Some so ->
  make_purchase_order_for_default_supplier h source_name selected_items
  = (effs, Ok (Some docs)) ->
  In doc docs ->
  In t (po_items doc) ->
  exists row,
    In row (so_items so)
    /\ proforma_item t = Some (name row)
    /\ supplier row = Some (po_supplier doc)
    /\ (exists i, In i parsed /\ sel_item_code i = Some (item_code row))
    /\ po_stock_qty t = (stock_qty row - ordered_qty row)%Q
    /\ (0 < po_stock_qty t)%Q.
Proof.
  intros Hload Hso H Hdoc Ht. unfold make_purchase_order_for_default_supplier in H.
  destruct (negb (selected_truthy selected_items)); [discriminate|].
  rewrite Hload in H.
  destruct (dedup [] (truthy_codes sel_supplier parsed)) as [|s0 rest]; [discriminate|].
  unfold fetch in H. rewrite Hso in H.
  destruct (so_docstatus so =? 1)%Z; [|discriminate].
  destruct (orders_for h so (truthy_codes sel_item_code parsed) (s0 :: rest))
    as [effs1 r1] eqn:Eo.
  destruct r1 as [docs1|err]; cbn [bind] in H; [|discriminate].
  inversion H; subst.
  pose proof (orders_for_items _ _ _ _ _ _ Eo doc Hdoc) as Hitems.
  apply (map_rows_ok _ _ _ _ Hitems) in Ht. destruct Ht as (row & Hrow & Hk & Hp).
  rewrite !andb_true_iff in Hk. destruct Hk as [[Hlt Hsup] Hcode].
  apply Qltb_lt in Hlt. apply str_in_In, truthy_codes_In in Hcode.
  destruct Hcode as (i & Hi & Hic & _).
  unfold MakePurchaseOrder.update_item in Hp.
  destruct (truthy_Q (flt (conversion_factor row))); [|discriminate].
  inversion Hp; subst t. cbn [proforma_item po_stock_qty flt].
  exists row. split; [exact Hrow|]. split; [reflexivity|]. split.
  { destruct (supplier row) as [x|]; cbn in Hsup; [|discriminate].
    apply String.eqb_eq in Hsup. congruence. }
  split; [exists i; split; assumption|]. split; [reflexivity|].
  rewrite <- (Qplus_opp_r (ordered_qty row)).
  apply Qplus_lt_le_compat; [exact Hlt | apply Qle_refl].
Qed.

Lemma purchase_items_belong_to_supplier_witness :
  exists row,
    In row (so_items purchase_proforma)
    /\ proforma_item supplier_item_2 = Some (name row)
    /\ supplier row = Some (po_supplier supplier_order_2)
    /\ (exists i, In i purchase_selection /\ sel_item_code i = Some (item_code row))
    /\ po_stock_qty supplier_item_2 = (stock_qty row - ordered_qty row)%Q
    /\ (0 < po_stock_qty supplier_item_2)%Q.
Proof.
  apply (purchase_items_belong_to_supplier supplier_host "PF-0001"
           (SelList purchase_selection) purchase_selection purchase_proforma
           supplier_run.1 supplier_orders supplier_order_2 supplier_item_2).
  - reflexivity.
  - reflexivity.
  - vm_compute. reflexivity.
  - right. left. reflexivity.
  - left. reflexivity.
Defined.

(** X12. A row that qualifies for a Purchase Order but has a missing or
    zero conversion factor makes [make_purchase_order] raise
    ZeroDivisionError: the quantity to order divides by that factor. *)
Theorem zero_conversion_factor_raises (h : Host) (source_name : string)
    (selected_items : Selected) (parsed : list SelItem) (so : Proforma) (row : SoRow) :
  selected_truthy selected_items = true ->
  load_selected h selected_items = Ok parsed ->
  get_proforma h source_name = Some so ->
  so_docstatus so = 1%Z ->
  In row (so_items so) ->
  (ordered_qty row < stock_qty row)%Q ->
  (exists i, In i parsed /\ sel_item_code i = Some (item_code row) /\ item_code row <> "") ->
  is_product_bundle h (item_code row) = false ->
  (flt (conversion_factor row) == 0)%Q ->
  make_purchase_order h source_name selected_items = ([], Err ZeroDivisionError).
Proof.
  intros Hsel Hload Hso Hds Hrow Hlt Hcode Hpb Hcf.
  unfold make_purchase_order. rewrite Hsel, Hload. cbn [negb bind].
  unfold fetch. rewrite Hso. apply Z.eqb_eq in Hds. rewrite Hds. cbn [bind].
  rewrite (map_rows_fails _ _ (so_items so) ZeroDivisionError); [reflexivity | |].
  - intros r e. apply update_item_only_error.
  - exists row. split; [exact Hrow|]. split.
    + rewrite !andb_true_iff. split; [split|].
      * apply Qltb_lt, Hlt.
      * apply str_in_In, truthy_codes_In, Hcode.
      * rewrite Hpb. reflexivity.
    + unfold MakePurchaseOrder.update_item. apply truthy_Q_false in Hcf.
      rewrite Hcf. reflexivity.
Qed.

Lemma zero_conversion_factor_raises_witness :
  make_purchase_order broken_host "PF-0002" (SelList purchase_selection)
  = ([], Err ZeroDivisionError).
Proof.
  apply (zero_conversion_factor_raises broken_host "PF-0002" (SelList purchase_selection)
           purchase_selection broken_proforma
           (mkSoRow "b2" "ITEM-B" 2 24 12 (Some 0%Q) (Some "SUP-2") None 0)).
  - reflexivity.
  - reflexivity.
  - reflexivity.
  - reflexivity.
  - right. left. reflexivity.
  - reflexivity.
  - exists (mkSelItem (Some "ITEM-B") (Some "SUP-2")).
    split; [right; left; reflexivity|]. split; [reflexivity | discriminate].
  - reflexivity.
  - reflexivity.
Defined.

End PurchaseExtras.

(** ** Delivery notes *)

Section DeliveryExtras.
Import MakeDeliveryNote Samples.

Lemma mapper_pass_empty (h : Host) (so : Proforma) (rows : list SoRow) :
  mapper_pass h so ∅ rows
  = ((fun row => update_item h row (map_child_doc so row) so)
       <$> List.filter (remaining_tests h) rows, ∅).
Proof.
  induction rows as [|row rest IH]; [reflexivity|].
  cbn [mapper_pass]. rewrite condition_eq. unfold keep_row.
  rewrite lookup_empty, delete_empty, IH. cbn [List.filter].
  destruct (remaining_tests h row); reflexivity.
Qed.

Lemma renumber_so_detail (l : list DnItem) :
  forall i, so_detail <$> renumber i l = so_detail <$> l.
Proof.
  induction l as [|t rest IH]; intros i; [reflexivity|].
  cbn [renumber]. cbn. f_equal. apply IH.
Qed.

(** X13. Without the reserved-stock flow, [make_delivery_note] on a
    submitted Proforma always returns; the rows it returns are, in the
    Proforma's order, exactly the rows that pass the date, quantity and
    supplier tests, and each of them carries a non-zero quantity. *)
Theorem plain_delivery_note_rows (h : Host) (so : Proforma) :
  so_docstatus so = 1%Z ->
  exists items,
    make_delivery_note h so (mkKwargs false false) = Ok items
    /\ so_detail <$> items = name <$> List.filter (remaining_tests h) (so_items so)
    /\ (forall row, In row (List.filter (remaining_tests h) (so_items so))
                    <-> In row (so_items so) /\ passes_tests h row)
    /\ (forall t, In t items -> ~ (dn_qty t == 0)%Q).
Proof.
  intros Hds. unfold make_delivery_note. cbn [for_reserved_stock skip_item_mapping negb andb].
  apply Z.eqb_eq in Hds. rewrite Hds. cbn [negb]. rewrite mapper_pass_empty.
  set (build := fun row => update_item h row (map_child_doc so row) so).
  set (kept := List.filter (remaining_tests h) (so_items so)).
  exists (renumber 0 (build <$> kept)). split; [reflexivity|].
  assert (Hin : forall t, In t (renumber 0 (build <$> kept))
                          -> exists row j, In row kept /\ t = set_idx j (build row)).
  { intros t Ht. apply renumber_In in Ht. destruct Ht as (t0 & j & Ht0 & ->).
    apply in_map_iff in Ht0. destruct Ht0 as (row & <- & Hrow).
    exists row, j. split; [exact Hrow | reflexivity]. }
  split; [|split].
  - rewrite renumber_so_detail. clear. induction kept as [|r l IH]; [reflexivity|].
    cbn. f_equal. exact IH.
  - intros row. subst kept. rewrite filter_In, remaining_tests_iff. reflexivity.
  - intros t Ht. destruct (Hin t Ht) as (row & j & Hk & ->).
    apply filter_In in Hk. destruct Hk as [_ Hk]. apply remaining_tests_iff in Hk.
    destruct Hk as (_ & Habs & _). cbn. intros Hz.
    assert (Heq : (qty row == delivered_qty row)%Q).
    { rewrite <- (Qplus_0_l (delivered_qty row)), <- Hz. ring. }
    rewrite Heq in Habs. exact (Qlt_irrefl _ Habs).
Qed.

Lemma plain_delivery_note_rows_witness :
  exists items,
    make_delivery_note delivery_host delivery_proforma (mkKwargs false false) = Ok items
    /\ so_detail <$> items
       = name <$> List.filter (remaining_tests delivery_host) (so_items delivery_proforma)
    /\ (forall row, In row (List.filter (remaining_tests delivery_host)
                              (so_items delivery_proforma))
                    <-> In row (so_items delivery_proforma)
                        /\ passes_tests delivery_host row)
    /\ (forall t, In t items -> ~ (dn_qty t == 0)%Q).
Proof.
  apply (plain_delivery_note_rows delivery_host delivery_proforma). reflexivity.
Defined.

Lemma renumber_idx (l : list DnItem) :
  forall (k : Z) (i : nat) (t : DnItem),
    renumber k l !! i = Some t -> dn_idx t = (k + Z.of_nat i + 1)%Z.
Proof.
  induction l as [|x rest IH]; intros k i t H; [destruct i; discriminate|].
  cbn [renumber] in H. destruct i as [|i].
  - cbn in H. inversion H; subst. cbn. lia.
  - cbn in H. apply IH in H. rewrite H. lia.
Qed.

(** X14. In the reserved-stock flow, when the voucher has Stock
    Reservation Entries, the rows of the returned Delivery Note are
    numbered 1, 2, 3, ... in their order, the rows appended for the
    entries included. *)
Theorem reserved_delivery_note_numbered (h : Host) (so : Proforma)
    (items : list DnItem) (i : nat) (t : DnItem) :
  get_sre_details_for_voucher h "Proforma" (so_name so) <> [] ->
  make_delivery_note h so (mkKwargs true false) = Ok items ->
  items !! i = Some t ->
  dn_idx t = (Z.of_nat i + 1)%Z.
Proof.
  intros Hsre H Ht. unfold make_delivery_note in H.
  cbn [for_reserved_stock skip_item_mapping negb andb] in H.
  destruct (negb (so_docstatus so =? 1)%Z); [discriminate|].
  destruct (mapper_pass h so _ (so_items so)) as [mapped final].
  destruct (get_sre_details_for_voucher h "Proforma" (so_name so)) as [|sre rest];
    [contradiction|].
  destruct (reserved_pass h so (so_items_by_name so) final (sre :: rest)) as [reserved|err];
    [|discriminate].
  cbn [bind] in H. inversion H; subst. apply renumber_idx in Ht. rewrite Ht. lia.
Qed.

Lemma reserved_delivery_note_numbered_witness :
  dn_idx (set_idx 2 (reserved_item delivery_host delivery_proforma
                       (mkSreDetail "r1" (Some 2%Q) "Qty" false false) delivery_row_1))
  = (Z.of_nat 1 + 1)%Z.
Proof.
  apply (reserved_delivery_note_numbered delivery_host delivery_proforma delivered_rows).
  - discriminate.
  - vm_compute. reflexivity.
  - vm_compute. reflexivity.
Defined.

End DeliveryExtras.

(** ** Quotation rows *)

Section QuotationExtras.
Import MakeProforma Samples.

Lemma map_quotation_items_sources (ordered_items : gmap string Q)
    (selected_rows : list string) (rows : list QuotationItem) :
  t_quotation_item <$> map_quotation_items ordered_items selected_rows rows
  = MakeProforma.name <$> List.filter (can_map_row selected_rows) rows.
Proof.
  unfold map_quotation_items.
  induction (List.filter (can_map_row selected_rows) rows) as [|r l IH]; [reflexivity|].
  cbn. f_equal. exact IH.
Qed.

(** X15. Which quotation rows become Proforma Items.  Without selected
    rows these are exactly the rows that are not alternatives, in order,
    whatever their quantity.  With selected rows every mapped row has a
    positive quantity, and a row that is an alternative, or has one, is
    mapped only if it is among the selected ones. *)
Theorem quotation_rows_mapped (ordered_items : gmap string Q)
    (selected_rows : list string) (rows : list QuotationItem) :
  (selected_rows = [] ->
     t_quotation_item <$> map_quotation_items ordered_items selected_rows rows
     = MakeProforma.name
         <$> List.filter (fun r => negb (is_alternative r)) rows)
  /\ (selected_rows <> [] ->
      forall t, In t (map_quotation_items ordered_items selected_rows rows) ->
        exists r, In r rows /\ t_quotation_item t = MakeProforma.name r
                  /\ (0 < MakeProforma.qty r)%Q
                  /\ (is_alternative r = true \/ has_alternative_item r = true ->
                      In (MakeProforma.name r) selected_rows)).
Proof.
  split.
  - intros ->. rewrite map_quotation_items_sources. reflexivity.
  - intros Hsel t Ht. unfold map_quotation_items in Ht.
    apply in_map_iff in Ht. destruct Ht as (r & <- & Hr).
    apply filter_In in Hr. destruct Hr as [Hr Hcan].
    exists r. split; [exact Hr|]. split; [reflexivity|].
    unfold can_map_row in Hcan. destruct selected_rows as [|s0 sel]; [contradiction|].
    destruct (is_alternative r || has_alternative_item r) eqn:Ealt.
    + apply andb_true_iff in Hcan. destruct Hcan as [Hin Hq].
      split; [apply Qltb_lt, Hq|]. intros _. apply str_in_In, Hin.
    + split; [apply Qltb_lt, Hcan|]. intros Halt.
      apply orb_false_iff in Ealt. destruct Ealt, Halt; congruence.
Qed.

Example alternatives_left_out_without_selection :
  t_quotation_item <$> map_quotation_items ∅ [] alternative_rows = ["q1"; "q3"].
Proof. reflexivity. Qed.

Example alternative_taken_when_selected :
  t_quotation_item <$> map_quotation_items ∅ ["q2"] alternative_rows = ["q2"].
Proof. reflexivity. Qed.

End QuotationExtras.

(** ** Inter-company links *)

Section LinkExtras.
Import GeneralFunctions Counterpart Samples.

Lemma ref_doc_differs (doctype : string) : ref_doc_of doctype <> doctype.
Proof.
  unfold ref_doc_of, str_in. cbn [existsb].
  destruct (String.eqb_spec doctype "Sales Invoice") as [-> | H1]; [discriminate|].
  destruct (String.eqb_spec doctype "Purchase Invoice") as [-> | H2]; [discriminate|].
  cbn [orb]. destruct (String.eqb_spec doctype "Sales Order") as [-> | H3];
    [discriminate | congruence].
Qed.

Lemma unlink_writes (doctype name : string) (r : string) :
  r <> "" ->
  unlink_inter_company_doc doctype name (Some r)
  = [mkWrite doctype name (ref_field_of doctype) "";
     mkWrite (ref_doc_of doctype) r (ref_field_of doctype) ""].
Proof.
  intros Hr. unfold unlink_inter_company_doc, ref_doc_of, ref_field_of.
  assert (Ht : truthy_str (Some r) = true).
  { cbn. destruct (String.eqb_spec r ""); [contradiction | reflexivity]. }
  destruct (str_in doctype ["Sales Invoice"; "Purchase Invoice"]); rewrite Ht; reflexivity.
Qed.

(** X16. With a non-empty reference, [unlink_inter_company_doc] empties
    the reference field of the named document and of the counterpart named
    by the reference, and [set_value] rewrites the [modified] and
    [modified_by] of these two documents with the time of each write and
    the session user.  Nothing else changes: every other field of the two
    documents and every other document keep their values, and no document
    is created. *)
Theorem unlink_clears_both_references (doctype name r : string)
    (clock : nat -> string) (user : string)
    (st : gmap (string * string) (gmap string string)) (key : string * string) :
  r <> "" ->
  apply_writes clock user (unlink_inter_company_doc doctype name (Some r)) st !! key
  = if decide (key = (doctype, name))
    then (fun fs => <["modified_by" := user]>
                      (<["modified" := clock 0%nat]> (<[ref_field_of doctype := ""]> fs)))
           <$> st !! key
    else if decide (key = (ref_doc_of doctype, r))
    then (fun fs => <["modified_by" := user]>
                      (<["modified" := clock 1%nat]> (<[ref_field_of doctype := ""]> fs)))
           <$> st !! key
    else st !! key.
Proof.
  intros Hr. rewrite (unlink_writes doctype name r Hr).
  unfold apply_writes. cbn [apply_writes_from]. unfold apply_write, stamp.
  cbn [w_doctype w_name w_field w_value].
  pose proof (ref_doc_differs doctype) as Hdiff.
  destruct (decide (key = (doctype, name))) as [-> | Hno1].
  - rewrite lookup_alter_ne by congruence. rewrite lookup_alter_eq. reflexivity.
  - destruct (decide (key = (ref_doc_of doctype, r))) as [-> | Hno2].
    + rewrite lookup_alter_eq. rewrite lookup_alter_ne by congruence. reflexivity.
    + rewrite !lookup_alter_ne by congruence. reflexivity.
Qed.

Lemma unlink_clears_both_references_witness :
  apply_writes sample_clock "user@b.example"
    (unlink_inter_company_doc "Proforma" "PF-0001" (Some "PO-0007")) linked_store
    !! ("Sales Order", "PO-0007")
  = if decide (("Sales Order", "PO-0007") = ("Proforma", "PF-0001"))
    then (fun fs => <["modified_by" := "user@b.example"]>
                      (<["modified" := sample_clock 0%nat]>
                         (<[ref_field_of "Proforma" := ""]> fs)))
           <$> linked_store !! ("Sales Order", "PO-0007")
    else if decide (("Sales Order", "PO-0007") = (ref_doc_of "Proforma", "PO-0007"))
    then (fun fs => <["modified_by" := "user@b.example"]>
                      (<["modified" := sample_clock 1%nat]>
                         (<[ref_field_of "Proforma" := ""]> fs)))
           <$> linked_store !! ("Sales Order", "PO-0007")
    else linked_store !! ("Sales Order", "PO-0007").
Proof.
  apply (unlink_clears_both_references "Proforma" "PF-0001" "PO-0007" sample_clock
           "user@b.example" linked_store ("Sales Order", "PO-0007")).
  discriminate.
Defined.

Example unlink_on_linked_store :
  apply_writes sample_clock "user@b.example"
    (unlink_inter_company_doc "Proforma" "PF-0001" (Some "PO-0007")) linked_store
  = {[ ("Proforma", "PF-0001") := {[ "inter_company_order_reference" := "";
                                     "customer" := "ACME Internal";
                                     "modified" := "2024-05-02 10:00:00.000001";
                                     "modified_by" := "user@b.example" ]};
       ("Proforma", "PO-0007") := {[ "inter_company_order_reference" := "PF-0001" ]};
       ("Sales Order", "PO-0007") := {[ "inter_company_order_reference" := "";
                                        "modified" := "2024-05-02 10:00:00.000002";
                                        "modified_by" := "user@b.example" ]} ]}.
Proof. vm_compute. reflexivity. Qed.

Lemma update_linked_writes (doctype name r : string) :
  r <> "" ->
  update_linked_doc doctype name (Some r) = [mkWrite doctype r (ref_field_of doctype) name].
Proof.
  intros Hr. unfold update_linked_doc, ref_field_of.
  assert (Ht : truthy_str (Some r) = true).
  { cbn. destruct (String.eqb_spec r ""); [contradiction | reflexivity]. }
  rewrite Ht. reflexivity.
Qed.

(** X17. [update_linked_doc] writes the link on the document of the same
    doctype that is named by the reference, and [unlink_inter_company_doc]
    does not clear it: after both calls with the same arguments that
    document, when it exists and is not the named document itself, still
    carries the name in its reference field, while the named document's own
    reference field is empty.  Each of the two rows carries the
    modification stamp of the call that wrote it last and is otherwise
    unchanged. *)
Theorem unlink_does_not_undo_link (doctype name r : string)
    (link_clock unlink_clock : nat -> string) (link_user unlink_user : string)
    (st : gmap (string * string) (gmap string string)) :
  r <> "" -> r <> name ->
  let st' := apply_writes unlink_clock unlink_user
               (unlink_inter_company_doc doctype name (Some r))
               (apply_writes link_clock link_user
                  (update_linked_doc doctype name (Some r)) st) in
  st' !! (doctype, r)
  = (fun fs => <["modified_by" := link_user]>
                 (<["modified" := link_clock 0%nat]> (<[ref_field_of doctype := name]> fs)))
      <$> st !! (doctype, r)
  /\ st' !! (doctype, name)
     = (fun fs => <["modified_by" := unlink_user]>
                    (<["modified" := unlink_clock 0%nat]>
                       (<[ref_field_of doctype := ""]> fs)))
         <$> st !! (doctype, name).
Proof.
  intros Hr Hrn. cbn zeta.
  rewrite (unlink_writes doctype name r Hr), (update_linked_writes doctype name r Hr).
  unfold apply_writes. cbn [apply_writes_from]. unfold apply_write, stamp.
  cbn [w_doctype w_name w_field w_value].
  pose proof (ref_doc_differs doctype) as Hdiff. split.
  - rewrite !lookup_alter_ne by congruence. rewrite lookup_alter_eq. reflexivity.
  - rewrite lookup_alter_ne by congruence. rewrite lookup_alter_eq.
    rewrite lookup_alter_ne by congruence. reflexivity.
Qed.

Lemma unlink_does_not_undo_link_witness :
  let st' := apply_writes sample_clock "user@b.example"
               (unlink_inter_company_doc "Proforma" "PF-0001" (Some "PO-0007"))
               (apply_writes sample_clock "user@c.example"
                  (update_linked_doc "Proforma" "PF-0001" (Some "PO-0007"))
                  linked_store) in
  st' !! ("Proforma", "PO-0007")
  = (fun fs => <["modified_by" := "user@c.example"]>
                 (<["modified" := sample_clock 0%nat]>
                    (<[ref_field_of "Proforma" := "PF-0001"]> fs)))
      <$> linked_store !! ("Proforma", "PO-0007")
  /\ st' !! ("Proforma", "PF-0001")
     = (fun fs => <["modified_by" := "user@b.example"]>
                    (<["modified" := sample_clock 0%nat]>
                       (<[ref_field_of "Proforma" := ""]> fs)))
         <$> linked_store !! ("Proforma", "PF-0001").
Proof.
  apply (unlink_does_not_undo_link "Proforma" "PF-0001" "PO-0007" sample_clock sample_clock
           "user@c.example" "user@b.example" linked_store);
    discriminate.
Defined.

End LinkExtras.

(** ** Validation and status methods of the document *)

Section MethodExtras.
Import DocMethods Samples.

(** X18. After [validate_reserved_stock] a row asks for reservation only
    if stock reservation is enabled and the row is a stock item; the method
    changes nothing but the reserve flag, which it only ever clears, and
    running it twice is the same as running it once. *)
Theorem validate_reserved_stock_cleans (h : Host) (items : list Item) :
  (forall item', In item' (validate_reserved_stock h items) ->
     truthy_Z (reserve_stock item') = true ->
     truthy_Z (enable_stock_reservation h) = true
     /\ truthy_Z (is_stock_item item') = true)
  /\ Forall2 (fun item item' =>
                item' = item
                \/ (truthy_Z (reserve_stock item) = true
                    /\ item' = with_reserve_stock item (Some 0%Z)))
       items (validate_reserved_stock h items)
  /\ validate_reserved_stock h (validate_reserved_stock h items)
     = validate_reserved_stock h items.
Proof.
  unfold validate_reserved_stock. split; [|split].
  - intros item' Hin Hflag. apply in_map_iff in Hin. destruct Hin as (item & <- & _).
    destruct (truthy_Z (reserve_stock item)) eqn:Er; cbn [andb] in Hflag |- *.
    + destruct (truthy_Z (enable_stock_reservation h)); cbn [negb orb] in Hflag |- *;
        [|discriminate].
      destruct (truthy_Z (is_stock_item item)) eqn:Es; cbn [negb] in Hflag |- *;
        [split; [reflexivity | exact Es] | discriminate].
    + congruence.
  - induction items as [|item rest IH]; [constructor|].
    cbn. constructor; [|exact IH].
    destruct (truthy_Z (reserve_stock item)) eqn:Er; cbn [andb]; [|left; reflexivity].
    destruct (_ || _); [right; split; reflexivity | left; reflexivity].
  - rewrite <- list_fmap_compose. apply list_fmap_ext. intros i item _. cbn.
    destruct (truthy_Z (reserve_stock item) && _) eqn:E; [reflexivity|].
    rewrite E. reflexivity.
Qed.

Example reserved_stock_cleaned :
  reserve_stock <$> validate_reserved_stock method_host method_rows
  = [Some 1%Z; Some 0%Z; None; None].
Proof. reflexivity. Qed.

Lemma serial_no_loop_ok (h : Host) (items : list Item) :
  forall reserved normal : list string,
    serial_no_loop h items reserved normal = Ok tt
    <-> (forall a, In a items -> flagged a ->
           ~ In (item_code a) normal
           /\ (In (item_code a) reserved \/ serial_ready h (item_code a)))
        /\ (forall b, In b items -> ~ flagged b -> ~ In (item_code b) reserved)
        /\ (forall a b, In a items -> In b items -> flagged a -> ~ flagged b ->
               item_code a <> item_code b).
Proof.
  induction items as [|x rest IH]; intros reserved normal; cbn [serial_no_loop].
  - split; [|reflexivity]. intros _. repeat split; intros; contradiction.
  - unfold flagged in *.
    destruct (truthy_Z (ensure_delivery_based_on_produced_serial_no x)) eqn:Ex.
    + destruct (str_in (item_code x) normal) eqn:En.
      { apply str_in_In in En. split; [discriminate|]. intros (HA & _ & _).
        destruct (HA x (or_introl eq_refl) Ex) as [Hn _]. contradiction. }
      assert (Hnn : ~ In (item_code x) normal).
      { intros Hc. apply str_in_In in Hc. congruence. }
      assert (Hfirst : (if negb (str_in (item_code x) reserved)
                        then if negb (truthy_Z (item_has_serial_no h (item_code x)))
                             then Err (ValidationError
                                         ("Item " ++ item_code x ++ " has no Serial No."))
                             else if negb (active_bom_exists h (item_code x))
                                  then Err (ValidationError
                                              ("No active BOM found for item "
                                               ++ item_code x))
                                  else Ok tt
                        else Ok tt) = Ok tt
                       <-> In (item_code x) reserved \/ serial_ready h (item_code x)).
      { unfold serial_ready. destruct (str_in (item_code x) reserved) eqn:Er; cbn [negb].
        - apply str_in_In in Er. split; [intros _; left; exact Er | reflexivity].
        - assert (Hnr : ~ In (item_code x) reserved).
          { intros Hc. apply str_in_In in Hc. congruence. }
          destruct (truthy_Z (item_has_serial_no h (item_code x))); cbn [negb].
          + destruct (active_bom_exists h (item_code x)); cbn [negb].
            * split; [intros _; right; split; reflexivity | reflexivity].
            * split; [discriminate | intros [Hc | [_ Hc]]; [contradiction | discriminate]].
          + split; [discriminate | intros [Hc | [Hc _]]; [contradiction | discriminate]]. }
      match goal with |- bind ?c _ = _ <-> _ => destruct c as [[]|err] eqn:Ec end;
        cbn [bind].
      * assert (Hx : In (item_code x) reserved \/ serial_ready h (item_code x))
          by (apply Hfirst; reflexivity).
        rewrite IH. split.
        -- intros (HA & HB & HM). repeat split.
           ++ destruct H as [<- | Ha]; [exact Hnn | apply (HA a Ha H0)].
           ++ destruct H as [<- | Ha]; [exact Hx|].
              destruct (HA a Ha H0) as [_ [Hr | Hs]]; [|right; exact Hs].
              apply in_app_or in Hr. destruct Hr as [Hr | [Hr | []]]; [left; exact Hr|].
              rewrite <- Hr. exact Hx.
           ++ intros b [<- | Hb] Hnb; [congruence|].
              intros Hc. apply (HB b Hb Hnb). apply in_or_app. left. exact Hc.
           ++ intros a b [<- | Ha] [<- | Hb] Hfa Hfb; try congruence.
              ** intros Heq. apply (HB b Hb Hfb). apply in_or_app. right. left. exact Heq.
              ** apply (HM a b Ha Hb Hfa Hfb).
        -- intros (HA & HB & HM). repeat split.
           ++ apply (HA a (or_intror H) H0).
           ++ destruct (HA a (or_intror H) H0) as [_ [Hr | Hs]]; [|right; exact Hs].
              left. apply in_or_app. left. exact Hr.
           ++ intros b Hb Hnb Hc. apply in_app_or in Hc. destruct Hc as [Hc | [Hc | []]].
              ** apply (HB b (or_intror Hb) Hnb Hc).
              ** apply (HM x b (or_introl eq_refl) (or_intror Hb) Ex Hnb Hc).
           ++ intros a b Ha Hb. apply HM; right; assumption.
      * split; [discriminate|]. intros (HA & _ & _).
        destruct (HA x (or_introl eq_refl) Ex) as [_ Hx]. apply Hfirst in Hx. discriminate.
    + assert (Hnx : ~ (false = true)) by discriminate.
      destruct (str_in (item_code x) reserved) eqn:Er.
      { apply str_in_In in Er. split; [discriminate|]. intros (_ & HB & _).
        exfalso. apply (HB x (or_introl eq_refl)); [rewrite Ex; exact Hnx | exact Er]. }
      assert (Hnr : ~ In (item_code x) reserved).
      { intros Hc. apply str_in_In in Hc. congruence. }
      rewrite IH. split.
      * intros (HA & HB & HM). repeat split.
        -- destruct H as [<- | Ha]; [congruence|].
           destruct (HA a Ha H0) as [Hn _]. intros Hc. apply Hn, in_or_app. left. exact Hc.
        -- destruct H as [<- | Ha]; [congruence|]. apply (HA a Ha H0).
        -- intros b [<- | Hb] Hnb; [exact Hnr | apply (HB b Hb Hnb)].
        -- intros a b [<- | Ha] [<- | Hb] Hfa Hfb; try congruence.
           ++ intros Heq. destruct (HA a Ha Hfa) as [Hn _].
              apply Hn, in_or_app. right. left. symmetry. exact Heq.
           ++ apply (HM a b Ha Hb Hfa Hfb).
      * intros (HA & HB & HM). repeat split.
        -- intros Hc. apply in_app_or in Hc. destruct Hc as [Hc | [Hc | []]].
           ++ destruct (HA a (or_intror H) H0) as [Hn _]. contradiction.
           ++ apply (HM a x (or_intror H) (or_introl eq_refl) H0); [rewrite Ex; exact Hnx|].
              symmetry. exact Hc.
        -- apply (HA a (or_intror H) H0).
        -- intros b Hb. apply HB. right. exact Hb.
        -- intros a b Ha Hb. apply HM; right; assumption.
Qed.

(** X19. [validate_serial_no_based_delivery] accepts the rows exactly when
    no item code occurs both with and without the flag Ensure Delivery by
    Serial No, and every flagged row's item has serial numbers and an
    active BOM. *)
Theorem serial_no_delivery_accepted_iff (h : Host) (items : list Item) :
  validate_serial_no_based_delivery h items = Ok tt
  <-> (forall a b, In a items -> In b items -> flagged a -> ~ flagged b ->
         item_code a <> item_code b)
      /\ (forall a, In a items -> flagged a -> serial_ready h (item_code a)).
Proof.
  unfold validate_serial_no_based_delivery. rewrite serial_no_loop_ok. split.
  - intros (HA & _ & HM). split; [exact HM|].
    intros a Ha Hf. destruct (HA a Ha Hf) as [_ [[] | Hs]]. exact Hs.
  - intros (HM & HS). split; [|split; [|exact HM]].
    + intros a Ha Hf. split; [intros [] | right; apply (HS a Ha Hf)].
    + intros b _ _ [].
Qed.

Example serial_rows_accepted :
  validate_serial_no_based_delivery method_host serial_rows = Ok tt.
Proof. reflexivity. Qed.

Example serial_rows_mixed_refused :
  exists msg,
    validate_serial_no_based_delivery method_host
      (serial_rows ++ [mkItem "s4" 4 "ITEM-S" None None None None None None None None])
    = Err (ValidationError msg).
Proof. eexists. reflexivity. Qed.

Lemma pair_in_In (code wh : string) (l : list (string * string)) :
  pair_in code wh l = true <-> In (code, wh) l.
Proof.
  unfold pair_in. rewrite existsb_exists. split.
  - intros ([c w] & Hin & Heq). cbn in Heq. apply andb_true_iff in Heq.
    destruct Heq as [H1 H2]. apply String.eqb_eq in H1, H2. subst. exact Hin.
  - intros Hin. exists (code, wh). split; [exact Hin|]. cbn.
    rewrite !String.eqb_refl. reflexivity.
Qed.

Lemma valid_for_reserve_keeps (h : Host) (l : list (string * string)) (code : string)
    (wh : option string) :
  NoDup l -> Forall (reservable h) l ->
  NoDup (valid_for_reserve h l code wh)
  /\ Forall (reservable h) (valid_for_reserve h l code wh)
  /\ (forall p, In p l -> In p (valid_for_reserve h l code wh))
  /\ (code <> "" -> truthy_str wh = true ->
      truthy_Z (item_is_stock_item h code) = true ->
      In (code, default "" wh) (valid_for_reserve h l code wh)).
Proof.
  intros Hnd Hall. unfold valid_for_reserve.
  assert (Hsame : forall P : Prop, P ->
             NoDup l /\ Forall (reservable h) l /\ (forall p, In p l -> In p l) /\ P).
  { intros P HP. split; [exact Hnd|]. split; [exact Hall|]. split; [|exact HP].
    intros p Hp. exact Hp. }
  destruct (String.eqb_spec code "") as [-> | Hc]; cbn [negb andb].
  { apply Hsame. intros Hx. contradiction. }
  destruct (truthy_str wh) eqn:Ew; cbn [andb].
  2:{ apply Hsame. discriminate. }
  destruct (pair_in code (default "" wh) l) eqn:Ep; cbn [negb andb].
  { apply pair_in_In in Ep. apply Hsame. intros _ _ _. exact Ep. }
  destruct (truthy_Z (item_is_stock_item h code)) eqn:Es.
  2:{ apply Hsame. discriminate. }
  assert (Hnot : ~ In (code, default "" wh) l).
  { intros Hin. apply pair_in_In in Hin. congruence. }
  split; [|split; [|split]].
  - apply NoDup_app. split; [exact Hnd|]. split.
    + intros x Hx Hx'. apply list_elem_of_In in Hx. apply list_elem_of_In in Hx'.
      destruct Hx' as [<- | []]. contradiction.
    + apply NoDup_singleton.
  - apply Forall_app. split; [exact Hall|]. constructor; [|constructor].
    unfold reservable. cbn. split; [exact Hc|]. split; [|exact Es].
    destruct wh as [w|]; cbn in Ew |- *; [|discriminate].
    destruct (String.eqb_spec w ""); [discriminate | assumption].
  - intros p Hp. apply in_or_app. left. exact Hp.
  - intros _ _ _. apply in_or_app. right. left. reflexivity.
Qed.

Lemma collect_item_wh_keeps (h : Host) (packed_items : list PackedItem)
    (so_item_rows : option (list string)) (items : list Item) :
  forall l,
    NoDup l -> Forall (reservable h) l ->
    NoDup (collect_item_wh h packed_items so_item_rows items l)
    /\ Forall (reservable h) (collect_item_wh h packed_items so_item_rows items l)
    /\ (forall p, In p l -> In p (collect_item_wh h packed_items so_item_rows items l))
    /\ (forall d, In d items ->
          (rows_truthy so_item_rows = true -> In (name d) (default [] so_item_rows)) ->
          truthy_Z (delivered_by_supplier d) = false ->
          has_product_bundle h (item_code d) = false ->
          item_code d <> "" -> truthy_str (warehouse d) = true ->
          truthy_Z (item_is_stock_item h (item_code d)) = true ->
          In (item_code d, default "" (warehouse d))
            (collect_item_wh h packed_items so_item_rows items l)).
Proof.
  induction items as [|d rest IH]; intros l Hnd Hall; cbn [collect_item_wh].
  - split; [exact Hnd|]. split; [exact Hall|]. split; [intros p Hp; exact Hp|]. intros d [].
  - set (l1 := if _ && _ then _ else l).
    assert (H1 : NoDup l1 /\ Forall (reservable h) l1
                 /\ (forall p, In p l -> In p l1)).
    { subst l1. destruct (_ && _);
        [|split; [exact Hnd|]; split; [exact Hall|]; intros p Hp; exact Hp].
      destruct (has_product_bundle h (item_code d)).
      - clear IH. revert l Hnd Hall.
        induction packed_items as [|pk pks IHp]; intros l Hnd Hall; cbn [fold_left];
          [split; [exact Hnd|]; split; [exact Hall|]; intros p Hp; exact Hp|].
        set (l2 := if _ && _ then _ else l).
        assert (H2 : NoDup l2 /\ Forall (reservable h) l2
                     /\ (forall p, In p l -> In p l2)).
        { subst l2. destruct (_ && _);
            [|split; [exact Hnd|]; split; [exact Hall|]; intros p Hp; exact Hp].
          destruct (valid_for_reserve_keeps h l (pk_item_code pk) (pk_warehouse pk) Hnd Hall)
            as (Ha & Hb & Hc & _). split; [exact Ha|]. split; [exact Hb | exact Hc]. }
        destruct H2 as (Ha & Hb & Hc). destruct (IHp l2 Ha Hb) as (Ha' & Hb' & Hc').
        split; [exact Ha'|]. split; [exact Hb'|]. intros p Hp. apply Hc', Hc, Hp.
      - destruct (valid_for_reserve_keeps h l (item_code d) (warehouse d) Hnd Hall)
          as (Ha & Hb & Hc & _). split; [exact Ha|]. split; [exact Hb | exact Hc]. }
    destruct H1 as (Hnd1 & Hall1 & Hsub1).
    destruct (IH l1 Hnd1 Hall1) as (Ha & Hb & Hc & Hd).
    split; [exact Ha|]. split; [exact Hb|]. split; [intros p Hp; apply Hc, Hsub1, Hp|].
    intros d0 [<- | Hin] Hsel Hdbs Hpb Hcode Hwh Hstock.
    + apply Hc. subst l1.
      assert (Hrow : (negb (rows_truthy so_item_rows)
                      || str_in (name d) (default [] so_item_rows))
                     && negb (truthy_Z (delivered_by_supplier d)) = true).
      { rewrite Hdbs. cbn [negb]. rewrite andb_true_r.
        destruct (rows_truthy so_item_rows); cbn [negb orb]; [|reflexivity].
        apply str_in_In, Hsel. reflexivity. }
      rewrite Hrow, Hpb.
      apply (valid_for_reserve_keeps h l (item_code d) (warehouse d) Hnd Hall);
        assumption.
    + apply Hd; assumption.
Qed.

(** X20. [update_reserved_qty] writes each bin at most once, and only bins
    of stock items with an item code and a warehouse, storing the reserved
    quantity the host computes for that bin; the bin of every row that is
    not delivered by the supplier, is not a product bundle, is among the
    requested rows when rows are requested, and is such a stock item, is
    written. *)
Theorem update_reserved_qty_bins (h : Host) (items : list Item)
    (packed_items : list PackedItem) (so_item_rows : option (list string)) :
  let bins := update_reserved_qty h items packed_items so_item_rows in
  NoDup ((fun b => (b.1.1, b.1.2)) <$> bins)
  /\ (forall code wh q, In (code, wh, q) bins ->
        code <> "" /\ wh <> "" /\ truthy_Z (item_is_stock_item h code) = true
        /\ q = get_reserved_qty h code wh)
  /\ (forall d, In d items ->
        (rows_truthy so_item_rows = true -> In (name d) (default [] so_item_rows)) ->
        truthy_Z (delivered_by_supplier d) = false ->
        has_product_bundle h (item_code d) = false ->
        item_code d <> "" -> truthy_str (warehouse d) = true ->
        truthy_Z (item_is_stock_item h (item_code d)) = true ->
        In (item_code d, default "" (warehouse d),
            get_reserved_qty h (item_code d) (default "" (warehouse d))) bins).
Proof.
  cbn zeta. unfold update_reserved_qty.
  destruct (collect_item_wh_keeps h packed_items so_item_rows items []
              NoDup_nil_2 (Forall_nil_2 _)) as (Hnd & Hall & _ & Hcomplete).
  set (pairs := collect_item_wh h packed_items so_item_rows items []) in *.
  split; [|split].
  - rewrite <- list_fmap_compose.
    replace (_ <$> pairs) with pairs; [exact Hnd|].
    clear. induction pairs as [|[c w] l IH]; [reflexivity|]. cbn. f_equal. exact IH.
  - intros code wh q Hin. apply in_map_iff in Hin. destruct Hin as ([c w] & Heq & Hp).
    cbn in Heq. inversion Heq; subst.
    rewrite Forall_forall in Hall. apply list_elem_of_In in Hp.
    destruct (Hall _ Hp) as (H1 & H2 & H3). cbn in H1, H2, H3.
    split; [exact H1|]. split; [exact H2|]. split; [exact H3 | reflexivity].
  - intros d Hd Hsel Hdbs Hpb Hcode Hwh Hstock. apply in_map_iff.
    exists (item_code d, default "" (warehouse d)). split; [reflexivity|].
    apply Hcomplete; assumption.
Qed.

Example bins_of_method_rows :
  update_reserved_qty method_host method_rows [] None = [("ITEM-A", "WH-1", 3%Q)].
Proof. reflexivity. Qed.

Lemma fold_sum_nonneg (f : Item -> bool) (g : Item -> Q) (items : list Item) :
  (forall i, In i items -> (0 <= g i)%Q) ->
  forall acc, (0 <= acc)%Q ->
    (0 <= fold_left (fun acc i => if f i then (acc + g i)%Q else acc) items acc)%Q.
Proof.
  induction items as [|i rest IH]; intros Hg acc Hacc; cbn [fold_left]; [exact Hacc|].
  apply IH.
  - intros j Hj. apply Hg. right. exact Hj.
  - destruct (f i); [|exact Hacc].
    rewrite <- (Qplus_0_r 0). apply Qplus_le_compat; [exact Hacc|].
    apply Hg. left. reflexivity.
Qed.

(** X21. When [update_picking_status] returns, the percentage it stores
    lies between 0 and 100 plus the over-picking allowance, for rows whose
    picked and stock quantities are not negative: picking beyond the
    allowance raises instead. *)
Theorem per_picked_within_allowance (h : Host) (items : list Item) (p : Q) :
  (forall i, In i items -> (0 <= flt (stock_qty i))%Q /\ (0 <= flt (picked_qty i))%Q) ->
  (0 <= flt (over_picking_allowance h))%Q ->
  update_picking_status h items = Ok p ->
  (0 <= p)%Q /\ (p <= 100 + flt (over_picking_allowance h))%Q.
Proof.
  intros Hrows Hallow H. unfold update_picking_status in H.
  assert (HP : (0 <= total_picked h items)%Q).
  { apply fold_sum_nonneg; [|apply Qle_refl]. intros i Hi. apply (Hrows i Hi). }
  assert (HT : (0 <= total_stock h items)%Q).
  { apply fold_sum_nonneg; [|apply Qle_refl]. intros i Hi. apply (Hrows i Hi). }
  set (P := total_picked h items) in *. set (T := total_stock h items) in *.
  assert (Hzero : (0 <= 0)%Q /\ (0 <= 100 + flt (over_picking_allowance h))%Q).
  { split; [apply Qle_refl|]. rewrite <- (Qplus_0_r 0).
    apply Qplus_le_compat; [discriminate | exact Hallow]. }
  destruct (truthy_Q P && truthy_Q T) eqn:Eb; [|inversion H; subst; exact Hzero].
  apply andb_true_iff in Eb. destruct Eb as [_ ET]. apply truthy_Q_true in ET.
  assert (HTpos : (0 < T)%Q).
  { apply Qle_lteq in HT. destruct HT as [HT | HT]; [exact HT|].
    exfalso. apply ET. symmetry. exact HT. }
  cbn [flt] in H.
  assert (Hbound : (P <= (1 + flt (over_picking_allowance h) / 100) * T)%Q).
  { destruct (over_picking_allowance h) as [a|] eqn:Ea; cbn [flt] in *.
    - destruct (truthy_Q a) eqn:Eta.
      + destruct (Qltb _ P) eqn:Elt; [discriminate|]. apply Qltb_ge in Elt.
        eapply Qle_trans; [exact Elt|]. apply Qle_lteq. right. field.
      + destruct (Qltb T P) eqn:Elt; [discriminate|]. apply Qltb_ge in Elt.
        apply truthy_Q_false in Eta. eapply Qle_trans; [exact Elt|].
        apply Qle_lteq. right. rewrite Eta. field.
    - destruct (Qltb T P) eqn:Elt; [discriminate|]. apply Qltb_ge in Elt.
      eapply Qle_trans; [exact Elt|]. apply Qle_lteq. right. field. }
  assert (Hp : p = (P / T * 100)%Q).
  { destruct (over_picking_allowance h) as [a|].
    - destruct (truthy_Q a); destruct (Qltb _ P); inversion H; reflexivity.
    - destruct (Qltb _ P); inversion H; reflexivity. }
  subst p. split.
  - apply Qmult_le_0_compat; [|discriminate].
    apply Qle_shift_div_l; [exact HTpos|]. rewrite Qmult_0_l. exact HP.
  - apply Qle_trans with ((1 + flt (over_picking_allowance h) / 100) * 100)%Q.
    + apply Qmult_le_compat_r; [|discriminate].
      apply Qle_shift_div_r; [exact HTpos | exact Hbound].
    + apply Qle_lteq. right. field.
Qed.

Lemma per_picked_within_allowance_witness :
  (0 <= 1100 # 25)%Q /\ (1100 # 25 <= 100 + flt (over_picking_allowance method_host))%Q.
Proof.
  apply (per_picked_within_allowance method_host method_rows (1100 # 25)).
  - intros i Hi. repeat (destruct Hi as [<- | Hi]; [split; discriminate|]). destruct Hi.
  - discriminate.
  - vm_compute. reflexivity.
Defined.

End MethodExtras.

(** ** Material requests and sales invoices *)

Section RequestExtras.
Import MakeMaterialRequest Samples.

Lemma max0_nonneg (x : Q) : (0 <= max0 x)%Q.
Proof.
  unfold max0. destruct (Qltb x 0) eqn:E; [apply Qle_refl|]. apply Qltb_ge in E. exact E.
Qed.

(** X22. Every Material Request row that [make_material_request] maps
    from a Proforma Item is for an item that is not a product bundle and
    asks for a positive quantity, never more than the ordered quantity less
    what submitted Material Requests already ask for; its stock quantity
    and amount follow from that quantity. *)
Theorem material_request_rows_positive (h : Host) (so : Proforma)
    (rows packed : list MrItem) (t : MrItem) :
  make_material_request h so = Ok (rows, packed) ->
  In t rows ->
  exists r,
    In r (so_items so) /\ mr_source t = name r
    /\ product_bundle_exists h (item_code r) = false
    /\ (0 < mr_qty t)%Q
    /\ (mr_qty t
        <= flt (qty r)
           - flt (match get_requested_item_qty h (so_name so) !! name r with
                  | Some rq => rq_qty rq
                  | None => None
                  end))%Q
    /\ mr_stock_qty t = (mr_qty t * flt (conversion_factor r))%Q
    /\ mr_amount t = (mr_qty t * mr_rate t)%Q.
Proof.
  unfold make_material_request. intros H Ht.
  destruct (negb (so_docstatus so =? 1)%Z); [discriminate|]. inversion H; subst.
  apply in_map_iff in Ht. destruct Ht as (r & <- & Hr).
  apply filter_In in Hr. destruct Hr as [Hr Hk]. apply andb_true_iff in Hk.
  destruct Hk as [Hb Hq]. apply negb_true_iff in Hb. apply Qltb_lt in Hq.
  exists r. split; [exact Hr|]. split; [reflexivity|]. split; [exact Hb|].
  split; [exact Hq|]. split; [|split; reflexivity].
  cbn [mr_qty update_item]. unfold get_remaining_qty. cbn [flt].
  set (a := (flt (qty r) - flt _)%Q).
  rewrite <- (Qplus_0_r a) at 2. unfold Qminus at 1.
  apply Qplus_le_compat; [apply Qle_refl|].
  apply (Qopp_le_compat 0). apply max0_nonneg.
Qed.

Lemma material_request_rows_positive_witness :
  exists r,
    In r (so_items request_proforma) /\ mr_source requested_item = name r
    /\ product_bundle_exists request_host (item_code r) = false
    /\ (0 < mr_qty requested_item)%Q
    /\ (mr_qty requested_item
        <= flt (qty r)
           - flt (match get_requested_item_qty request_host (so_name request_proforma)
                          !! name r with
                  | Some rq => rq_qty rq
                  | None => None
                  end))%Q
    /\ mr_stock_qty requested_item = (mr_qty requested_item * flt (conversion_factor r))%Q
    /\ mr_amount requested_item = (mr_qty requested_item * mr_rate requested_item)%Q.
Proof.
  apply (material_request_rows_positive request_host request_proforma
           [requested_item] [] requested_item).
  - vm_compute. reflexivity.
  - left. reflexivity.
Defined.

End RequestExtras.

Section InvoiceExtras.
Import MakeSalesInvoice Samples.

(** X23. Every Sales Invoice row that [make_sales_invoice] maps bills the
    amount of the Proforma row that is not billed yet.  For a row that is
    partly billed and has a rate, the quantity times the rate is that
    amount; otherwise the quantity is the ordered less the returned one.  A
    row with a non-zero base amount is mapped only while something is left
    to bill, and a row without quantity is never mapped. *)
Theorem invoice_rows_bill_remainder (docstatus : Z) (conversion_rate : option Q)
    (rows : list SoRow) (items : list SiItem) (t : SiItem) :
  make_sales_invoice docstatus conversion_rate rows = Ok items ->
  In t items ->
  exists r,
    In r rows /\ so_detail t = name r
    /\ ~ (qty r == 0)%Q
    /\ si_amount t = (amount r - billed_amt r)%Q
    /\ (~ (flt (rate r) == 0)%Q -> ~ (billed_amt r == 0)%Q ->
        (si_qty t * flt (rate r) == si_amount t)%Q)
    /\ ((flt (rate r) == 0)%Q \/ (billed_amt r == 0)%Q ->
        si_qty t = (qty r - returned_qty r)%Q)
    /\ (~ (base_amount r == 0)%Q -> ~ (si_amount t == 0)%Q).
Proof.
  unfold make_sales_invoice. intros H Ht.
  destruct (negb (docstatus =? 1)%Z); [discriminate|]. inversion H; subst.
  apply in_map_iff in Ht. destruct Ht as (r & <- & Hr).
  apply filter_In in Hr. destruct Hr as [Hr Hk]. unfold condition in Hk.
  apply andb_true_iff in Hk. destruct Hk as [Hq Hrest]. apply truthy_Q_true in Hq.
  exists r. split; [exact Hr|]. split; [reflexivity|]. split; [exact Hq|].
  split; [reflexivity|]. cbn [si_qty si_amount update_item flt]. split; [|split].
  - intros Hrate Hbilled. apply truthy_Q_true in Hrate, Hbilled.
    rewrite Hrate, Hbilled. cbn [andb]. apply truthy_Q_true in Hrate. field. exact Hrate.
  - intros [Hz | Hz]; apply truthy_Q_false in Hz; rewrite Hz;
      [reflexivity | rewrite andb_false_r; reflexivity].
  - intros Hbase Hzero. apply orb_true_iff in Hrest. destruct Hrest as [Hb | Habs].
    + apply Qeq_bool_iff in Hb. contradiction.
    + apply Qltb_lt in Habs. rewrite !Qabs__Qabs in Habs.
      assert (Heq : (amount r == billed_amt r)%Q).
      { rewrite <- (Qplus_0_l (billed_amt r)), <- Hzero. ring. }
      rewrite Heq in Habs. exact (Qlt_irrefl _ Habs).
Qed.

Lemma invoice_rows_bill_remainder_witness :
  exists r,
    In r invoice_rows /\ so_detail invoiced_item = name r
    /\ ~ (qty r == 0)%Q
    /\ si_amount invoiced_item = (amount r - billed_amt r)%Q
    /\ (~ (flt (rate r) == 0)%Q -> ~ (billed_amt r == 0)%Q ->
        (si_qty invoiced_item * flt (rate r) == si_amount invoiced_item)%Q)
    /\ ((flt (rate r) == 0)%Q \/ (billed_amt r == 0)%Q ->
        si_qty invoiced_item = (qty r - returned_qty r)%Q)
    /\ (~ (base_amount r == 0)%Q -> ~ (si_amount invoiced_item == 0)%Q).
Proof.
  apply (invoice_rows_bill_remainder 1 (Some 1%Q) invoice_rows
           (update_item (Some 1%Q) <$> List.filter condition invoice_rows) invoiced_item).
  - reflexivity.
  - vm_compute. left. reflexivity.
Defined.

End InvoiceExtras.

(** ** Pick lists *)

Section PickExtras.
Import CreatePickList Samples.

Lemma validate_proforma_ok (items : list SoRow) :
  validate_proforma items = Ok tt
  <-> forall item, In item items -> (stock_reserved_qty item <= 0)%Q.
Proof.
  induction items as [|x rest IH]; cbn [validate_proforma].
  - split; [intros _ item [] | reflexivity].
  - destruct (Qltb 0 (stock_reserved_qty x)) eqn:E.
    + apply Qltb_lt in E. split; [discriminate|]. intros H.
      exfalso. exact (Qlt_not_le _ _ E (H x (or_introl eq_refl))).
    + apply Qltb_ge in E. rewrite IH. split.
      * intros H item [<- | Hin]; [exact E | apply H, Hin].
      * intros H item Hin. apply H. right. exact Hin.
Qed.

Lemma pymax_ge_r (x y : Q) : (y <= pymax x y)%Q.
Proof.
  unfold pymax. destruct (Qltb x y) eqn:E; [apply Qle_refl|]. apply Qltb_ge in E. exact E.
Qed.

(** X24. [create_pick_list] refuses a Proforma that has reserved stock on
    any row.  When it returns, no row has reserved stock, and every Pick
    List row mapped from a Proforma Item is for a row that is not fully
    delivered, not delivered by the supplier and not a product bundle; it
    asks for at most the undelivered quantity, and its stock quantity is
    that quantity times the conversion factor. *)
Theorem pick_list_rows (h : Host) (source_name : string) (so : Proforma) :
  get_proforma h source_name = Some so ->
  ((exists item, In item (so_items so) /\ (0 < stock_reserved_qty item)%Q) ->
     exists msg, create_pick_list h source_name = Err (ValidationError msg))
  /\ (forall rows packed,
        create_pick_list h source_name = Ok (rows, packed) ->
        (forall item, In item (so_items so) -> (stock_reserved_qty item <= 0)%Q)
        /\ forall t, In t rows ->
             exists r,
               In r (so_items so) /\ proforma_item t = name r
               /\ (Qabs (delivered_qty r) < Qabs (qty r))%Q
               /\ delivered_by_supplier r <> 1%Z
               /\ is_product_bundle h (item_code r) = false
               /\ (pl_qty t <= qty r - delivered_qty r)%Q
               /\ pl_stock_qty t = (pl_qty t * flt (conversion_factor r))%Q).
Proof.
  intros Hso. unfold create_pick_list. rewrite Hso. split.
  - intros (item & Hin & Hpos).
    destruct (validate_proforma (so_items so)) as [[]|err] eqn:Ev.
    + pose proof (proj1 (validate_proforma_ok _) Ev) as Hall. exfalso.
      exact (Qlt_not_le _ _ Hpos (Hall item Hin)).
    + clear Hin. induction (so_items so) as [|x rest IH]; cbn [validate_proforma] in Ev;
        [discriminate|].
      destruct (Qltb 0 (stock_reserved_qty x)); [|exact (IH Ev)].
      inversion Ev. cbn [bind]. eexists. reflexivity.
  - intros rows packed H.
    destruct (validate_proforma (so_items so)) as [[]|err] eqn:Ev; [|discriminate].
    pose proof (proj1 (validate_proforma_ok _) Ev) as Hall. cbn [bind] in H.
    destruct (negb (so_docstatus so =? 1)%Z); [discriminate|].
    destruct (map_packed (so_items so) (so_packed_items so)) as [pk|err]; [|discriminate].
    cbn [bind] in H. inversion H; subst. split; [exact Hall|].
    intros t Ht. apply in_map_iff in Ht. destruct Ht as (r & <- & Hr).
    apply filter_In in Hr. destruct Hr as [Hr Hk]. unfold should_pick_order_item in Hk.
    rewrite !andb_true_iff in Hk. destruct Hk as [[Habs Hdbs] Hpb].
    apply Qltb_lt in Habs. rewrite !Qabs__Qabs in Habs.
    apply negb_true_iff in Hdbs, Hpb. apply Z.eqb_neq in Hdbs.
    exists r. split; [exact Hr|]. split; [reflexivity|]. split; [exact Habs|].
    split; [exact Hdbs|]. split; [exact Hpb|]. split; [|reflexivity].
    cbn [pl_qty update_item_quantity flt]. unfold Qminus.
    apply Qplus_le_compat; [apply Qle_refl|]. apply Qopp_le_compat. apply pymax_ge_r.
Qed.

Lemma pick_list_rows_witness :
  ((exists item, In item (so_items pick_proforma) /\ (0 < stock_reserved_qty item)%Q) ->
     exists msg, create_pick_list pick_host "PF-0001" = Err (ValidationError msg))
  /\ (forall rows packed,
        create_pick_list pick_host "PF-0001" = Ok (rows, packed) ->
        (forall item, In item (so_items pick_proforma) -> (stock_reserved_qty item <= 0)%Q)
        /\ forall t, In t rows ->
             exists r,
               In r (so_items pick_proforma) /\ proforma_item t = name r
               /\ (Qabs (delivered_qty r) < Qabs (qty r))%Q
               /\ delivered_by_supplier r <> 1%Z
               /\ is_product_bundle pick_host (item_code r) = false
               /\ (pl_qty t <= qty r - delivered_qty r)%Q
               /\ pl_stock_qty t = (pl_qty t * flt (conversion_factor r))%Q).
Proof.
  apply (pick_list_rows pick_host "PF-0001" pick_proforma). reflexivity.
Defined.

Example pick_list_of_sample :
  create_pick_list pick_host "PF-0001" = Ok ([picked_item], [])
  /\ pl_qty picked_item == 6.
Proof. split; reflexivity. Qed.

End PickExtras.

(** ** Delivery dates *)

Section DateExtras.
Import DeliveryDate Samples.

Lemma fold_max_spec (l : list Z) :
  forall x : Z,
    (x <= fold_left Z.max l x)%Z
    /\ (forall y, In y l -> (y <= fold_left Z.max l x)%Z)
    /\ (fold_left Z.max l x = x \/ In (fold_left Z.max l x) l).
Proof.
  induction l as [|a rest IH]; intros x; cbn [fold_left].
  - split; [lia|]. split; [intros y [] | left; reflexivity].
  - destruct (IH (Z.max x a)) as (H1 & H2 & H3). split; [lia|]. split.
    + intros y [<- | Hy]; [lia | apply H2, Hy].
    + destruct H3 as [H3 | H3]; [|right; right; exact H3].
      rewrite H3. destruct (Z.max_spec x a) as [[_ ->] | [_ ->]];
        [right; left; reflexivity | left; reflexivity].
Qed.

Lemma max_date_spec (l : list Z) (m : Z) :
  max_date l = Some m -> In m l /\ forall y, In y l -> (y <= m)%Z.
Proof.
  destruct l as [|x rest]; [discriminate|]. cbn [max_date]. intros [= <-].
  destruct (fold_max_spec rest x) as (H1 & H2 & H3). split.
  - destruct H3 as [-> | H3]; [left; reflexivity | right; exact H3].
  - intros y [<- | Hy]; [exact H1 | apply H2, Hy].
Qed.

Lemma fill_dates_spec (transaction_date d : Z) (items : list Item) :
  (forall i x, In i items -> delivery_date i = Some x -> (x <= d)%Z) ->
  forall items',
    fill_dates transaction_date d items = Ok items' ->
    Forall2 (fun i i' => name i' = name i
                         /\ delivery_date i' = Some (default d (delivery_date i)))
      items items'
    /\ forall i', In i' items' ->
         exists di, delivery_date i' = Some di /\ (transaction_date <= di <= d)%Z.
Proof.
  induction items as [|i rest IH]; intros Hle items' H; cbn [fill_dates] in H.
  - inversion H; subst. split; [constructor | intros i' []].
  - assert (Hrest : forall rest',
               fill_dates transaction_date d rest = Ok rest' ->
               Forall2 (fun i i' => name i' = name i
                                    /\ delivery_date i' = Some (default d (delivery_date i)))
                 rest rest'
               /\ forall i', In i' rest' ->
                    exists di, delivery_date i' = Some di
                               /\ (transaction_date <= di <= d)%Z).
    { intros rest' Hr. apply IH; [|exact Hr]. intros j x Hj. apply Hle. right. exact Hj. }
    destruct (delivery_date i) as [x|] eqn:Ex.
    + rewrite Ex in H. cbn [default from_option id] in H.
      destruct (Z.ltb_spec x transaction_date) as [Hlt | Hge]; [discriminate|].
      destruct (fill_dates transaction_date d rest) as [rest'|err]; [|discriminate].
      cbn [bind] in H. inversion H; subst. destruct (Hrest rest' eq_refl) as [HF Hall].
      split.
      * constructor; [|exact HF]. rewrite Ex. split; reflexivity.
      * intros i' [<- | Hin]; [|apply Hall, Hin].
        exists x. split; [exact Ex|]. split; [exact Hge|].
        apply (Hle i x (or_introl eq_refl) Ex).
    + cbn [with_date delivery_date default from_option id] in H.
      destruct (Z.ltb_spec d transaction_date) as [Hlt | Hge]; [discriminate|].
      destruct (fill_dates transaction_date d rest) as [rest'|err]; [|discriminate].
      cbn [bind] in H. inversion H; subst. destruct (Hrest rest' eq_refl) as [HF Hall].
      split.
      * constructor; [|exact HF]. rewrite Ex. split; reflexivity.
      * intros i' [<- | Hin]; [|apply Hall, Hin].
        exists d. split; [reflexivity|]. lia.
Qed.

(** X25. When [validate_delivery_date] accepts a sales document that is
    not exempt from delivery notes, the document has a delivery date, every
    row has one, lying between the transaction date and the document's
    date, rows that had a date keep it, and the document's date is the
    latest date of the rows whenever some row had a date. *)
Theorem delivery_dates_after_validation (transaction_date : Z)
    (doc_delivery_date : option Z) (items : list Item)
    (result_date : option Z) (items' : list Item) :
  validate_delivery_date "Sales" false transaction_date doc_delivery_date items
  = Ok (result_date, items') ->
  exists d,
    result_date = Some d
    /\ Forall2 (fun i i' => name i' = name i
                            /\ delivery_date i' = Some (default d (delivery_date i)))
         items items'
    /\ (forall i', In i' items' ->
          exists di, delivery_date i' = Some di /\ (transaction_date <= di <= d)%Z)
    /\ (omap delivery_date items <> [] ->
        exists i, In i items /\ delivery_date i = Some d).
Proof.
  unfold validate_delivery_date. cbn [String.eqb negb andb].
  change (String.eqb "Sales" "Sales" && true) with true. cbn iota.
  intros H.
  assert (Hmem : forall i x, In i items -> delivery_date i = Some x ->
                             In x (omap delivery_date items)).
  { intros i x Hi Hx. apply list_elem_of_In, list_elem_of_omap.
    exists i. split; [apply list_elem_of_In, Hi | exact Hx]. }
  destruct (max_date (omap delivery_date items)) as [m|] eqn:Em.
  - apply max_date_spec in Em. destruct Em as [Hin Hmax].
    assert (Hdate : (match doc_delivery_date with
                     | Some cur => if negb (cur =? m)%Z then Some m else Some cur
                     | None => Some m
                     end) = Some m).
    { destruct doc_delivery_date as [cur|]; [|reflexivity].
      destruct (Z.eqb_spec cur m) as [-> | Hne]; reflexivity. }
    rewrite Hdate in H.
    destruct (fill_dates transaction_date m items) as [filled|err] eqn:Ef; [|discriminate].
    cbn [bind] in H. inversion H; subst.
    destruct (fill_dates_spec transaction_date m items
                (fun i x Hi Hx => Hmax x (Hmem i x Hi Hx)) items' Ef) as [HF Hall].
    exists m. split; [reflexivity|]. split; [exact HF|]. split; [exact Hall|].
    intros _. apply list_elem_of_In, list_elem_of_omap in Hin.
    destruct Hin as (i & Hi & Hx). exists i. split; [apply list_elem_of_In, Hi | exact Hx].
  - destruct doc_delivery_date as [cur|]; [|discriminate].
    destruct (fill_dates transaction_date cur items) as [filled|err] eqn:Ef; [|discriminate].
    cbn [bind] in H. inversion H; subst.
    assert (Hempty : omap delivery_date items = []).
    { destruct (omap delivery_date items); [reflexivity | discriminate]. }
    destruct (fill_dates_spec transaction_date cur items) with (2 := Ef) as [HF Hall].
    { intros i x Hi Hx. pose proof (Hmem i x Hi Hx) as Hc. rewrite Hempty in Hc.
      destruct Hc. }
    exists cur. split; [reflexivity|]. split; [exact HF|]. split; [exact Hall|].
    intros Hne. contradiction.
Qed.

Lemma delivery_dates_after_validation_witness :
  exists d,
    Some 25%Z = Some d
    /\ Forall2 (fun i i' => name i' = name i
                            /\ delivery_date i' = Some (default d (delivery_date i)))
         dated_rows dated_rows_after
    /\ (forall i', In i' dated_rows_after ->
          exists di, delivery_date i' = Some di /\ (10 <= di <= d)%Z)
    /\ (omap delivery_date dated_rows <> [] ->
        exists i, In i dated_rows /\ delivery_date i = Some d).
Proof.
  apply (delivery_dates_after_validation 10 (Some 22%Z) dated_rows (Some 25%Z)
           dated_rows_after).
  reflexivity.
Defined.

Example delivery_date_before_transaction_refused :
  validate_delivery_date "Sales" false 21 None dated_rows
  = Err (ValidationError "Expected Delivery Date should be after Proforma Date").
Proof. reflexivity. Qed.

Example delivery_date_missing_refused :
  validate_delivery_date "Sales" false 10 None [mkItem "d1" None]
  = Err (ValidationError "Please enter Delivery Date").
Proof. reflexivity. Qed.

End DateExtras.

(** ** Work orders *)

Section WorkOrderExtras.
Import MakeWorkOrders Samples.

Lemma work_order_loop_spec (h : Host) (proforma company : string)
    (project : option string) (parsed : list WoRequest) :
  exists done rest,
    parsed = done ++ rest
    /\ forallb acceptable done = true
    /\ (work_order_loop h company proforma project parsed).1
       = flat_map (fun i => let wo := new_work_order company proforma project i in
                            [InsertWo wo; SaveWo wo]) done
    /\ match (work_order_loop h company proforma project parsed).2 with
       | Ok names =>
           rest = []
           /\ names = (fun i => name_of h (new_work_order company proforma project i))
                      <$> done
       | Err e =>
           exists bad rest' msg,
             rest = bad :: rest' /\ acceptable bad = false /\ e = ValidationError msg
       end.
Proof.
  induction parsed as [|i rest IH]; cbn [work_order_loop].
  - exists [], []. repeat split.
  - destruct (truthy_str (bom i)) eqn:Eb; cbn [negb].
    2:{ exists [], (i :: rest). split; [reflexivity|]. split; [reflexivity|].
        split; [reflexivity|]. exists i, rest. eexists.
        split; [reflexivity|]. split; [|reflexivity]. unfold acceptable. rewrite Eb.
        reflexivity. }
    destruct (truthy_opt_Q (pending_qty i)) eqn:Eq; cbn [negb].
    2:{ exists [], (i :: rest). split; [reflexivity|]. split; [reflexivity|].
        split; [reflexivity|]. exists i, rest. eexists.
        split; [reflexivity|]. split; [|reflexivity]. unfold acceptable. rewrite Eb, Eq.
        reflexivity. }
    destruct IH as (done & rest0 & Hsplit & Hacc & Heffs & Hres).
    destruct (work_order_loop h company proforma project rest) as [effs r].
    cbn [fst snd] in Heffs, Hres |- *.
    exists (i :: done), rest0. split; [rewrite Hsplit; reflexivity|]. split.
    { cbn [forallb]. unfold acceptable at 1. rewrite Eb, Eq, Hacc. reflexivity. }
    split; [cbn; rewrite Heffs; reflexivity|].
    destruct r as [names|e]; cbn [bind].
    + destruct Hres as [-> ->]. split; reflexivity.
    + exact Hres.
Qed.

(** X26. [make_work_orders] issues an insert and a save of one Work Order
    for each request up to the first one without a BOM or without a
    quantity, and raises there; the calls issued are those of the requests
    before it, in order, and nothing else.  The function commits nothing
    itself, so what becomes of these writes after the exception is left to
    the host's transaction.  It returns the names of the orders, one for
    each request, exactly when every request has both. *)
Theorem work_orders_until_first_bad (h : Host) (items : string) (proforma company : string)
    (project : option string) (parsed : list WoRequest) :
  json_loads_items h items = Ok parsed ->
  exists done rest,
    parsed = done ++ rest
    /\ forallb acceptable done = true
    /\ (make_work_orders h items proforma company project).1
       = flat_map (fun i => let wo := new_work_order company proforma project i in
                            [InsertWo wo; SaveWo wo]) done
    /\ match (make_work_orders h items proforma company project).2 with
       | Ok names =>
           rest = []
           /\ names = (fun i => name_of h (new_work_order company proforma project i))
                      <$> done
       | Err e =>
           exists bad rest' msg,
             rest = bad :: rest' /\ acceptable bad = false /\ e = ValidationError msg
       end.
Proof.
  intros Hparse. unfold make_work_orders. rewrite Hparse.
  apply work_order_loop_spec.
Qed.

Lemma work_orders_until_first_bad_witness :
  exists done rest,
    wo_requests = done ++ rest
    /\ forallb acceptable done = true
    /\ (make_work_orders wo_host "items" "PF-0001" "Company B" None).1
       = flat_map (fun i => let wo := new_work_order "Company B" "PF-0001" None i in
                            [InsertWo wo; SaveWo wo]) done
    /\ match (make_work_orders wo_host "items" "PF-0001" "Company B" None).2 with
       | Ok names =>
           rest = []
           /\ names = (fun i => name_of wo_host (new_work_order "Company B" "PF-0001" None i))
                      <$> done
       | Err e =>
           exists bad rest' msg,
             rest = bad :: rest' /\ acceptable bad = false /\ e = ValidationError msg
       end.
Proof.
  apply (work_orders_until_first_bad wo_host "items" "PF-0001" "Company B" None wo_requests).
  reflexivity.
Defined.

Example two_work_orders_before_failure :
  length (make_work_orders wo_host "items" "PF-0001" "Company B" None).1 = 4%nat
  /\ (make_work_orders wo_host "items" "PF-0001" "Company B" None).2
     = Err (ValidationError "Please select BOM against item ITEM-C").
Proof. split; reflexivity. Qed.

End WorkOrderExtras.

(** ** Delivery status *)

Section DeliveryStatusExtras.
Import DeliveryStatus Samples.

Lemma fold_sum_bounds (d q : Item -> Q) (items : list Item) :
  (forall i, In i items -> (0 <= d i /\ d i <= q i)%Q) ->
  forall a b, (0 <= a)%Q -> (a <= b)%Q ->
  (0 <= fold_left (fun acc i => acc + d i) items a)%Q
  /\ (fold_left (fun acc i => acc + d i) items a
      <= fold_left (fun acc i => acc + q i) items b)%Q.
Proof.
  induction items as [|i rest IH]; intros Hall a b Ha Hab; cbn [fold_left].
  - split; assumption.
  - destruct (Hall i (or_introl eq_refl)) as [H0 H1].
    apply IH.
    + intros j Hj. apply Hall. right. exact Hj.
    + apply Qle_trans with (a + 0)%Q; [rewrite Qplus_0_r; exact Ha|].
      apply Qplus_le_compat; [apply Qle_refl|exact H0].
    + apply Qplus_le_compat; assumption.
Qed.

Lemma fold_refresh_qty (po : string -> string -> option Q) (items : list Item) (a : Q) :
  fold_left (fun acc i => (acc + qty i)%Q) (refresh po <$> items) a
  = fold_left (fun acc i => (acc + qty i)%Q) items a.
Proof.
  revert a. induction items as [|i rest IH]; intros a; [reflexivity|].
  cbn [fmap list_fmap fold_left]. 
  assert (qty (refresh po i) = qty i) as ->.
  { unfold refresh. destruct (truthy_Z (delivered_by_supplier i)); reflexivity. }
  apply IH.
Qed.

(** X27. [Proforma.update_delivery_status] leaves the rows that are not
    delivered by the supplier as they are and gives every other row the
    quantity of its delivered Purchase Orders.  It writes [per_delivered]
    exactly when the total ordered quantity is not zero, and the value
    written is the delivered total over the ordered total, times 100.
    When every row's delivered quantity then lies between 0 and the row's
    quantity, that percentage lies between 0 and 100; a negative delivered
    quantity can make it negative. *)
Theorem per_delivered_is_percentage (po : string -> string -> option Q)
    (items items' : list Item) (per : option Q) :
  update_delivery_status po items = (items', per) ->
  items' = refresh po <$> items
  /\ (forall i, In i items -> truthy_Z (delivered_by_supplier i) = false -> In i items')
  /\ (forall i, In i items -> truthy_Z (delivered_by_supplier i) = true ->
       In (with_delivered i (flt (po (name i) (item_code i)))) items')
  /\ (per = None <-> (sum_of qty items == 0)%Q)
  /\ (forall p, per = Some p ->
       p = (sum_of delivered_qty items' / sum_of qty items * 100)%Q
       /\ ((forall i, In i items' -> (0 <= delivered_qty i /\ delivered_qty i <= qty i)%Q) ->
           (0 <= p /\ p <= 100)%Q)).
Proof.
  unfold update_delivery_status. intros E. inversion E as [[Ei Ep]]. clear E.
  rewrite Ei in *.
  assert (Hqty : sum_of qty items' = sum_of qty items).
  { rewrite <- Ei. apply fold_refresh_qty. }
  split; [subst items'; reflexivity|].
  split.
  { intros i Hi Hf. rewrite <- Ei. apply in_map_iff. exists i. split; [|exact Hi].
    unfold refresh. rewrite Hf. reflexivity. }
  split.
  { intros i Hi Ht. rewrite <- Ei. apply in_map_iff. exists i. split; [|exact Hi].
    unfold refresh. rewrite Ht. reflexivity. }
  rewrite Hqty in *.
  destruct (Qeq_bool (sum_of qty items) 0) eqn:Ez; cbn [negb] in *.
  - split.
    + split; [intros _; apply Qeq_bool_iff; exact Ez|reflexivity].
    + intros p Hp. subst per. discriminate Hp.
  - assert (Hne : ~ (sum_of qty items == 0)%Q).
    { intros H. apply Qeq_bool_iff in H. congruence. }
    split.
    + split; [intros H; subst per; discriminate H|intros H; contradiction].
    + intros p Hp. subst per. inversion Hp as [Hp']. clear Hp.
      split; [reflexivity|]. intros Hall.
      destruct (fold_sum_bounds delivered_qty qty items' Hall 0 0 (Qle_refl 0) (Qle_refl 0))
        as [H0 H1].
      fold (sum_of delivered_qty items') in H0, H1.
      fold (sum_of qty items') in H1. rewrite Hqty in H1.
      assert (Hpos : (0 < sum_of qty items)%Q).
      { apply Qle_lteq in H0.
        assert (0 <= sum_of qty items)%Q as Hq.
        { apply Qle_trans with (sum_of delivered_qty items'); [|exact H1].
          destruct H0 as [H0|H0]; [apply Qlt_le_weak; exact H0|rewrite <- H0; apply Qle_refl]. }
        apply Qle_lteq in Hq. destruct Hq as [Hq|Hq]; [exact Hq|].
        exfalso. apply Hne. symmetry. exact Hq. }
      unfold flt. split.
      * apply Qmult_le_0_compat; [|discriminate].
        apply Qle_shift_div_l; [exact Hpos|]. rewrite Qmult_0_l. exact H0.
      * apply Qle_trans with (1 * 100)%Q; [|apply Qle_refl].
        apply Qmult_le_compat_r; [|discriminate].
        apply Qle_shift_div_r; [exact Hpos|]. rewrite Qmult_1_l. exact H1.
Qed.

Lemma per_delivered_is_percentage_witness :
  (update_delivery_status po_delivered_sample shipped_rows).1
  = refresh po_delivered_sample <$> shipped_rows
  /\ (forall i, In i shipped_rows -> truthy_Z (delivered_by_supplier i) = false ->
       In i (update_delivery_status po_delivered_sample shipped_rows).1)
  /\ (forall i, In i shipped_rows -> truthy_Z (delivered_by_supplier i) = true ->
       In (with_delivered i (flt (po_delivered_sample (name i) (item_code i))))
          (update_delivery_status po_delivered_sample shipped_rows).1)
  /\ ((update_delivery_status po_delivered_sample shipped_rows).2 = None
      <-> (sum_of qty shipped_rows == 0)%Q)
  /\ (forall p, (update_delivery_status po_delivered_sample shipped_rows).2 = Some p ->
       p = (sum_of delivered_qty (update_delivery_status po_delivered_sample shipped_rows).1
            / sum_of qty shipped_rows * 100)%Q
       /\ ((forall i, In i (update_delivery_status po_delivered_sample shipped_rows).1 ->
              (0 <= delivered_qty i /\ delivered_qty i <= qty i)%Q) ->
           (0 <= p /\ p <= 100)%Q)).
Proof.
  apply (per_delivered_is_percentage po_delivered_sample shipped_rows).
  reflexivity.
Defined.

Example negative_delivered_quantity_stored :
  exists p,
    (update_delivery_status (fun _ _ => None) [mkItem "u1" "ITEM-A" 10 (-5) None]).2 = Some p
    /\ (p == -50)%Q.
Proof. eexists. split; [reflexivity|]. vm_compute. reflexivity. Qed.

Example sample_per_delivered :
  exists p, (update_delivery_status po_delivered_sample shipped_rows).2 = Some p
            /\ (p == 60)%Q.
Proof. eexists. split; [reflexivity|]. vm_compute. reflexivity. Qed.

End DeliveryStatusExtras.

(** ** Items for work orders *)

Section WorkOrderItemExtras.
Import GetWorkOrderItems Samples.

(** X28. Every element [get_work_order_items] returns comes from a row of
    the item table or of the packed items that is not an enabled bundle
    parent of the item table, and carries a pending quantity different
    from zero: the row's stock quantity less the quantity of its Work
    Orders that are not cancelled, or the stock quantity itself for a raw
    material request.  The pending quantity can be negative.  Sent back
    unchanged to [make_work_orders], the element passes the quantity test,
    and the BOM test exactly when the item has a default BOM. *)
Theorem work_order_items_are_pending (h : Host) (proforma : string) (so : Proforma)
    (for_raw_material_request : bool) (out : list WoItem) :
  get_doc h proforma = Ok so ->
  get_work_order_items h (Some proforma) for_raw_material_request = Ok (Some out) ->
  forall it, In it out ->
    (exists i, In i (items so ++ packed_items so)
       /\ wi_name it = name i /\ wi_proforma_item it = name i
       /\ wi_item_code it = item_code i
       /\ ~ (In (item_code i) (item_code <$> items so)
             /\ exists pb, In pb (bundles h) /\ new_item_code pb = item_code i
                           /\ disabled pb = 0%Z)
       /\ wi_pending_qty it
          = (if for_raw_material_request then row_stock_qty i
             else row_stock_qty i - total_work_order_qty h so i)%Q
       /\ wi_required_qty it
          = (if for_raw_material_request then row_stock_qty i else 0)%Q)
    /\ ~ (wi_pending_qty it == 0)%Q
    /\ MakeWorkOrders.truthy_opt_Q (MakeWorkOrders.pending_qty (as_request it)) = true
    /\ MakeWorkOrders.acceptable (as_request it)
       = truthy_str (get_default_bom h (wi_item_code it)).
Proof.
  intros Hdoc. unfold get_work_order_items.
  destruct (truthy_str (Some proforma)) eqn:Et; [|discriminate].
  cbn [default from_option id]. rewrite Hdoc. cbn [bind].
  intros E it Hit. inversion E as [Eout]. clear E. subst out.
  apply list_elem_of_In in Hit. apply list_elem_of_omap in Hit.
  destruct Hit as (i & Hi & Hf).
  apply list_elem_of_In in Hi. cbn [concat] in Hi. rewrite app_nil_r in Hi.
  unfold item_for in Hf.
  set (pending := if negb for_raw_material_request
                  then (row_stock_qty i - total_work_order_qty h so i)%Q
                  else row_stock_qty i) in *.
  destruct (truthy_Q pending) eqn:Ep; cbn [andb] in Hf; [|discriminate].
  destruct (str_in (item_code i)
              (product_bundle_parents h (item_code <$> items so))) eqn:Es;
    cbn [negb] in Hf; [discriminate|].
  inversion Hf as [Hit]. clear Hf.
  assert (Hpend : ~ (pending == 0)%Q) by (apply truthy_Q_true; exact Ep).
  split; [exists i|split; [|split]].
  - split; [exact Hi|]. do 3 (split; [reflexivity|]). split.
    + intros (Hcode & pb & Hpb & Hnew & Hdis).
      assert (str_in (item_code i) (product_bundle_parents h (item_code <$> items so))
              = true) as Hin; [|congruence].
      apply str_in_In. unfold product_bundle_parents. apply in_map_iff.
      exists pb. split; [exact Hnew|]. apply filter_In. split; [exact Hpb|].
      rewrite Hnew, Hdis. rewrite (proj2 (str_in_In _ _) Hcode). reflexivity.
    + cbn [wi_pending_qty wi_required_qty]. subst pending.
      destruct for_raw_material_request; split; reflexivity.
  - cbn [wi_pending_qty]. exact Hpend.
  - cbn. exact Ep.
  - unfold MakeWorkOrders.acceptable. cbn. fold pending. rewrite Ep, andb_true_r.
    destruct (get_default_bom h (item_code i)) as [b|] eqn:Eb; cbn; [|reflexivity].
    destruct (String.eqb b "") eqn:Ebb; cbn; [reflexivity|]. rewrite Ebb. reflexivity.
Qed.

Lemma work_order_items_are_pending_witness :
  (exists i, In i (items wo_proforma_doc ++ packed_items wo_proforma_doc)
     /\ wi_name returned_item = name i /\ wi_proforma_item returned_item = name i
     /\ wi_item_code returned_item = item_code i
     /\ ~ (In (item_code i) (item_code <$> items wo_proforma_doc)
           /\ exists pb, In pb (bundles wo_items_host) /\ new_item_code pb = item_code i
                         /\ disabled pb = 0%Z)
     /\ wi_pending_qty returned_item
        = (if false then row_stock_qty i
           else row_stock_qty i - total_work_order_qty wo_items_host wo_proforma_doc i)%Q
     /\ wi_required_qty returned_item = (if false then row_stock_qty i else 0)%Q)
  /\ ~ (wi_pending_qty returned_item == 0)%Q
  /\ MakeWorkOrders.truthy_opt_Q (MakeWorkOrders.pending_qty (as_request returned_item))
     = true
  /\ MakeWorkOrders.acceptable (as_request returned_item)
     = truthy_str (get_default_bom wo_items_host (wi_item_code returned_item)).
Proof.
  apply (work_order_items_are_pending wo_items_host "PF-0001" wo_proforma_doc false
           [returned_item;
            mkWoItem "p1" "PART" "part" "" "WH-1" (3 - 0)%Q 0 "p1"]).
  - reflexivity.
  - reflexivity.
  - left. reflexivity.
Defined.

Example negative_pending_quantity_returned :
  exists it out,
    get_work_order_items wo_items_host (Some "PF-0001") false = Ok (Some out)
    /\ In it out /\ wi_item_code it = "ITEM-B" /\ (wi_pending_qty it < 0)%Q.
Proof.
  eexists. eexists. split; [reflexivity|]. split; [left; reflexivity|].
  split; reflexivity.
Qed.

Example no_name_no_items (h : Host) (raw : bool) :
  get_work_order_items h None raw = Ok None
  /\ get_work_order_items h (Some "") raw = Ok None.
Proof. split; reflexivity. Qed.

End WorkOrderItemExtras.

(** ** Warehouses and suppliers of the rows *)

Section WarehouseExtras.
Import DocMethods Samples.

Lemma warehouse_loop_ok (h : Host) (pbsi : string -> nat) (items : list Item) :
  warehouse_loop h pbsi items = Ok tt
  <-> forall d, In d items -> needs_warehouse h pbsi d = true ->
        truthy_str (warehouse d) = true \/ truthy_Z (delivered_by_supplier d) = true.
Proof.
  induction items as [|d rest IH]; cbn [warehouse_loop].
  - split; [intros _ d []|reflexivity].
  - destruct (needs_warehouse h pbsi d) eqn:En; cbn [andb].
    + destruct (truthy_str (warehouse d)) eqn:Ew; cbn [negb andb].
      * rewrite IH. split.
        -- intros H x [<-|Hx] Hn; [left; exact Ew|exact (H x Hx Hn)].
        -- intros H x Hx. apply H. right. exact Hx.
      * destruct (truthy_Z (delivered_by_supplier d)) eqn:Ed; cbn [negb].
        -- rewrite IH. split.
           ++ intros H x [<-|Hx] Hn; [right; exact Ed|exact (H x Hx Hn)].
           ++ intros H x Hx. apply H. right. exact Hx.
        -- split; [discriminate|]. intros H.
           destruct (H d (or_introl eq_refl) En) as [Hc|Hc]; congruence.
    + rewrite IH. split.
      * intros H x [<-|Hx] Hn; [congruence|exact (H x Hx Hn)].
      * intros H x Hx. apply H. right. exact Hx.
Qed.

Lemma validate_drop_ship_ok (items : list Item) :
  validate_drop_ship items = Ok tt
  <-> forall d, In d items -> truthy_Z (delivered_by_supplier d) = true ->
        truthy_str (supplier d) = true.
Proof.
  induction items as [|d rest IH]; cbn [validate_drop_ship].
  - split; [intros _ d []|reflexivity].
  - destruct (truthy_Z (delivered_by_supplier d)) eqn:Ed; cbn [andb].
    + destruct (truthy_str (supplier d)) eqn:Es; cbn [negb].
      * rewrite IH. split.
        -- intros H x [<-|Hx] Hn; [exact Es|exact (H x Hx Hn)].
        -- intros H x Hx. apply H. right. exact Hx.
      * split; [discriminate|]. intros H.
        specialize (H d (or_introl eq_refl) Ed). congruence.
    + rewrite IH. split.
      * intros H x [<-|Hx] Hn; [congruence|exact (H x Hx Hn)].
      * intros H x Hx. apply H. right. exact Hx.
Qed.

(** X29. [Proforma.validate_warehouse] and [Proforma.validate_drop_ship]
    both return normally exactly when the controller's own warehouse check
    passes, every row delivered by the supplier names a supplier, and
    every other row of a stock item, or of a product bundle with a stock
    item, names a warehouse.  A row delivered by the supplier needs no
    warehouse. *)
Theorem warehouse_or_supplier_per_row (h : Host) (super_validate_warehouse : result unit)
    (product_bundle_has_stock_item : string -> nat) (items : list Item) :
  (validate_warehouse h super_validate_warehouse product_bundle_has_stock_item items = Ok tt
   /\ validate_drop_ship items = Ok tt)
  <-> (super_validate_warehouse = Ok tt
       /\ forall d, In d items ->
            if truthy_Z (delivered_by_supplier d)
            then truthy_str (supplier d) = true
            else needs_warehouse h product_bundle_has_stock_item d = true ->
                 truthy_str (warehouse d) = true).
Proof.
  unfold validate_warehouse. rewrite validate_drop_ship_ok.
  destruct super_validate_warehouse as [[]|e]; cbn [bind].
  - rewrite warehouse_loop_ok. split.
    + intros [Hw Hd]. split; [reflexivity|]. intros d Hin.
      destruct (truthy_Z (delivered_by_supplier d)) eqn:Ed.
      * exact (Hd d Hin Ed).
      * intros Hn. destruct (Hw d Hin Hn) as [H|H]; [exact H|congruence].
    + intros [_ H]. split.
      * intros d Hin Hn. specialize (H d Hin).
        destruct (truthy_Z (delivered_by_supplier d)); [right; reflexivity|left; exact (H Hn)].
      * intros d Hin Hd. specialize (H d Hin). rewrite Hd in H. exact H.
  - split; [intros [H _]; discriminate H|intros [H _]; discriminate H].
Qed.

Example drop_shipped_row_without_warehouse :
  let d := mkItem "r1" 1 "ITEM-D" None (Some 1%Q) None (Some 1%Z) (Some "SUP-1")
             None (Some 1%Z) None in
  validate_warehouse method_host (Ok tt) (fun _ => 0%nat) [d] = Ok tt
  /\ validate_drop_ship [d] = Ok tt.
Proof. split; reflexivity. Qed.

Example drop_shipped_row_without_supplier :
  validate_drop_ship
    [mkItem "r1" 3 "ITEM-D" None (Some 1%Q) None (Some 1%Z) None None (Some 1%Z) None]
  = Err (ValidationError "Row #3: Set Supplier for item ITEM-D").
Proof. reflexivity. Qed.

End WarehouseExtras.

(** ** Delivery dates of bundle items on a Purchase Order *)

Section BundleDateExtras.
Import MakePurchaseOrder Samples.

Lemma delivery_by_item_lookup (rows : list SoRow) (k : string) :
  match fold_left (fun m d => <[item_code d := delivery_date d]> m) rows
          (∅ : gmap string (option string)) !! k with
  | Some v =>
      exists pre d post,
        rows = pre ++ d :: post /\ item_code d = k /\ delivery_date d = v
        /\ Forall (fun x => item_code x <> k) post
  | None => Forall (fun x => item_code x <> k) rows
  end.
Proof.
  induction rows as [|x l IH] using rev_ind.
  - cbn [fold_left]. rewrite lookup_empty. constructor.
  - rewrite fold_left_app. cbn [fold_left].
    destruct (decide (item_code x = k)) as [Heq|Hne].
    + rewrite Heq, lookup_insert_eq. exists l, x, []. repeat split; try assumption.
      constructor.
    + rewrite lookup_insert_ne by exact Hne.
      destruct (fold_left _ l ∅ !! k) as [v|].
      * destruct IH as (pre & d & post & -> & Hk & Hv & Hpost).
        exists pre, d, (post ++ [x]). split; [rewrite <- app_assoc; reflexivity|].
        split; [exact Hk|]. split; [exact Hv|].
        apply Forall_app. split; [exact Hpost|]. constructor; [exact Hne|constructor].
      * apply Forall_app. split; [exact IH|]. constructor; [exact Hne|constructor].
Qed.

(** X30. [set_delivery_date] gives every Purchase Order item of a product
    bundle the delivery date of the last Proforma row, in the order the
    rows are fetched, whose item code is the bundle, and leaves every
    other item as it is; nothing but the schedule date of an item changes.
    When it raises, the exception is the [KeyError] of a bundle that is
    the item code of no Proforma row. *)
Theorem bundle_items_take_last_row_date (so : Proforma) (items : list PoItem) :
  match set_delivery_date (delivery_by_item so) items with
  | Ok items' =>
      Forall2
        (fun item item' =>
           if truthy_str (product_bundle item) then
             (exists pre d post,
                so_items so = pre ++ d :: post
                /\ Some (item_code d) = product_bundle item
                /\ Forall (fun x => Some (item_code x) <> product_bundle item) post
                /\ schedule_date item' = delivery_date d)
             /\ proforma_item item' = proforma_item item
             /\ proforma_packed_item item' = proforma_packed_item item
             /\ product_bundle item' = product_bundle item
             /\ po_item_code item' = po_item_code item
             /\ po_qty item' = po_qty item
             /\ po_stock_qty item' = po_stock_qty item
             /\ po_project item' = po_project item
             /\ po_delivered_by_supplier item' = po_delivered_by_supplier item
           else item' = item)
        items items'
  | Err e =>
      exists item,
        In item items /\ truthy_str (product_bundle item) = true
        /\ Forall (fun x => Some (item_code x) <> product_bundle item) (so_items so)
        /\ e = KeyError (default "" (product_bundle item))
  end.
Proof.
  induction items as [|item rest IH]; cbn [set_delivery_date].
  - constructor.
  - destruct (truthy_str (product_bundle item)) eqn:Et.
    + destruct (product_bundle item) as [b|] eqn:Eb; [|discriminate Et].
      cbn [default from_option id].
      pose proof (delivery_by_item_lookup (so_items so) b) as Hl.
      fold (delivery_by_item so) in Hl.
      destruct (delivery_by_item so !! b) as [v|]; cbn [bind].
      * destruct (set_delivery_date (delivery_by_item so) rest) as [rest'|e]; cbn [bind].
        -- constructor; [|exact IH]. cbv beta. rewrite Eb, Et.
           destruct Hl as (pre & d & post & Hrows & Hk & Hv & Hpost).
           split; [|cbn; rewrite ?Eb; repeat split; reflexivity].
           exists pre, d, post. split; [exact Hrows|]. split; [rewrite Hk; reflexivity|].
           split; [|cbn; symmetry; exact Hv].
           eapply Forall_impl; [exact Hpost|].
           intros x Hx Hc. apply Hx. congruence.
        -- destruct IH as (it & Hin & Htr & Hall & He). exists it.
           split; [right; exact Hin|]. repeat split; assumption.
      * exists item. split; [left; reflexivity|]. split; [rewrite Eb; exact Et|].
        split; [|rewrite Eb; reflexivity]. rewrite Eb.
        eapply Forall_impl; [exact Hl|]. intros x Hx Hc. apply Hx. congruence.
    + cbn [bind].
      destruct (set_delivery_date (delivery_by_item so) rest) as [rest'|e]; cbn [bind].
      * constructor; [rewrite Et; reflexivity|exact IH].
      * destruct IH as (it & Hin & Htr & Hall & He). exists it.
        split; [right; exact Hin|]. repeat split; assumption.
Qed.

End BundleDateExtras.
